(** * Virtual jewelry try-on: image-analysis and compositing pipeline

    A shallow embedding of the TypeScript sources of the try-on pipeline
    (region analysis and integrity validation, placement estimation,
    composition and segmentation), with the properties the design document
    states about them.

    Conventions of the embedding:
    - a JavaScript [number] is an exact rational ([Q]); where the source can
      produce [NaN] out of untrusted text, the value is a [JsNum];
    - [Math.round x] is [floor (x + 1/2)];
    - a [Promise] that rejects / a [throw] is the [Throw] case of [Result],
      and [try { .. } catch { .. }] is [tryCatch];
    - the image library (sharp) and the remote AI services are not part of
      the repository: their calls are variables of the section that uses
      them, so every theorem holds for whatever they return. *)

From Stdlib Require Import QArith Qabs Qround Qminmax ZArith Lia Lqa List Bool String Sorted.
From stdpp Require Import base gmap list.
Import ListNotations.

Open Scope Q_scope.

(** ** JavaScript values and control flow *)

Module JS.

(** The outcome of a computation that may throw; the exception carries the
    message of the [Error]. *)
Inductive Result (A : Type) : Type :=
| Ok (a : A)
| Throw (message : string).
Arguments Ok {A} a.
Arguments Throw {A} message.

Definition bind {A B} (c : Result A) (k : A -> Result B) : Result B :=
  match c with
  | Ok a => k a
  | Throw m => Throw m
  end.

(** [try c catch (e) handler e] *)
Definition tryCatch {A} (c : Result A) (handler : string -> Result A) : Result A :=
  match c with
  | Ok a => Ok a
  | Throw m => handler m
  end.

Definition isOk {A} (c : Result A) : bool :=
  match c with Ok _ => true | Throw _ => false end.

(** Strict comparison [x < y] and [x > y] on numbers, as booleans. *)
Definition Qltb (x y : Q) : bool := negb (Qle_bool y x).
Definition Qgtb (x y : Q) : bool := Qltb y x.

(** [Math.round]: the nearest integer, ties towards plus infinity. *)
Definition mathRound (x : Q) : Z := Qfloor (x + (1 # 2)).

(** [Math.abs] *)
Definition mathAbs (x : Q) : Q := Qabs x.

(** A number that may be [NaN]. *)
Inductive JsNum : Type :=
| Fin (q : Q)
| NaN.

Definition lift2 (f : Q -> Q -> Q) (a b : JsNum) : JsNum :=
  match a, b with
  | Fin x, Fin y => Fin (f x y)
  | _, _ => NaN
  end.

(** [Math.max] and [Math.min] return [NaN] as soon as one argument is. *)
Definition mathMax : JsNum -> JsNum -> JsNum := lift2 Qmax.
Definition mathMin : JsNum -> JsNum -> JsNum := lift2 Qmin.
Definition jsSub : JsNum -> JsNum -> JsNum := lift2 Qminus.
Definition jsDiv : JsNum -> JsNum -> JsNum := lift2 Qdiv.

(** Comparisons with [NaN] are false. *)
Definition jsLt (a b : JsNum) : bool :=
  match a, b with
  | Fin x, Fin y => Qltb x y
  | _, _ => false
  end.
Definition jsGt (a b : JsNum) : bool := jsLt b a.

End JS.
Import JS.

(** The closed enumeration ['ring' | 'necklace' | 'earrings' | 'bracelet'].
    Functions whose parameter is a plain or optional [string] take an
    [option JewelryType], [None] standing for any other string. *)
Inductive JewelryType : Type := ring | necklace | earrings | bracelet.

(** ** lib/validation/jewelryValidator.ts *)

Module Validator.

Record Region : Type := mkRegion {
  x : Q; y : Q; width : Q; height : Q; confidence : Q
}.

(** [regionsOverlap]: rectangles that merely touch count as overlapping. *)
Definition regionsOverlap (region1 region2 : Region) : bool :=
  negb (Qltb (x region1 + width region1) (x region2)
        || Qltb (x region2 + width region2) (x region1)
        || Qltb (y region1 + height region1) (y region2)
        || Qltb (y region2 + height region2) (y region1)).

(** [Math.min(...values)] and [Math.max(...values)] over a list with a
    first element. *)
Definition minOf (first : Q) (rest : list Q) : Q := fold_left Qmin rest first.
Definition maxOf (first : Q) (rest : list Q) : Q := fold_left Qmax rest first.

Definition sumOf (values : list Q) : Q := fold_left Qplus values 0.

(** [mergeRegions]: the bounding rectangle with the averaged confidence.
    The source calls it on [overlapping.map(idx => regions[idx])], which
    starts with [regions[i]] and has at least two elements; the list is
    given here as its first element and the rest. The rectangle is exact
    for the integer blocks of the detectors. [avgConfidence] is the mean
    over exact rationals; the source adds and divides doubles, which can
    differ from it in the last place, so only the bounds 0 and 1, which
    that rounding preserves, are derived from it below. *)
Definition mergeRegions (first : Region) (rest : list Region) : Region :=
  let minX := minOf (x first) (map x rest) in
  let minY := minOf (y first) (map y rest) in
  let maxX := maxOf (x first + width first) (map (fun r => x r + width r) rest) in
  let maxY := maxOf (y first + height first) (map (fun r => y r + height r) rest) in
  let avgConfidence :=
    sumOf (map confidence (first :: rest))
    / inject_Z (Z.of_nat (length (first :: rest))) in
  {| x := minX; y := minY;
     width := maxX - minX; height := maxY - minY;
     confidence := avgConfidence |}.

(** The outer loop of [combineRegions] over the indices not yet visited,
    each paired with its region; [processed] is the [Set<number>] of the
    source and [combined] the output array. For index [i] the inner loop
    scans the later indices, which are the rest of [todo]. *)
Fixpoint combineLoop (todo : list (nat * Region)) (processed : gset nat)
    (combined : list Region) : list Region :=
  match todo with
  | [] => combined
  | (i, region) :: later =>
      if bool_decide (i ∈ processed) then combineLoop later processed combined
      else
        let overlapping :=
          List.filter
            (fun '(j, other) =>
               negb (bool_decide (j ∈ processed)) && regionsOverlap region other)
            later in
        match overlapping with
        | [] =>
            combineLoop later ({[ i ]} ∪ processed) (combined ++ [region])
        | _ :: _ =>
            combineLoop later
              (list_to_set (i :: map fst overlapping) ∪ processed)
              (combined ++ [mergeRegions region (map snd overlapping)])
        end
  end.

Definition indexed (regions : list Region) : list (nat * Region) :=
  combine (seq 0 (length regions)) regions.

Definition combineRegions (regions : list Region) : list Region :=
  combineLoop (indexed regions) ∅ [].

(** No two rectangles of the list overlap (or touch). *)
Fixpoint noOverlap (regions : list Region) : bool :=
  match regions with
  | [] => true
  | r :: rest =>
      forallb (fun other => negb (regionsOverlap r other)) rest && noOverlap rest
  end.

(** Two region lists describe the same set of rectangles. *)
Definition sameRectangle (a b : Region) : bool :=
  Qeq_bool (x a) (x b) && Qeq_bool (y a) (y b)
  && Qeq_bool (width a) (width b) && Qeq_bool (height a) (height b).

Definition sameRectangles (l1 l2 : list Region) : bool :=
  forallb (fun r => existsb (sameRectangle r) l2) l1
  && forallb (fun r => existsb (sameRectangle r) l1) l2.

(** Three 32-pixel blocks in a row, as the metallic detector emits them at
    x = 0, 16 and 48: the first overlaps the second, the second touches
    the third, the first and the third are apart. *)
Definition blockRow : list Region :=
  [ mkRegion 0 0 32 32 (1#2); mkRegion 16 0 32 32 (1#2); mkRegion 48 0 32 32 (1#2) ].

(** Numbers on the pixel grid: even integers, and multiples of one fifth
    (an even integer times 0.1). *)
Definition evenInt (q : Q) : Prop := exists k : Z, q == inject_Z (2 * k).
Definition fifths (q : Q) : Prop := exists e : Z, q * 5 == inject_Z e.

(** A region whose corner and size are even integers, as the block
    detectors emit them. *)
Definition onGrid (r : Region) : Prop :=
  evenInt (x r) /\ evenInt (y r) /\ evenInt (width r) /\ evenInt (height r).

(** *** Block detectors *)

(** The values of [i] visited by [for (let i = start; i < limit; i += step)]. *)
Fixpoint forRange (fuel : nat) (i limit step : Z) : list Z :=
  match fuel with
  | O => []
  | S fuel' =>
      if (i <? limit)%Z then i :: forRange fuel' (i + step)%Z limit step else []
  end.

Definition blockOrigins (extent blockSize step : Z) : list Z :=
  forRange (Z.to_nat (extent - blockSize)) 0%Z (extent - blockSize)%Z step.

(** The nested loops shared by the three detectors: rows of blocks from the
    top, each row from the left; a block whose score passes [accept] is
    pushed with confidence [conf score]. *)
Definition scanBlocks (score : Z -> Z -> Q) (accept : Q -> bool) (conf : Q -> Q)
    (blockSize step imageWidth imageHeight : Z) : list Region :=
  flat_map
    (fun by_ =>
       flat_map
         (fun bx =>
            let s := score bx by_ in
            if accept s
            then [ {| x := inject_Z bx; y := inject_Z by_;
                      width := inject_Z blockSize; height := inject_Z blockSize;
                      confidence := conf s |} ]
            else [])
         (blockOrigins imageWidth blockSize step))
    (blockOrigins imageHeight blockSize step).

(** [regions.sort((a, b) => b.confidence - a.confidence)]: descending by
    confidence, equal confidences keep their order. *)
Fixpoint insertByConfidence (r : Region) (sorted : list Region) : list Region :=
  match sorted with
  | [] => [r]
  | h :: t =>
      if Qltb (confidence r) (confidence h) then h :: insertByConfidence r t
      else r :: sorted
  end.

Definition sortByConfidence (regions : list Region) : list Region :=
  fold_right insertByConfidence [] regions.

(** The rectangle handed to sharp's [extract]. *)
Record Rect : Type := mkRect { left : Z; top : Z; rectWidth : Z; rectHeight : Z }.

(** Step 3 of [extractJewelryFromComposite]: the best region with 10%
    padding, cut at the image border, each number rounded on its own. *)
Definition paddedRect (bestRegion : Region) (imageWidth imageHeight : Q) : Rect :=
  let padding := Qmin (width bestRegion) (height bestRegion) * 0.1 in
  let extractLeft := Qmax 0 (x bestRegion - padding) in
  let extractTop := Qmax 0 (y bestRegion - padding) in
  let extractWidth := Qmin (imageWidth - extractLeft) (width bestRegion + 2 * padding) in
  let extractHeight := Qmin (imageHeight - extractTop) (height bestRegion + 2 * padding) in
  {| left := mathRound extractLeft; top := mathRound extractTop;
     rectWidth := mathRound extractWidth; rectHeight := mathRound extractHeight |}.

(** The fallback of [extractJewelryFromComposite]: a centred square of 30%
    of the smaller dimension. *)
Definition centerCropRect (imageWidth imageHeight : Q) : Rect :=
  let cropSize := Qmin imageWidth imageHeight * 0.3 in
  {| left := mathRound ((imageWidth - cropSize) / 2);
     top := mathRound ((imageHeight - cropSize) / 2);
     rectWidth := mathRound cropSize; rectHeight := mathRound cropSize |}.

(** The rectangle lies inside an image of the given size. *)
Definition insideImage (rect : Rect) (imageWidth imageHeight : Z) : Prop :=
  (0 <= left rect /\ 0 <= top rect
   /\ left rect + rectWidth rect <= imageWidth
   /\ top rect + rectHeight rect <= imageHeight)%Z.

Record ValidationResult : Type := mkValidationResult {
  isValid : bool; similarity : Q; deviations : list string
}.

Record ChannelStats : Type := { mean : Q; stdev : Q }.

Section Pipeline.

(** An encoded image, and the decoded pixel data of one. *)
Variable Buffer : Type.
Variable Pixels : Type.

(** [sharp(b).metadata()]: width and height, [0] when the field is
    missing. *)
Variable metadata : Buffer -> Result (N * N).
(** The three [raw().toBuffer()] conversions of [detectJewelryRegions]. *)
Variable rawPixels : Buffer -> Result Pixels.
(** [sharp(b).extract(rect).toBuffer()] *)
Variable sharpExtract : Buffer -> Rect -> Result Buffer.
(** [sharp(b).stats()] *)
Variable stats : Buffer -> Result (list ChannelStats).
Variable mathSqrt : Q -> Q.
(** [(v).toFixed(1)] *)
Variable toFixed1 : Q -> string.

(** The per-block scores, computed by the source from the pixel data of
    the block at the given origin. *)
Variable analyzeMetallicProperties : Pixels -> Z -> Z -> Q.
Variable calculateEdgeStrength : Pixels -> Z -> Z -> Q.
Variable analyzeJewelryColors : Pixels -> Z -> Z -> Q.

(** The comparisons of two images, each a chain of sharp operations. *)
Variable normalizeForComparison : Buffer -> Result Buffer.
Variable calculateHistogramSimilarity : Buffer -> Buffer -> Result Q.
Variable calculateStructuralSimilarity : Buffer -> Buffer -> Result Q.
Variable calculatePerceptualSimilarity : Buffer -> Buffer -> Result Q.
Variable detectColorChanges : Buffer -> Buffer -> Result Q.
Variable detectShapeChanges : Buffer -> Buffer -> Result Q.
Variable detectTextureChanges : Buffer -> Buffer -> Result Q.
Variable detectSizeChanges : Buffer -> Buffer -> Result Q.

Definition detectMetallicRegions (px : Pixels) (imageWidth imageHeight : Z) : list Region :=
  scanBlocks (analyzeMetallicProperties px) (fun c => Qgtb c 0.4) (fun c => c)
    32 16 imageWidth imageHeight.

Definition detectHighContrastRegions (px : Pixels) (imageWidth imageHeight : Z) : list Region :=
  scanBlocks (calculateEdgeStrength px) (fun e => Qgtb e 0.5) (fun e => Qmin e 1)
    24 12 imageWidth imageHeight.

Definition detectJewelryColorRegions (px : Pixels) (imageWidth imageHeight : Z) : list Region :=
  scanBlocks (analyzeJewelryColors px) (fun m => Qgtb m 0.3) (fun m => m)
    28 14 imageWidth imageHeight.

(** [detectJewelryRegions]: an error of the conversions is caught and
    gives no region. *)
Definition detectJewelryRegions (compositeResult : Buffer) (imageWidth imageHeight : Z)
    : list Region :=
  match rawPixels compositeResult with
  | Throw _ => []
  | Ok px =>
      let combinedRegions :=
        combineRegions (detectMetallicRegions px imageWidth imageHeight
                        ++ detectHighContrastRegions px imageWidth imageHeight
                        ++ detectJewelryColorRegions px imageWidth imageHeight) in
      firstn 5
        (sortByConfidence
           (List.filter (fun region => Qgtb (confidence region) 0.3) combinedRegions))
  end.

Definition finalScore (region : Region) (imageWidth imageHeight : Q) : Q :=
  let area := width region * height region in
  let imageArea := imageWidth * imageHeight in
  let areaRatio := area / imageArea in
  let score := confidence region in
  let score := if Qgtb areaRatio 0.05 && Qltb areaRatio 0.4 then score + 0.2 else score in
  let regionCenterX := x region + width region / 2 in
  let regionCenterY := y region + height region / 2 in
  let imageCenterX := imageWidth / 2 in
  let imageCenterY := imageHeight / 2 in
  let distanceFromCenter :=
    mathSqrt ((regionCenterX - imageCenterX) * (regionCenterX - imageCenterX)
              + (regionCenterY - imageCenterY) * (regionCenterY - imageCenterY)) in
  let maxDistance :=
    mathSqrt ((imageWidth / 2) * (imageWidth / 2) + (imageHeight / 2) * (imageHeight / 2)) in
  let centralityScore := 1 - distanceFromCenter / maxDistance in
  score + centralityScore * 0.3.

Definition selectBestJewelryRegion (regions : list Region) (imageWidth imageHeight : Q)
    : Region :=
  match regions with
  | [] =>
      let size := Qmin imageWidth imageHeight * 0.3 in
      {| x := (imageWidth - size) / 2; y := (imageHeight - size) / 2;
         width := size; height := size; confidence := 0.1 |}
  | first :: rest =>
      fold_left
        (fun best current =>
           if Qgtb (finalScore current imageWidth imageHeight)
                   (finalScore best imageWidth imageHeight)
           then current else best)
        rest first
  end.

(** [sharp(b).metadata()] followed by the [!width || !height] guard. *)
Definition dimensions (compositeResult : Buffer) : Result (N * N) :=
  bind (metadata compositeResult) (fun '(w, h) =>
    if (w =? 0)%N || (h =? 0)%N
    then Throw "Invalid composite image dimensions"
    else Ok (w, h)).

Definition NtoQ (n : N) : Q := inject_Z (Z.of_N n).

(** [extractJewelryFromComposite], returned together with the rectangles
    it asked sharp to extract, in order. A [Buffer] is never falsy, so
    the result needs no null case. *)
Definition extractJewelryFromComposite (compositeResult : Buffer)
    : Result Buffer * list Rect :=
  let attempt : Result Buffer * list Rect :=
    match dimensions compositeResult with
    | Throw m => (Throw m, [])
    | Ok (w, h) =>
        match detectJewelryRegions compositeResult (Z.of_N w) (Z.of_N h) with
        | [] => (Throw "No jewelry regions detected in composite image", [])
        | jewelryRegions =>
            let bestRegion := selectBestJewelryRegion jewelryRegions (NtoQ w) (NtoQ h) in
            let rect := paddedRect bestRegion (NtoQ w) (NtoQ h) in
            (sharpExtract compositeResult rect, [rect])
        end
    end in
  match attempt with
  | (Ok extracted, requested) => (Ok extracted, requested)
  | (Throw _, requested) =>
      match dimensions compositeResult with
      | Throw m => (Throw m, requested)
      | Ok (w, h) =>
          let rect := centerCropRect (NtoQ w) (NtoQ h) in
          (sharpExtract compositeResult rect, requested ++ [rect])
      end
  end.

(** [calculateSimilarity]: the weighted blend clamped into [0,1]; any
    error gives 0. *)
Definition calculateSimilarity (originalJewelry extractedJewelry : Buffer) : Q :=
  let blend :=
    bind (normalizeForComparison originalJewelry) (fun normalizedOriginal =>
    bind (normalizeForComparison extractedJewelry) (fun normalizedExtracted =>
    bind (calculateHistogramSimilarity normalizedOriginal normalizedExtracted) (fun histogramSimilarity =>
    bind (calculateStructuralSimilarity normalizedOriginal normalizedExtracted) (fun structuralSimilarity =>
    bind (calculatePerceptualSimilarity normalizedOriginal normalizedExtracted) (fun perceptualSimilarity =>
    let overallSimilarity :=
      histogramSimilarity * 0.3 + structuralSimilarity * 0.4 + perceptualSimilarity * 0.3 in
    Ok (Qmax 0 (Qmin 1 overallSimilarity))))))) in
  match blend with
  | Ok s => s
  | Throw _ => 0
  end.

(** The body of [detectDeviations]: the checks run in order and push onto
    the same array; the first one that throws ends the run with a
    failure entry after what was pushed so far. *)
Fixpoint runChecks (checks : list (string * Result Q)) (tolerance : Q)
    (deviations : list string) : list string :=
  match checks with
  | [] => deviations
  | (_, Throw m) :: _ =>
      deviations ++ [String.append "Deviation detection failed: " m]
  | (label, Ok deviation) :: rest =>
      runChecks rest tolerance
        (if Qgtb deviation tolerance
         then deviations
                ++ [String.append label
                      (String.append " deviation detected: "
                         (String.append (toFixed1 (deviation * 100)) "%"))]
         else deviations)
  end.

Definition detectDeviations (originalJewelry extractedJewelry : Buffer) (tolerance : Q)
    : list string :=
  runChecks
    [ ("Color"%string, detectColorChanges originalJewelry extractedJewelry);
      ("Shape"%string, detectShapeChanges originalJewelry extractedJewelry);
      ("Texture"%string, detectTextureChanges originalJewelry extractedJewelry);
      ("Size"%string, detectSizeChanges originalJewelry extractedJewelry) ]
    tolerance [].

Definition average (values : list Q) : Q :=
  sumOf values / inject_Z (Z.of_nat (length values)).

(** [performQualityChecks]. With no channel the averages are [NaN] in
    the source and no comparison holds. *)
Definition performQualityChecks (extractedJewelry : Buffer) : list string :=
  match stats extractedJewelry with
  | Throw m => [String.append "Quality check failed: " m]
  | Ok channels =>
      let blurred :=
        match channels with
        | [] => []
        | _ => if Qltb (average (map stdev channels)) 20
               then ["Extracted jewelry appears blurred"%string] else []
        end in
      let exposure :=
        match channels with
        | [] => []
        | _ =>
            let avgMean := average (map mean channels) in
            if Qltb avgMean 30 then ["Extracted jewelry appears too dark"%string]
            else if Qgtb avgMean 225 then ["Extracted jewelry appears too bright"%string]
            else []
        end in
      match metadata extractedJewelry with
      | Throw m => blurred ++ exposure ++ [String.append "Quality check failed: " m]
      | Ok (w, h) =>
          blurred ++ exposure
          ++ (if (w =? 0)%N || (h =? 0)%N || (w <? 32)%N || (h <? 32)%N
              then ["Extracted jewelry region too small"%string] else [])
      end
  end.

(** [validateJewelryIntegrity] *)
Definition validateJewelryIntegrity (originalJewelry compositeResult : Buffer)
    (tolerance : Q) : Result ValidationResult :=
  tryCatch
    (bind (fst (extractJewelryFromComposite compositeResult)) (fun extractedJewelry =>
       let similarity := calculateSimilarity originalJewelry extractedJewelry in
       let deviations := detectDeviations originalJewelry extractedJewelry tolerance in
       let qualityIssues := performQualityChecks extractedJewelry in
       let allDeviations := deviations ++ qualityIssues in
       Ok {| isValid := Qle_bool (1 - tolerance) similarity
                        && (length allDeviations =? 0)%nat;
             similarity := similarity;
             deviations := allDeviations |}))
    (fun message =>
       Ok {| isValid := false; similarity := 0;
             deviations := [String.append "Validation error: " message] |}).

End Pipeline.

(** *** The detailed report *)

Record DetailedMetrics : Type := mkMetrics {
  histogramSimilarity : Q; structuralSimilarity : Q; perceptualSimilarity : Q;
  colorDeviation : Q; shapeDeviation : Q; textureDeviation : Q; sizeDeviation : Q
}.

Record ValidationReport : Type := mkReport {
  validation : ValidationResult; detailedMetrics : DetailedMetrics
}.

Section Report.

Variable Buffer : Type.
Variable Pixels : Type.
Variable metadata : Buffer -> Result (N * N).
Variable rawPixels : Buffer -> Result Pixels.
Variable sharpExtract : Buffer -> Rect -> Result Buffer.
Variable stats : Buffer -> Result (list ChannelStats).
Variable mathSqrt : Q -> Q.
Variable toFixed1 : Q -> string.
Variable analyzeMetallicProperties : Pixels -> Z -> Z -> Q.
Variable calculateEdgeStrength : Pixels -> Z -> Z -> Q.
Variable analyzeJewelryColors : Pixels -> Z -> Z -> Q.
Variable normalizeForComparison : Buffer -> Result Buffer.
Variable calculateHistogramSimilarity : Buffer -> Buffer -> Result Q.
Variable calculateStructuralSimilarity : Buffer -> Buffer -> Result Q.
Variable calculatePerceptualSimilarity : Buffer -> Buffer -> Result Q.
Variable detectColorChanges : Buffer -> Buffer -> Result Q.
Variable detectShapeChanges : Buffer -> Buffer -> Result Q.
Variable detectTextureChanges : Buffer -> Buffer -> Result Q.
Variable detectSizeChanges : Buffer -> Buffer -> Result Q.

(** [generateValidationReport]: the validation, then the jewelry is
    extracted once more and every measurement is taken again, outside any
    [try]. *)
Definition generateValidationReport (originalJewelry compositeResult : Buffer)
    (tolerance : Q) : Result ValidationReport :=
  bind (validateJewelryIntegrity Buffer Pixels metadata rawPixels sharpExtract stats
          mathSqrt toFixed1 analyzeMetallicProperties calculateEdgeStrength
          analyzeJewelryColors normalizeForComparison calculateHistogramSimilarity
          calculateStructuralSimilarity calculatePerceptualSimilarity detectColorChanges
          detectShapeChanges detectTextureChanges detectSizeChanges
          originalJewelry compositeResult tolerance) (fun validation =>
  bind (fst (extractJewelryFromComposite Buffer Pixels metadata rawPixels sharpExtract
               mathSqrt analyzeMetallicProperties calculateEdgeStrength
               analyzeJewelryColors compositeResult)) (fun extractedJewelry =>
  bind (normalizeForComparison originalJewelry) (fun normalizedOriginal =>
  bind (normalizeForComparison extractedJewelry) (fun normalizedExtracted =>
  bind (calculateHistogramSimilarity normalizedOriginal normalizedExtracted) (fun histogram =>
  bind (calculateStructuralSimilarity normalizedOriginal normalizedExtracted) (fun structural =>
  bind (calculatePerceptualSimilarity normalizedOriginal normalizedExtracted) (fun perceptual =>
  bind (detectColorChanges originalJewelry extractedJewelry) (fun color =>
  bind (detectShapeChanges originalJewelry extractedJewelry) (fun shape =>
  bind (detectTextureChanges originalJewelry extractedJewelry) (fun texture =>
  bind (detectSizeChanges originalJewelry extractedJewelry) (fun size =>
    Ok {| validation := validation;
          detailedMetrics :=
            {| histogramSimilarity := histogram; structuralSimilarity := structural;
               perceptualSimilarity := perceptual; colorDeviation := color;
               shapeDeviation := shape; textureDeviation := texture;
               sizeDeviation := size |} |}))))))))))).

End Report.

(** *** Comparisons of two images *)

Section Metrics.

Variable Buffer : Type.
(** [sharp(b).metadata()]: width and height, [0] when the field is
    missing. *)
Variable metadata : Buffer -> Result (N * N).
(** [sharp(b).greyscale().raw().toBuffer()]: the grey values of the
    pixels. *)
Variable greyscaleRaw : Buffer -> Result (list Z).

(** The sum of the squared differences, over the common length. *)
Definition squaredError (gray1 gray2 : list Z) : Z :=
  fold_left (fun mse '(a, b) => (mse + (a - b) * (a - b))%Z) (combine gray1 gray2) 0%Z.

(** [calculateStructuralSimilarity]. For two empty buffers the mean
    squared error is 0 / 0 and the result [NaN]. *)
Definition calculateStructuralSimilarity (image1 image2 : Buffer) : Result JsNum :=
  bind (greyscaleRaw image1) (fun gray1 =>
  bind (greyscaleRaw image2) (fun gray2 =>
    if negb (length gray1 =? length gray2)%nat then Ok (Fin 0)
    else
      match gray1 with
      | [] => Ok NaN
      | _ :: _ =>
          let mse :=
            inject_Z (squaredError gray1 gray2) / inject_Z (Z.of_nat (length gray1)) in
          let maxMSE := 255 * 255 in
          Ok (Fin (Qmax 0 (1 - mse / maxMSE)))
      end)).

(** [detectSizeChanges] *)
Definition detectSizeChanges (originalJewelry extractedJewelry : Buffer) : Result Q :=
  bind (metadata originalJewelry) (fun '(originalWidth, originalHeight) =>
  bind (metadata extractedJewelry) (fun '(extractedWidth, extractedHeight) =>
    if (originalWidth =? 0)%N || (originalHeight =? 0)%N
       || (extractedWidth =? 0)%N || (extractedHeight =? 0)%N
    then Ok 0
    else
      let originalArea := NtoQ originalWidth * NtoQ originalHeight in
      let extractedArea := NtoQ extractedWidth * NtoQ extractedHeight in
      let areaDiff := mathAbs (originalArea - extractedArea) / originalArea in
      let widthDiff := mathAbs (NtoQ originalWidth - NtoQ extractedWidth) / NtoQ originalWidth in
      let heightDiff :=
        mathAbs (NtoQ originalHeight - NtoQ extractedHeight) / NtoQ originalHeight in
      Ok (Qmax (Qmax areaDiff widthDiff) heightDiff))).

End Metrics.

(** *** Scores of a block of pixels *)

(** [data[index]] of a raw buffer; [None] stands for [undefined]. *)
Definition byteAt (data : list Z) (index : Z) : option Z :=
  if (index <? 0)%Z then None else data !! Z.to_nat index.

(** The three channels read at [pixelIndex]. *)
Definition pixelAt (data : list Z) (pixelIndex : Z) : option (Z * Z * Z) :=
  match byteAt data pixelIndex, byteAt data (pixelIndex + 1), byteAt data (pixelIndex + 2) with
  | Some r, Some g, Some b => Some (r, g, b)
  | _, _, _ => None
  end.

(** The values of [dy] (or [dx]) in
    [for (let dy = 0; dy < size && y + dy < height; dy++)]. *)
Definition blockOffsets (size start extent : Z) : list Z :=
  forRange (Z.to_nat size) 0%Z (Z.min size (extent - start)) 1%Z.

(** The pixel indices the two nested loops of a block visit, in order. *)
Definition blockPixelIndices (x y size width height : Z) : list Z :=
  flat_map
    (fun dy => map (fun dx => ((y + dy) * width + (x + dx)) * 3)%Z (blockOffsets size x width))
    (blockOffsets size y height).

(** The score that [analyzeMetallicProperties] gives one pixel. When a
    channel is undefined every comparison is false. *)
Definition metallicPixelScore (pixel : option (Z * Z * Z)) : Q :=
  match pixel with
  | Some (r, g, b) =>
      let brightness := inject_Z (r + g + b) / 3 in
      let saturation := (Z.max (Z.max r g) b - Z.min (Z.min r g) b)%Z in
      let score := 0 in
      let score := if Qgtb brightness 150 then score + 0.3 else score in
      let score := if (saturation <? 50)%Z then score + 0.2 else score in
      let score :=
        if (r >? g)%Z && (g >? b)%Z && (r >? 180)%Z then score + 0.3 else score in
      let score :=
        if (Z.abs (r - g) <? 20)%Z && (Z.abs (g - b) <? 20)%Z && Qgtb brightness 120
        then score + 0.2 else score in
      score
  | None => 0
  end.

(** [analyzeMetallicProperties]; the Lab values are read but not used, the
    Lab buffer only takes part in the bounds test. *)
Definition analyzeMetallicProperties (rgbData labData : list Z)
    (x y size width height : Z) : Q :=
  let counted :=
    List.filter
      (fun pixelIndex =>
         (pixelIndex + 2 <? Z.of_nat (length rgbData))%Z
         && (pixelIndex + 2 <? Z.of_nat (length labData))%Z)
      (blockPixelIndices x y size width height) in
  let metallicScore :=
    sumOf (map (fun pixelIndex => metallicPixelScore (pixelAt rgbData pixelIndex)) counted) in
  let pixelCount := length counted in
  if (0 <? pixelCount)%nat then metallicScore / inject_Z (Z.of_nat pixelCount) else 0.

Record ColorRange : Type := mkRange {
  rangeR : Z * Z; rangeG : Z * Z; rangeB : Z * Z
}.

(** The colour ranges of [detectJewelryColorRegions]: gold, silver, ruby,
    sapphire, emerald. *)
Definition jewelryColors : list ColorRange :=
  [ mkRange (200, 255) (180, 230) (100, 170);
    mkRange (180, 220) (180, 220) (180, 220);
    mkRange (150, 255) (50, 150) (50, 150);
    mkRange (50, 150) (50, 200) (150, 255);
    mkRange (100, 200) (150, 255) (50, 150) ]%Z.

(** The score of one pixel in [analyzeJewelryColors]: 1 for a pixel in one
    of the ranges. *)
Definition colorPixelScore (colors : list ColorRange) (pixel : option (Z * Z * Z)) : Q :=
  match pixel with
  | Some (r, g, b) =>
      if existsb
           (fun colorRange =>
              (fst (rangeR colorRange) <=? r)%Z && (r <=? snd (rangeR colorRange))%Z
              && (fst (rangeG colorRange) <=? g)%Z && (g <=? snd (rangeG colorRange))%Z
              && (fst (rangeB colorRange) <=? b)%Z && (b <=? snd (rangeB colorRange))%Z)
           colors
      then 1 else 0
  | None => 0
  end.

Definition analyzeJewelryColors (rgbData : list Z) (x y size width height : Z)
    (colors : list ColorRange) : Q :=
  let counted :=
    List.filter (fun pixelIndex => (pixelIndex + 2 <? Z.of_nat (length rgbData))%Z)
      (blockPixelIndices x y size width height) in
  let matchScore :=
    sumOf (map (fun pixelIndex => colorPixelScore colors (pixelAt rgbData pixelIndex)) counted) in
  let pixelCount := length counted in
  if (0 <? pixelCount)%nat then matchScore / inject_Z (Z.of_nat pixelCount) else 0.

(** The three raw buffers [detectJewelryRegions] works on. *)
Record RawImages : Type := mkRaw {
  rgbData : list Z; grayData : list Z; labData : list Z
}.

(** One rectangle contains another one. *)
Definition encloses (outer inner : Region) : Prop :=
  x outer <= x inner /\ y outer <= y inner
  /\ x inner + width inner <= x outer + width outer
  /\ y inner + height inner <= y outer + height outer.

(** A region that starts inside the image and ends before its right and
    bottom border. *)
Definition withinImage (imageWidth imageHeight : Z) (region : Region) : Prop :=
  0 <= x region /\ 0 <= y region
  /\ x region + width region < inject_Z imageWidth
  /\ y region + height region < inject_Z imageHeight.

(** Descending by confidence. *)
Definition byConfidence (a b : Region) : Prop := confidence b <= confidence a.

End Validator.

(** ** lib/ai/visionPositioning.ts *)

Module VisionPositioning.

(** A field of the object returned by [JSON.parse]. The parser does two
    things with it: the test [field || default] (ToBoolean) and the numeric
    coercion inside [Math.min] (ToNumber). A string carries the number its
    text coerces to, and an array the number its joined text coerces to,
    since the numeric grammar of strings is not modelled: ["300"] is
    [FString "300" (Fin 300)], ["0"] is [FString "0" (Fin 0)], a word is
    [FString word NaN], [[]] is [FArray (Fin 0)], [[5]] is
    [FArray (Fin 5)], [[1, 2]] is [FArray NaN]. A value that coerces to an
    infinity is clamped like any number beyond the bound and is given by
    such a number. *)
Inductive JsonField : Type :=
| FAbsent
| FNumber (q : Q)
| FNull
| FBool (b : bool)
| FString (text : string) (asNumber : JsNum)
| FArray (asNumber : JsNum)
| FObject.

(** ToBoolean: [undefined], [null], [false], [0] and [""] are falsy. *)
Definition toBoolean (field : JsonField) : bool :=
  match field with
  | FAbsent | FNull => false
  | FNumber q => negb (Qeq_bool q 0)
  | FBool b => b
  | FString text _ => negb (String.eqb text "")
  | FArray _ | FObject => true
  end.

(** ToNumber. *)
Definition toNumber (field : JsonField) : JsNum :=
  match field with
  | FAbsent | FObject => NaN
  | FNumber q => Fin q
  | FNull => Fin 0
  | FBool b => if b then Fin 1 else Fin 0
  | FString _ asNumber | FArray asNumber => asNumber
  end.

Record ParsedJson : Type := mkParsed {
  jx : JsonField; jy : JsonField; jscale : JsonField; jconfidence : JsonField;
  jreasoning : option string
}.

(** What the parser finds in the free-text answer: either the text between
    the first [{] and the last [}] parses as JSON, or it does not (or there
    is none) and the three regular expressions of the fallback are tried.
    [(\d+)] captures a natural number; [([\d.]+)] may capture text that
    [parseFloat] turns into [NaN]. *)
Inductive VisionResponse : Type :=
| JsonObject (parsed : ParsedJson)
| NotJson (xMatch yMatch : option N) (scaleMatch : option JsNum).

Record VisionPositioningResult : Type := mkResult {
  position_x : JsNum; position_y : JsNum;
  scale : JsNum; confidence : JsNum; reasoning : string
}.

(** [field || fallback], then coerced to a number by [Math.min]. *)
Definition orElse (field : JsonField) (fallback : Q) : JsNum :=
  if toBoolean field then toNumber field else Fin fallback.

Definition clamp (lo hi : Q) (v : JsNum) : JsNum :=
  mathMax (Fin lo) (mathMin (Fin hi) v).

(** The four values the JSON branch computes before the necklace check. *)
Definition jsonX (parsed : ParsedJson) (canvasWidth : Q) : JsNum :=
  clamp 50 (canvasWidth - 50) (orElse (jx parsed) (canvasWidth / 2)).
Definition jsonY (parsed : ParsedJson) (canvasHeight : Q) : JsNum :=
  clamp 50 (canvasHeight - 50) (orElse (jy parsed) (canvasHeight / 2)).
Definition jsonScale (parsed : ParsedJson) : JsNum :=
  clamp 0.1 2.0 (orElse (jscale parsed) 0.4).
Definition jsonConfidence (parsed : ParsedJson) : JsNum :=
  clamp 0.0 1.0 (orElse (jconfidence parsed) 0.7).

Definition isNecklace (jewelryType : option JewelryType) : bool :=
  match jewelryType with Some necklace => true | _ => false end.

(** The regular-expression branch, before its final clamps. *)
Definition regexY (yMatch : option N) (canvasHeight : Q) : Q :=
  match yMatch with
  | Some n => inject_Z (Z.of_N n)
  | None => canvasHeight / 2
  end.

(** [parseVisionResponse]. The canvas height divides in the necklace
    check; what is proved below is for a positive one. *)
Definition parseVisionResponse (response : VisionResponse)
    (canvasWidth canvasHeight : Q) (jewelryType : option JewelryType)
    : VisionPositioningResult :=
  match response with
  | JsonObject parsed =>
      let x := jsonX parsed canvasWidth in
      let y := jsonY parsed canvasHeight in
      let scale := jsonScale parsed in
      let confidence := jsonConfidence parsed in
      let percentageFromTop := jsDiv y (Fin canvasHeight) in
      let '(y, confidence) :=
        if isNecklace jewelryType && jsLt percentageFromTop (Fin 0.35)
        then (Fin (canvasHeight * 0.55), mathMax (Fin 0.3) (jsSub confidence (Fin 0.3)))
        else (y, confidence) in
      let '(y, confidence) :=
        if isNecklace jewelryType && jsGt percentageFromTop (Fin 0.75)
        then (Fin (canvasHeight * 0.6), mathMax (Fin 0.3) (jsSub confidence (Fin 0.3)))
        else (y, confidence) in
      {| position_x := x; position_y := y; scale := scale; confidence := confidence;
         reasoning := match jreasoning parsed with
                      | Some r => if String.eqb r "" then "AI-analyzed positioning"%string else r
                      | None => "AI-analyzed positioning"%string
                      end |}
  | NotJson xMatch yMatch scaleMatch =>
      let x := match xMatch with
               | Some n => inject_Z (Z.of_N n)
               | None => canvasWidth / 2
               end in
      let y := regexY yMatch canvasHeight in
      let scale := match scaleMatch with Some s => s | None => Fin 0.4 end in
      let percentageFromTop := y / canvasHeight in
      let y :=
        if isNecklace jewelryType
           && (Qltb percentageFromTop 0.35 || Qgtb percentageFromTop 0.75)
        then canvasHeight * 0.55 else y in
      {| position_x := clamp 50 (canvasWidth - 50) (Fin x);
         position_y := clamp 50 (canvasHeight - 50) (Fin y);
         scale := clamp 0.1 2.0 scale;
         confidence := Fin 0.6;
         reasoning := "Parsed from text analysis" |}
  end.




Definition numeric (field : JsonField) : Prop :=
  match field with FAbsent | FNumber _ => True | _ => False end.


(** The answer holds numbers wherever the parser expects one. *)
Definition numericResponse (response : VisionResponse) : Prop :=
  match response with
  | JsonObject parsed =>
      numeric (jx parsed) /\ numeric (jy parsed)
      /\ numeric (jscale parsed) /\ numeric (jconfidence parsed)
  | NotJson _ _ scaleMatch => scaleMatch <> Some NaN
  end.


End VisionPositioning.

(** ** lib/image/placement.ts *)

Module Placement.

Record JewelryDimensions : Type := mkDimensions { width : Q; height : Q; depth : Q }.

Inductive Perspective : Type := front | side | angled.

Record PlacementCalculation : Type := mkPlacement {
  x : Q; y : Q; scale : Q; rotation : Q; perspective : Perspective
}.

Record Landmark : Type := mkLandmark { lx : Q; ly : Q; lz : Q }.

(** [BodyLandmarks]; [pose] is never written nor read. *)
Record BodyLandmarks : Type := mkLandmarks {
  face : option (list Landmark);
  hands : option (list Landmark)
}.

(** A connected skin region as [floodFill] reports it. *)
Record SkinRegion : Type := mkSkinRegion {
  left : Z; right : Z; top : Z; bottom : Z;
  centerX : Q; centerY : Q; area : Z
}.

Record Orientation : Type := mkOrientation {
  faceProfile : Q; handAngle : option Q; bodyTilt : Q
}.

Definition calculateRingScale (dimensions : JewelryDimensions) : Q :=
  width dimensions / 18.
Definition calculateNecklaceScale (dimensions : JewelryDimensions) : Q :=
  Qmin (width dimensions / 120) 1.5.
Definition calculateEarringScale (dimensions : JewelryDimensions) : Q :=
  height dimensions / 17.
Definition calculateBraceletScale (dimensions : JewelryDimensions) : Q :=
  width dimensions / 65.

Definition estimateLandmarks (jewelryType : option JewelryType) : BodyLandmarks :=
  match jewelryType with
  | Some ring => mkLandmarks None (Some [mkLandmark 0.6 0.5 0])
  | Some necklace => mkLandmarks (Some [mkLandmark 0.5 0.3 0]) None
  | Some earrings =>
      mkLandmarks (Some [mkLandmark 0.35 0.25 0; mkLandmark 0.65 0.25 0]) None
  | Some bracelet => mkLandmarks None (Some [mkLandmark 0.4 0.6 0])
  | None => mkLandmarks None None
  end.

Definition analyzeLandmarkOrientation (landmarks : BodyLandmarks) : Orientation :=
  let '(faceProfile, bodyTilt) :=
    match face landmarks with
    | Some (leftEar :: rightEar :: _) =>
        let earDistance := mathAbs (lx leftEar - lx rightEar) in
        let earYDifference := mathAbs (ly leftEar - ly rightEar) in
        let faceProfile :=
          if Qltb earDistance 0.15 then 0.9
          else if Qltb earDistance 0.25 then 0.6
          else if Qltb earDistance 0.35 then 0.3
          else 0.1 in
        if Qgtb earYDifference 0.05
        then (Qmin 1.0 (faceProfile + 0.2), (ly leftEar - ly rightEar) * 180)
        else (faceProfile, 0)
    | _ => (0, 0)
    end in
  let handAngle :=
    match hands landmarks with
    | Some (hand :: _) =>
        let distanceFromCenter := mathAbs (lx hand - 0.5) in
        let handAngle :=
          if Qgtb distanceFromCenter 0.3 then (lx hand - 0.5) * 90 else 0 in
        if Qltb (ly hand) 0.4 then Some (handAngle + 15)
        else if Qgtb (ly hand) 0.7 then Some (handAngle - 10)
        else Some handAngle
    | _ => None
    end in
  mkOrientation faceProfile handAngle bodyTilt.

Definition calculatePerspective (jewelryType : option JewelryType)
    (landmarks : BodyLandmarks) : Perspective :=
  let orientation := analyzeLandmarkOrientation landmarks in
  match jewelryType with
  | Some ring =>
      match handAngle orientation with
      | Some a => if Qgtb (mathAbs a) 30 then angled else front
      | None => angled
      end
  | Some necklace =>
      if Qgtb (faceProfile orientation) 0.7 then side
      else if Qgtb (faceProfile orientation) 0.3 then angled
      else front
  | Some earrings =>
      if Qgtb (faceProfile orientation) 0.5 then side
      else if Qgtb (faceProfile orientation) 0.2 then angled
      else front
  | Some bracelet =>
      match handAngle orientation with
      | Some a => if Qgtb (mathAbs a) 45 then side else angled
      | None => angled
      end
  | None => if Qgtb (faceProfile orientation) 0.4 then side else front
  end.

Definition calculateRotation (jewelryType : option JewelryType)
    (landmarks : BodyLandmarks) (perspective : Perspective) : Q :=
  let orientation := analyzeLandmarkOrientation landmarks in
  let baseRotation :=
    match jewelryType with
    | Some ring =>
        match perspective with
        | angled =>
            match handAngle orientation with
            | Some a => -15 + a * 0.3
            | None => -15
            end
        | side =>
            match handAngle orientation with
            | Some a => a
            | None => -25
            end
        | front => 0
        end
    | Some necklace =>
        let base := bodyTilt orientation * 0.5 in
        match perspective with
        | side => base + -10
        | angled => base + (if Qgtb (faceProfile orientation) 0.5 then -8 else 8)
        | front => base
        end
    | Some earrings =>
        let base := bodyTilt orientation * 0.7 in
        match perspective with
        | side => base + -5
        | angled => base + (if Qgtb (faceProfile orientation) 0.5 then -3 else 3)
        | front => base
        end
    | Some bracelet =>
        match perspective with
        | angled =>
            match handAngle orientation with
            | Some a => 10 + a * 0.4
            | None => 10
            end
        | side =>
            match handAngle orientation with
            | Some a => a * 0.6
            | None => 15
            end
        | front => 0
        end
    | None => bodyTilt orientation * 0.3
    end in
  Qmax (-45) (Qmin 45 baseRotation).

Section Estimator.

Variable Buffer : Type.
(** The raw pixel data of a decoded image. *)
Variable RawImage : Type.

(** [sharp(modelImage).raw().toBuffer({ resolveWithObject: true })]:
    pixel data with width and height. *)
Variable rawImage : Buffer -> Result (RawImage * Z * Z).
(** [findLargestRegion(detectSkinRegions(data, ..), ..)]: the largest
    connected region of skin-coloured pixels, if there is any. *)
Variable largestSkinRegion : RawImage -> option SkinRegion.
(** [detectFingerTips]: the topmost skin pixel near the hand region. *)
Variable detectFingerTips : RawImage -> SkinRegion -> list (Z * Z).

(** For a region of height 0 the ratio is [Infinity] or [NaN] in the
    source and 0 here; the test on it fails either way. *)
Definition detectFaceRegion (data : RawImage) (imageWidth imageHeight : Z)
    : option SkinRegion :=
  match largestSkinRegion data with
  | Some faceRegion =>
      if Qgtb (inject_Z (area faceRegion))
              (inject_Z imageWidth * inject_Z imageHeight * 0.02)
      then
        let faceWidth := inject_Z (right faceRegion - left faceRegion) in
        let faceHeight := inject_Z (bottom faceRegion - top faceRegion) in
        let aspectRatio := faceWidth / faceHeight in
        if Qgtb aspectRatio 0.6 && Qltb aspectRatio 1.4 then Some faceRegion else None
      else None
  | None => None
  end.

Definition detectHandLandmarks (data : RawImage) (imageWidth imageHeight : Z)
    : list Landmark :=
  match largestSkinRegion data with
  | Some handRegion =>
      match detectFingerTips data handRegion with
      | (tipX, tipY) :: _ =>
          [mkLandmark (inject_Z tipX / inject_Z imageWidth)
                      (inject_Z tipY / inject_Z imageHeight) 0]
      | [] =>
          [mkLandmark (centerX handRegion / inject_Z imageWidth)
                      (centerY handRegion / inject_Z imageHeight) 0]
      end
  | None => [mkLandmark 0.6 0.5 0]
  end.

Definition detectNeckLandmarks (data : RawImage) (imageWidth imageHeight : Z)
    : list Landmark :=
  match detectFaceRegion data imageWidth imageHeight with
  | Some faceRegion =>
      let neckY :=
        inject_Z (bottom faceRegion)
        + (inject_Z imageHeight - inject_Z (bottom faceRegion)) * 0.1 in
      [mkLandmark (centerX faceRegion / inject_Z imageWidth)
                  (neckY / inject_Z imageHeight) 0]
  | None => [mkLandmark 0.5 0.35 0]
  end.

Definition detectEarLandmarks (data : RawImage) (imageWidth imageHeight : Z)
    : list Landmark :=
  match detectFaceRegion data imageWidth imageHeight with
  | Some faceRegion =>
      let earY := centerY faceRegion in
      [mkLandmark (inject_Z (left faceRegion - 20) / inject_Z imageWidth)
                  (earY / inject_Z imageHeight) 0;
       mkLandmark (inject_Z (right faceRegion + 20) / inject_Z imageWidth)
                  (earY / inject_Z imageHeight) 0]
  | None => [mkLandmark 0.35 0.25 0; mkLandmark 0.65 0.25 0]
  end.

Definition analyzeImageForLandmarks (modelImage : Buffer)
    (jewelryType : option JewelryType) : Result BodyLandmarks :=
  bind (rawImage modelImage) (fun '(data, imageWidth, imageHeight) =>
    match jewelryType with
    | Some ring | Some bracelet =>
        Ok (mkLandmarks None (Some (detectHandLandmarks data imageWidth imageHeight)))
    | Some necklace =>
        Ok (mkLandmarks (Some (detectNeckLandmarks data imageWidth imageHeight)) None)
    | Some earrings =>
        Ok (mkLandmarks (Some (detectEarLandmarks data imageWidth imageHeight)) None)
    | None => Ok (mkLandmarks None None)
    end).

Definition detectBodyLandmarks (modelImage : Buffer)
    (jewelryType : option JewelryType) : Result BodyLandmarks :=
  tryCatch (analyzeImageForLandmarks modelImage jewelryType)
           (fun _ => Ok (estimateLandmarks jewelryType)).

Definition calculateJewelryPlacement (modelImage : Buffer)
    (jewelryDimensions : JewelryDimensions) (jewelryType : option JewelryType)
    : Result PlacementCalculation :=
  tryCatch
    (bind (detectBodyLandmarks modelImage jewelryType) (fun landmarks =>
       let perspective := calculatePerspective jewelryType landmarks in
       let rotation := calculateRotation jewelryType landmarks perspective in
       let '(x, y, scale) :=
         match jewelryType, face landmarks, hands landmarks with
         | Some ring, _, Some (hand :: _) =>
             (lx hand, ly hand, calculateRingScale jewelryDimensions)
         | Some necklace, Some (neck :: _), _ =>
             (lx neck, ly neck + 0.15, calculateNecklaceScale jewelryDimensions)
         | Some earrings, Some (leftEar :: rightEar :: _), _ =>
             ((lx leftEar + lx rightEar) / 2, ly leftEar,
              calculateEarringScale jewelryDimensions)
         | Some bracelet, _, Some (hand :: _) =>
             (lx hand, ly hand + 0.1, calculateBraceletScale jewelryDimensions)
         | _, _, _ => (0.5, 0.5, 1.0)
         end in
       Ok (mkPlacement x y scale rotation perspective)))
    (fun _ => Ok (mkPlacement 0.5 0.5 1.0 0 front)).

End Estimator.

Record PlacementValidation : Type := mkValidation {
  isValid : bool; issues : list string
}.

(** [validatePlacement]: the placement is compared with the image size in
    pixels. *)
Definition validatePlacement (placement : PlacementCalculation)
    (imageWidth imageHeight : Q) : PlacementValidation :=
  let issues := [] in
  let issues :=
    if Qltb (x placement) 0 || Qgtb (x placement) imageWidth
    then issues ++ ["X coordinate out of image bounds"%string] else issues in
  let issues :=
    if Qltb (y placement) 0 || Qgtb (y placement) imageHeight
    then issues ++ ["Y coordinate out of image bounds"%string] else issues in
  let issues :=
    if Qltb (scale placement) 0.1 || Qgtb (scale placement) 3.0
    then issues ++ ["Scale factor is unrealistic"%string] else issues in
  let issues :=
    if Qgtb (mathAbs (rotation placement)) 45
    then issues ++ ["Rotation angle too extreme"%string] else issues in
  {| isValid := (length issues =? 0)%nat; issues := issues |}.

Section Pairs.

Variable Buffer : Type.
Variable RawImage : Type.
Variable rawImage : Buffer -> Result (RawImage * Z * Z).
Variable largestSkinRegion : RawImage -> option SkinRegion.
Variable detectFingerTips : RawImage -> SkinRegion -> list (Z * Z).

(** [calculateMultiplePlacements]: one placement, or for earrings one per
    ear. The per-ear landmark objects the source builds are never used. *)
Definition calculateMultiplePlacements (modelImage : Buffer)
    (jewelryDimensions : JewelryDimensions) (jewelryType : option JewelryType)
    (bodyLandmarks : BodyLandmarks) : Result (list PlacementCalculation) :=
  let calculate :=
    calculateJewelryPlacement Buffer RawImage rawImage largestSkinRegion detectFingerTips
      modelImage jewelryDimensions jewelryType in
  match jewelryType with
  | Some earrings =>
      match face bodyLandmarks with
      | Some (_ :: _ :: _) =>
          bind calculate (fun leftPlacement =>
            let leftPlacement :=
              mkPlacement 0.35 0.25 (scale leftPlacement) (rotation leftPlacement)
                (perspective leftPlacement) in
            bind calculate (fun rightPlacement =>
              let rightPlacement :=
                mkPlacement 0.65 0.25 (scale rightPlacement) (rotation rightPlacement)
                  (perspective rightPlacement) in
              Ok [leftPlacement; rightPlacement]))
      | _ => Ok []
      end
  | _ => bind calculate (fun singlePlacement => Ok [singlePlacement])
  end.

End Pairs.

End Placement.

(** ** lib/ai/jewelryPositioning.ts *)

Module AIPositioning.

Record JewelryPlacementResult : Type := mkResult {
  position_x : Q; position_y : Q; scale : Q; rotation : Q; confidence : Q
}.

(** The text of the model's answer as the two parsers see it. In the JSON
    case [position] is present when [parsed.position] has numeric [x] and
    [y]; the other fields are numbers or missing. In the other case the
    five regular expressions of [parseTextResponse] matched or not. *)
Inductive AnalysisText : Type :=
| JsonAnswer (position : option (Q * Q)) (scale rotation confidence : option Q)
| PlainAnswer (xMatch yMatch : option N) (scaleMatch rotationMatch confidenceMatch : option Q).

(** What the call to the vision model came to. *)
Inductive GeminiOutcome : Type :=
| MissingApiKey
| RequestThrew (message : string)
| HttpError
| NoCandidateText
| Answer (text : AnalysisText).

(** [value || fallback] on an optional number. *)
Definition orDefault (value : option Q) (fallback : Q) : Q :=
  match value with
  | Some q => if Qeq_bool q 0 then fallback else q
  | None => fallback
  end.

Definition getDefaultScale (jewelryType : option JewelryType) : Q :=
  match jewelryType with
  | Some necklace => 0.4
  | Some ring => 0.3
  | Some earrings => 0.25
  | Some bracelet => 0.4
  | None => 0.5
  end.

Definition getFallbackPosition (jewelryType : option JewelryType) : JewelryPlacementResult :=
  let canvasWidth := 1200 in
  let canvasHeight := 900 in
  let centerX := canvasWidth / 2 in
  let centerY := canvasHeight / 2 in
  match jewelryType with
  | Some necklace => mkResult centerX (centerY * 0.6) 0.6 0 0.5
  | Some ring => mkResult (centerX * 1.2) (centerY * 1.3) 0.25 0 0.5
  | Some earrings => mkResult (centerX * 0.85) (centerY * 0.5) 0.2 0 0.5
  | Some bracelet => mkResult (centerX * 1.15) (centerY * 1.4) 0.35 0 0.5
  | None => mkResult centerX centerY 0.4 0 0.5
  end.

Definition parseTextResponse (xMatch yMatch : option N)
    (scaleMatch rotationMatch confidenceMatch : option Q)
    (jewelryType : option JewelryType) : option JewelryPlacementResult :=
  match xMatch, yMatch with
  | Some px, Some py =>
      Some (mkResult (inject_Z (Z.of_N px)) (inject_Z (Z.of_N py))
              (match scaleMatch with Some s => s | None => getDefaultScale jewelryType end)
              (match rotationMatch with Some r => r | None => 0 end)
              (match confidenceMatch with Some c => c | None => 0.7 end))
  | _, _ => None
  end.

Definition parseGeminiPositionResponse (text : AnalysisText)
    (jewelryType : option JewelryType) : option JewelryPlacementResult :=
  match text with
  | JsonAnswer (Some (px, py)) scale rotation confidence =>
      Some (mkResult (inject_Z (mathRound px)) (inject_Z (mathRound py))
              (orDefault scale (getDefaultScale jewelryType))
              (orDefault rotation 0)
              (orDefault confidence 0.8))
  | JsonAnswer None _ _ _ => None
  | PlainAnswer xMatch yMatch scaleMatch rotationMatch confidenceMatch =>
      parseTextResponse xMatch yMatch scaleMatch rotationMatch confidenceMatch jewelryType
  end.

(** [analyzeModelAnatomyWithGemini] catches every error of the request
    itself and answers [null]. *)
Definition analyzeModelAnatomyWithGemini (outcome : GeminiOutcome)
    (jewelryType : option JewelryType) : Result (option JewelryPlacementResult) :=
  tryCatch
    (match outcome with
     | MissingApiKey => Ok None
     | RequestThrew message => Throw message
     | HttpError => Ok None
     | NoCandidateText => Ok None
     | Answer text => Ok (parseGeminiPositionResponse text jewelryType)
     end)
    (fun _ => Ok None).

Definition findOptimalJewelryPosition (outcome : GeminiOutcome)
    (jewelryType : option JewelryType) : Result JewelryPlacementResult :=
  tryCatch
    (bind (analyzeModelAnatomyWithGemini outcome jewelryType) (fun geminiResult =>
       match geminiResult with
       | Some result => Ok result
       | None => Ok (getFallbackPosition jewelryType)
       end))
    (fun _ => Ok (getFallbackPosition jewelryType)).

(** [validateJewelryPosition]: the other fields are copied. *)
Definition validateJewelryPosition (result : JewelryPlacementResult)
    (imageWidth imageHeight : Q) : JewelryPlacementResult :=
  let validatedX := Qmax 50 (Qmin (imageWidth - 50) (position_x result)) in
  let validatedY := Qmax 50 (Qmin (imageHeight - 50) (position_y result)) in
  let validatedScale := Qmax 0.1 (Qmin 1.5 (scale result)) in
  {| position_x := validatedX; position_y := validatedY; scale := validatedScale;
     rotation := rotation result; confidence := confidence result |}.

End AIPositioning.

(** ** lib/image/composition.ts *)

Module Composition.

Record BoundingBox : Type := mkBox { boxX : Q; boxY : Q; boxWidth : Q; boxHeight : Q }.

Record ShadowConfig : Type := mkShadow {
  opacity : Q; blur : Q; offsetX : Q; offsetY : Q; color : string
}.

(** The target width is a fraction of the model image width, and never
    more than the jewelry image's own width. *)
Definition widthFraction (jewelryType : option JewelryType) : Q :=
  match jewelryType with
  | Some necklace => 0.4
  | Some ring => 0.15
  | Some earrings => 0.08
  | Some bracelet | None => 0.25
  end.

Definition yPositionRatio (jewelryType : option JewelryType) : Q :=
  match jewelryType with
  | Some necklace => 0.35
  | Some ring => 0.6
  | Some earrings => 0.25
  | Some bracelet | None => 0.7
  end.

Definition targetJewelryWidth (jewelryType : option JewelryType)
    (modelWidth jewelryWidth : Q) : Q :=
  Qmin (modelWidth * widthFraction jewelryType) jewelryWidth.

Definition targetJewelryHeight (jewelryType : option JewelryType)
    (modelWidth jewelryWidth jewelryHeight : Q) : Z :=
  let scaleFactor := targetJewelryWidth jewelryType modelWidth jewelryWidth / jewelryWidth in
  mathRound (jewelryHeight * scaleFactor).

(** [left] and [top] after the optional offset, before the clamp at 0. *)
Definition placeLeft (jewelryType : option JewelryType) (modelWidth jewelryWidth : Q)
    (positionOffset : option (Q * Q)) : Q :=
  let left :=
    inject_Z (mathRound ((modelWidth - targetJewelryWidth jewelryType modelWidth jewelryWidth) / 2)) in
  match positionOffset with
  | Some (dx, _) => left + dx
  | None => left
  end.

Definition placeTop (jewelryType : option JewelryType) (modelHeight : Q)
    (positionOffset : option (Q * Q)) : Q :=
  let top := inject_Z (mathRound (modelHeight * yPositionRatio jewelryType)) in
  match positionOffset with
  | Some (_, dy) => top + dy
  | None => top
  end.

Section Compositor.

Variable Buffer : Type.
(** The [PlacementCalculation] of lib/image/placement.ts. *)
Variable Placement : Type.

Record JewelrySegmentation : Type := mkSegmentation {
  jewelryMask : option Buffer;
  jewelryImage : option Buffer;
  boundingBox : BoundingBox;
  cleanedJewelry : option Buffer
}.

(** [sharp(b).metadata()]: width and height. *)
Variable metadata : Buffer -> Result (N * N).
(** [sharp(b).resize(w, h, { fit: 'contain', background: transparent }).toBuffer()] *)
Variable resize : Buffer -> Z -> Z -> Result Buffer.
(** [sharp(base).composite([{ input, left, top, blend: 'over' }]).png().toBuffer()] *)
Variable compositeOver : Buffer -> Buffer -> Q -> Q -> Result Buffer.

Definition NtoQ (n : N) : Q := inject_Z (Z.of_N n).

(** The statements of [compositeJewelryOnModel] after the check of the
    cleaned jewelry buffer, inside the [try]. *)
Definition composeSteps (modelImage jewelryBuffer : Buffer)
    (modelMetadata : N * N) (positionOffset : option (Q * Q))
    (jewelryType : option JewelryType) : Result Buffer :=
  let '(modelWidth, modelHeight) := modelMetadata in
  bind (metadata jewelryBuffer) (fun '(jewelryWidth, jewelryHeight) =>
    let targetWidth := targetJewelryWidth jewelryType (NtoQ modelWidth) (NtoQ jewelryWidth) in
    let targetHeight :=
      targetJewelryHeight jewelryType (NtoQ modelWidth) (NtoQ jewelryWidth) (NtoQ jewelryHeight) in
    bind (resize jewelryBuffer (mathRound targetWidth) (mathRound (inject_Z targetHeight)))
      (fun resizedJewelry =>
         let left := placeLeft jewelryType (NtoQ modelWidth) (NtoQ jewelryWidth) positionOffset in
         let top := placeTop jewelryType (NtoQ modelHeight) positionOffset in
         compositeOver modelImage resizedJewelry (Qmax 0 left) (Qmax 0 top))).

(** [compositeJewelryOnModel]. [placement] and [shadowSettings] are only
    written to the log. *)
Definition compositeJewelryOnModel (modelImage : Buffer)
    (segmentedJewelry : JewelrySegmentation) (placement : Placement)
    (shadowSettings : option ShadowConfig) (positionOffset : option (Q * Q))
    (jewelryType : option JewelryType) : Result Buffer :=
  tryCatch
    (bind (metadata modelImage) (fun modelMetadata =>
       match cleanedJewelry segmentedJewelry with
       | None => Ok modelImage
       | Some jewelryBuffer =>
           composeSteps modelImage jewelryBuffer modelMetadata positionOffset jewelryType
       end))
    (fun _ => Ok modelImage).

End Compositor.

Record CompositionValidation : Type := mkValidation {
  isValid : bool; issues : list string; quality : Q
}.

(** The rectangle of [extractPlacementArea]: up to 200x200 pixels around
    the placement point, cut at the image border. *)
Definition placementAreaRect (placement : Placement.PlacementCalculation)
    (width height : Z) : Validator.Rect :=
  let areaSize := 200 in
  let left := Z.max 0 (mathRound (Placement.x placement - areaSize / 2)) in
  let top := Z.max 0 (mathRound (Placement.y placement - areaSize / 2)) in
  let extractWidth := Z.min 200 (width - left) in
  let extractHeight := Z.min 200 (height - top) in
  {| Validator.left := left; Validator.top := top;
     Validator.rectWidth := extractWidth; Validator.rectHeight := extractHeight |}.

Section Review.

Variable Buffer : Type.
Variable metadata : Buffer -> Result (N * N).
Variable resize : Buffer -> Z -> Z -> Result Buffer.
Variable compositeOver : Buffer -> Buffer -> Q -> Q -> Result Buffer.
(** [sharp(b).extract(rect).toBuffer()] *)
Variable sharpExtract : Buffer -> Validator.Rect -> Result Buffer.
(** [sharp(b).greyscale().convolve(..).toBuffer()] *)
Variable edgeDetect : Buffer -> Result Buffer.
(** [sharp(b).stats()] *)
Variable stats : Buffer -> Result (list Validator.ChannelStats).

(** [compositeMultipleJewelry]: each piece is drawn on the result of the
    one before, without position offset and without jewelry type. *)
Fixpoint compositeMultipleJewelry (modelImage : Buffer)
    (segmentedJewelry : JewelrySegmentation Buffer)
    (placements : list Placement.PlacementCalculation)
    (shadowSettings : option ShadowConfig) : Result Buffer :=
  match placements with
  | [] => Ok modelImage
  | placement :: rest =>
      bind (compositeJewelryOnModel Buffer Placement.PlacementCalculation
              metadata resize compositeOver
              modelImage segmentedJewelry placement shadowSettings None None)
           (fun result => compositeMultipleJewelry result segmentedJewelry rest shadowSettings)
  end.

Definition extractPlacementArea (compositeImage : Buffer)
    (placement : Placement.PlacementCalculation) : Result Buffer :=
  bind (metadata compositeImage) (fun '(width, height) =>
    if (width =? 0)%N || (height =? 0)%N
    then Throw "Invalid composite image dimensions"
    else sharpExtract compositeImage
           (placementAreaRect placement (Z.of_N width) (Z.of_N height))).

(** [detectArtifacts]; reading [stats.channels[0].stdev] of an image
    without channels throws. *)
Definition detectArtifacts (imageArea : Buffer) : Result Q :=
  bind (edgeDetect imageArea) (fun edges =>
  bind (stats edges) (fun channels =>
    match channels with
    | [] => Throw "Cannot read properties of undefined (reading 'stdev')"
    | channel :: _ =>
        let edgeStrength := Validator.stdev channel / 255 in
        Ok (Qmin 1 edgeStrength)
    end)).

Definition validateComposition (originalModel compositeResult : Buffer)
    (placement : Placement.PlacementCalculation) : CompositionValidation :=
  let attempt :=
    bind (metadata originalModel) (fun '(originalWidth, originalHeight) =>
    bind (metadata compositeResult) (fun '(compositeWidth, compositeHeight) =>
    let issues :=
      if negb (originalWidth =? compositeWidth)%N || negb (originalHeight =? compositeHeight)%N
      then ["Image dimensions changed during composition"%string] else [] in
    bind (extractPlacementArea compositeResult placement) (fun placementArea =>
    bind (detectArtifacts placementArea) (fun artifactScore =>
    let issues :=
      if Qgtb artifactScore 0.3
      then issues ++ ["Visible composition artifacts detected"%string] else issues in
    let quality :=
      Qmax 0 (1 - inject_Z (Z.of_nat (length issues)) * 0.2 - artifactScore) in
    Ok {| isValid := (length issues =? 0)%nat && Qgtb quality 0.7;
          issues := issues; quality := quality |})))) in
  match attempt with
  | Ok validation => validation
  | Throw message =>
      {| isValid := false;
         issues := [String.append "Validation failed: " message];
         quality := 0 |}
  end.

End Review.

End Composition.

(** ** lib/image/segmentation.ts *)

Module Segmentation.

Record BoundingBox : Type := mkBox { boxX : Z; boxY : Z; boxWidth : Z; boxHeight : Z }.

Section Segmenter.

Variable Buffer : Type.

Record JewelrySegmentation : Type := mkSegmentation {
  jewelryMask : Buffer;
  jewelryImage : Buffer;
  boundingBox : BoundingBox;
  cleanedJewelry : Buffer
}.

(** [sharp(b).metadata()]: width and height, [0] when missing. *)
Variable metadata : Buffer -> Result (N * N).
(** [image.png(..).toColorspace('srgb').toBuffer()] *)
Variable toStandardPng : Buffer -> Result Buffer.
(** [image.resize(1024, 1024, ..).normalize().sharpen().toBuffer()] *)
Variable preprocess : Buffer -> Result Buffer.
(** [image.greyscale().normalise().sharpen().threshold(t).toBuffer()] *)
Variable thresholdMask : Buffer -> Z -> Result Buffer.
(** The mask pipelines of [segmentRing] and [segmentNecklace], and
    [calculateRingConfidence]. *)
Variable ringMask : Buffer -> Result (Buffer * Q).
Variable necklaceMask : Buffer -> Result Buffer.
(** The dilation of [refineMask]. *)
Variable dilate : Buffer -> Result Buffer.
(** [removeJewelryBackground] of lib/ai/backgroundRemoval. *)
Variable removeJewelryBackground : Buffer -> Result Buffer.
(** The pixel-rule remover, and the mask composite it falls back to. *)
Variable pixelRuleRemoval : Buffer -> Buffer -> Result Buffer.
Variable maskComposite : Buffer -> Buffer -> Result Buffer.
(** The scan of the mask for its bounding box. *)
Variable scanBoundingBox : Buffer -> Result BoundingBox.

Definition segmentRing (image : Buffer) : Result (Buffer * Q) :=
  bind (ringMask image) (fun '(finalMask, confidence) =>
    Ok (finalMask, Qmax 0.5 confidence)).

Definition segmentNecklace (image : Buffer) : Result (Buffer * Q) :=
  bind (necklaceMask image) (fun finalMask => Ok (finalMask, 0.88)).

Definition segmentEarrings (image : Buffer) : Result (Buffer * Q) :=
  bind (thresholdMask image 120) (fun processed => Ok (processed, 0.75)).

Definition segmentBracelet (image : Buffer) : Result (Buffer * Q) :=
  bind (thresholdMask image 110) (fun processed => Ok (processed, 0.7)).

Definition segmentGenericJewelry (image : Buffer) : Result (Buffer * Q) :=
  bind (thresholdMask image 115) (fun processed => Ok (processed, 0.6)).

Definition applyJewelrySpecificSegmentation (image : Buffer)
    (jewelryType : option JewelryType) : Result (Buffer * Q) :=
  match jewelryType with
  | Some ring => segmentRing image
  | Some necklace => segmentNecklace image
  | Some earrings => segmentEarrings image
  | Some bracelet => segmentBracelet image
  | None => segmentGenericJewelry image
  end.

Definition refineMask (mask : Buffer) : Buffer :=
  match dilate mask with
  | Ok refined => refined
  | Throw _ => mask
  end.

Definition extractJewelryWithTransparency (originalImage mask : Buffer) : Buffer :=
  match maskComposite originalImage mask with
  | Ok result => result
  | Throw _ => originalImage
  end.

Definition removeBackgroundAndCreateTransparency (originalImage mask : Buffer) : Buffer :=
  match pixelRuleRemoval originalImage mask with
  | Ok result => result
  | Throw _ => extractJewelryWithTransparency originalImage mask
  end.

Definition calculateBoundingBox (mask : Buffer) : BoundingBox :=
  match scanBoundingBox mask with
  | Ok box => box
  | Throw _ => mkBox 102 102 820 820
  end.

(** The first, inner [try] of [segmentJewelry]: decode and convert. *)
Definition standardize (inputImage : Buffer) : Result Buffer :=
  tryCatch
    (bind (metadata inputImage) (fun '(w, h) =>
       if (w =? 0)%N || (h =? 0)%N then Throw "Invalid image dimensions"
       else toStandardPng inputImage))
    (fun message =>
       Throw (String.append "Input buffer contains unsupported image format: " message)).

Definition segmentJewelry (inputImage : Buffer) (jewelryType : option JewelryType)
    : Result JewelrySegmentation :=
  tryCatch
    (bind (standardize inputImage) (fun processedBuffer =>
     bind (metadata processedBuffer) (fun '(w, h) =>
     if (w =? 0)%N || (h =? 0)%N then Throw "Invalid image dimensions after processing"
     else
     bind (preprocess processedBuffer) (fun preprocessed =>
     bind (applyJewelrySpecificSegmentation preprocessed jewelryType)
       (fun segmentationResult =>
          let refinedMask := refineMask (fst segmentationResult) in
          let cleaned :=
            match removeJewelryBackground preprocessed with
            | Ok cleanedImage => cleanedImage
            | Throw _ => removeBackgroundAndCreateTransparency preprocessed refinedMask
            end in
          let box := calculateBoundingBox refinedMask in
          Ok (mkSegmentation refinedMask preprocessed box cleaned))))))
    (fun message => Throw (String.append "Segmentation failed: " message)).

End Segmenter.

(** *** Scan of a mask for its bounding box *)

(** The five variables of the scan loop. *)
Record Scan : Type := mkScan {
  minX : Z; maxX : Z; minY : Z; maxY : Z; hasPixels : bool
}.

(** One iteration of the inner loop of [calculateMaskBoundingBox]: the
    mask is a raw one-channel buffer, and a read past its end gives
    [undefined], which is not greater than 128. *)
Definition scanPixel (mask : list Z) (width : nat) (scan : Scan) (position : nat * nat)
    : Scan :=
  let '(px, py) := position in
  match mask !! (py * width + px)%nat with
  | Some pixelValue =>
      if (pixelValue >? 128)%Z
      then {| minX := Z.min (minX scan) (Z.of_nat px);
              maxX := Z.max (maxX scan) (Z.of_nat px);
              minY := Z.min (minY scan) (Z.of_nat py);
              maxY := Z.max (maxY scan) (Z.of_nat py);
              hasPixels := true |}
      else scan
  | None => scan
  end.

(** The positions visited by [for y < height] / [for x < width], in order. *)
Definition pixelPositions (width height : nat) : list (nat * nat) :=
  flat_map (fun py => map (fun px => (px, py)) (seq 0 width)) (seq 0 height).

Definition calculateMaskBoundingBox (mask : list Z) (width height : nat)
    : option BoundingBox :=
  let scan :=
    fold_left (scanPixel mask width) (pixelPositions width height)
      {| minX := Z.of_nat width; maxX := 0; minY := Z.of_nat height; maxY := 0;
         hasPixels := false |} in
  if hasPixels scan
  then Some {| boxX := minX scan; boxY := minY scan;
               boxWidth := maxX scan - minX scan + 1;
               boxHeight := maxY scan - minY scan + 1 |}
  else None.

(** The mask marks the pixel as jewelry. *)
Definition bright (mask : list Z) (width px py : nat) : Prop :=
  exists pixelValue, mask !! (py * width + px)%nat = Some pixelValue /\ (128 < pixelValue)%Z.

(** The same as a test of one visited position. *)
Definition brightAt (mask : list Z) (width : nat) (position : nat * nat) : bool :=
  match mask !! (snd position * width + fst position)%nat with
  | Some pixelValue => (pixelValue >? 128)%Z
  | None => false
  end.

(** *** Estimated dimensions *)

(** [detectJewelryDimensions], which reads the bounding box of the
    segmentation only. For a box of height 0 the aspect ratio is
    [Infinity] or [NaN] in the source; what is proved below is for boxes
    with positive sides. The conversions to millimetres are exact here,
    while the source multiplies doubles (0.3 * 25.4 is 7.619999999999999
    there); the bounds stated below leave room for that. *)
Definition detectJewelryDimensions (boundingBox : BoundingBox)
    (jewelryType : option JewelryType) : Placement.JewelryDimensions :=
  let pixelWidth := inject_Z (boxWidth boundingBox) in
  let pixelHeight := inject_Z (boxHeight boundingBox) in
  let aspectRatio := pixelWidth / pixelHeight in
  match jewelryType with
  | Some ring =>
      let ringDiameter :=
        if Qgtb aspectRatio 1.2
        then Qmax 15 (Qmin 25 (20 * aspectRatio))
        else Qmax 15 (Qmin 25 (20 / aspectRatio)) in
      {| Placement.width := ringDiameter;
         Placement.height := Qmax 3 (Qmin 8 (ringDiameter * 0.3));
         Placement.depth := Qmax 2 (Qmin 6 (ringDiameter * 0.2)) |}
  | Some necklace =>
      let pendantWidthInches :=
        if Qgtb aspectRatio 1.5
        then Qmax 0.5 (Qmin 2.0 (1.2 * aspectRatio))
        else Qmax 0.5 (Qmin 2.0 1.2) in
      let pendantHeightInches := Qmax 0.3 (Qmin 1.5 (pendantWidthInches / aspectRatio)) in
      {| Placement.width := pendantWidthInches * 25.4;
         Placement.height := pendantHeightInches * 25.4;
         Placement.depth := Qmax 2 (Qmin 8 (pendantWidthInches * 12.7)) |}
  | Some earrings =>
      let earringHeight :=
        if Qltb aspectRatio 0.8
        then Qmax 10 (Qmin 35 (25 / aspectRatio))
        else Qmax 5 (Qmin 25 20) in
      let earringWidth := Qmax 3 (Qmin 25 (earringHeight * aspectRatio)) in
      {| Placement.width := earringWidth;
         Placement.height := earringHeight;
         Placement.depth := Qmax 2 (Qmin 8 (earringWidth * 0.3)) |}
  | Some bracelet =>
      let bandWidth := Qmax 5 (Qmin 20 (15 * aspectRatio)) in
      {| Placement.width := 170;
         Placement.height := bandWidth;
         Placement.depth := Qmax 2 (Qmin 8 (bandWidth * 0.4)) |}
  | None =>
      {| Placement.width := Qmax 10 (Qmin 50 (25 * aspectRatio));
         Placement.height := Qmax 5 (Qmin 30 (25 / aspectRatio));
         Placement.depth := Qmax 2 (Qmin 8 5) |}
  end.

(** *** Pixel rules of the background remover *)

(** [isWhiteBackground] and [isJewelryColor] of
    [removeBackgroundAndCreateTransparency], on the channel values of one
    pixel. *)
Definition isWhiteBackground (r g b : Z) : bool :=
  ((r >? 235) && (g >? 235) && (b >? 235))%Z
  || ((Z.abs (r - g) <? 15) && (Z.abs (g - b) <? 15) && (Z.abs (r - b) <? 15)
      && (r >? 220))%Z.

Definition isJewelryColor (r g b maskValue : Z) : bool :=
  ((r >? 180) && (g >? 150) && (b <? 100))%Z
  || ((Z.abs (r - g) <? 30) && (Z.abs (g - b) <? 30) && (r >? 120))%Z
  || (Z.max (Z.max r g) b - Z.min (Z.min r g) b >? 50)%Z
  || ((r <? 80) && (g <? 80) && (b <? 80) && (maskValue >? 150))%Z.

(** The alpha value written for one pixel, [Math.round(finalAlpha)]. *)
Definition finalAlpha (r g b originalAlpha maskValue : Z) : Z :=
  let isTransparent := (originalAlpha <? 128)%Z in
  let finalAlpha :=
    if (maskValue >? 128)%Z then
      if isJewelryColor r g b maskValue && negb isTransparent
      then inject_Z (Z.min 255 (maskValue + 30))
      else if negb (isWhiteBackground r g b) && negb isTransparent && (maskValue >? 180)%Z
      then inject_Z maskValue
      else if (maskValue >? 220)%Z && negb (isWhiteBackground r g b)
      then inject_Z maskValue * 0.9
      else 0
    else 0 in
  mathRound finalAlpha.

Definition isByte (v : Z) : Prop := (0 <= v <= 255)%Z.

End Segmentation.

(** ** lib/services/virtualTryOnService.ts: basic background removal *)

Module BackgroundRemoval.

(** [isBackgroundPixel] *)
Definition isBackgroundPixel (r g b a : Z) : bool :=
  if (a <? 128)%Z then true
  else
    let brightness := inject_Z (r + g + b) / 3 in
    let isWhitish :=
      Qgtb brightness 240 && (Z.abs (r - g) <? 10)%Z && (Z.abs (g - b) <? 10)%Z
      && (Z.abs (r - b) <? 10)%Z in
    if isWhitish then true
    else
      let isLightGray :=
        Qgtb brightness 230 && (Z.abs (r - g) <? 15)%Z && (Z.abs (g - b) <? 15)%Z
        && (Z.abs (r - b) <? 15)%Z in
      if isLightGray then true else false.

(** [data[index]] inside the pixel loop. An index past the end reads
    [undefined] in the source; this only happens for a channel of a last,
    incomplete pixel, and everything that depends on it is then written
    past the end of the output buffer, where a write has no effect. *)
Definition byte (data : list Z) (index : nat) : Z := default 0%Z (data !! index).

(** The pixel loop of [removeBackground],
    [for (let i = 0; i < data.length; i += channels)], on the output
    buffer [processedData]; a write past the end of a buffer does
    nothing. *)
Fixpoint pixelLoop (fuel channels i : nat) (data processedData : list Z) : list Z :=
  match fuel with
  | O => processedData
  | S fuel =>
      if (i <? length data)%nat then
        let r := byte data i in
        let g := byte data (i + 1) in
        let b := byte data (i + 2) in
        let a := if (channels =? 4)%nat then byte data (i + 3) else 255%Z in
        let shouldBeTransparent := isBackgroundPixel r g b a in
        let processedData := <[ i := r ]> processedData in
        let processedData := <[ (i + 1)%nat := g ]> processedData in
        let processedData := <[ (i + 2)%nat := b ]> processedData in
        let processedData :=
          <[ (i + 3)%nat := if shouldBeTransparent then 0%Z else a ]> processedData in
        pixelLoop fuel channels (i + channels) data processedData
      else processedData
  end.

(** The buffer that [removeBackground] hands to sharp as raw data with
    four channels: [Buffer.alloc(data.length)] after the loop. For a
    channel count of at least one the loop ends within [data.length]
    iterations. *)
Definition processPixels (channels : nat) (data : list Z) : list Z :=
  pixelLoop (length data) channels 0 data (replicate (length data) 0%Z).

End BackgroundRemoval.

(** ** lib/ai/modelGeneration.ts *)

Module ModelGeneration.

Inductive Pose : Type := handExtended | neckVisible | earVisible.
Inductive Lighting : Type := studio | natural.
Inductive Background : Type := neutral | white.

Record ModelGenerationParams : Type := mkParams {
  pose : Pose; demographics : string; lighting : Lighting; background : Background
}.

Inductive ModelService : Type := fluxKontext | gptImage1.

Definition selectModelService (params : ModelGenerationParams) : ModelService :=
  match pose params with
  | handExtended => fluxKontext
  | _ => gptImage1
  end.

Record JewelryCheck : Type := mkCheck {
  hasJewelry : bool; confidence : Q; detectedItems : list string
}.

(** What the request of [validateModelHasNoJewelry] came to: the client
    could not be created (outside the [try]), the request threw, the
    answer had no content, its JSON object was parsed, or the keyword
    search on the text was used (no JSON object, or one that does not
    parse). *)
Inductive CheckOutcome : Type :=
| ClientFailed (message : string)
| CheckThrew (message : string)
| NoContent
| JsonReply (hasJewelry : bool) (confidence : option Q) (detectedItems : option (list string))
| PlainReply (mentionsJewelry : bool).

(** [validateModelHasNoJewelry] of lib/ai/visionPositioning.ts *)
Definition validateModelHasNoJewelry (outcome : CheckOutcome) : Result JewelryCheck :=
  match outcome with
  | ClientFailed message => Throw message
  | CheckThrew _ => Ok (mkCheck false 0.3 [])
  | NoContent => Ok (mkCheck false 0.5 [])
  | JsonReply hasJewelry confidence detectedItems =>
      Ok (mkCheck hasJewelry
            (Qmax 0.0 (Qmin 1.0 (AIPositioning.orDefault confidence 0.7)))
            (match detectedItems with Some items => items | None => [] end))
  | PlainReply hasJewelryKeywords =>
      Ok (mkCheck hasJewelryKeywords
            (if hasJewelryKeywords then 0.8 else 0.2)
            (if hasJewelryKeywords then ["detected via keyword analysis"%string] else []))
  end.

(** The test that makes [generateBaseModel] try again. *)
Definition showsJewelry (validation : JewelryCheck) : bool :=
  hasJewelry validation && Qgtb (confidence validation) 0.5.

Section Generator.

Variable Buffer : Type.
Variable buildModelPrompt : ModelGenerationParams -> string.
(** The image services and the jewelry check answer anew on every call:
    the outcome is given per attempt, counted from 1. *)
Variable callModelService : ModelService -> string -> nat -> Result Buffer.
Variable jewelryCheck : nat -> Buffer -> CheckOutcome.

Definition maxRetries : nat := 3.

(** The body of the [try] up to the jewelry check: an image together with
    its check, or the error of either call. *)
Definition attemptOutcome (params : ModelGenerationParams) (attempt : nat)
    : Result (Buffer * JewelryCheck) :=
  bind (callModelService (selectModelService params) (buildModelPrompt params) attempt)
    (fun modelImage =>
       bind (validateModelHasNoJewelry (jewelryCheck attempt modelImage))
         (fun validation => Ok (modelImage, validation))).

(** The [while (attempt < maxRetries)] loop of [generateBaseModel], with
    the number of attempts that are left as its variant; the statement
    after the loop is the case of none left. *)
Fixpoint attemptsFrom (attemptsLeft attempt : nat) (params : ModelGenerationParams)
    : Result Buffer :=
  match attemptsLeft with
  | O => Throw "Model generation failed: maximum retries exceeded"
  | S attemptsLeft =>
      let attempt := S attempt in
      match attemptOutcome params attempt with
      | Ok (modelImage, validation) =>
          if showsJewelry validation
          then if (attempt <? maxRetries)%nat
               then attemptsFrom attemptsLeft attempt params
               else Ok modelImage
          else Ok modelImage
      | Throw message =>
          if (maxRetries <=? attempt)%nat
          then Throw (String.append "Model generation failed after 3 attempts: " message)
          else attemptsFrom attemptsLeft attempt params
      end
  end.

Definition generateBaseModel (params : ModelGenerationParams) : Result Buffer :=
  attemptsFrom maxRetries 0 params.

End Generator.

End ModelGeneration.

(** ** lib/services/virtualTryOnService.ts *)

Module TryOnService.

Section Service.

Variable Buffer : Type.
Variable Pixels : Type.
Variable RawImage : Type.

(** The image library. *)
Variable metadata : Buffer -> Result (N * N).
Variable rawPixels : Buffer -> Result Pixels.
Variable sharpExtract : Buffer -> Validator.Rect -> Result Buffer.
Variable stats : Buffer -> Result (list Validator.ChannelStats).
Variable mathSqrt : Q -> Q.
Variable toFixed1 : Q -> string.
Variable analyzeMetallicProperties : Pixels -> Z -> Z -> Q.
Variable calculateEdgeStrength : Pixels -> Z -> Z -> Q.
Variable analyzeJewelryColors : Pixels -> Z -> Z -> Q.
Variable normalizeForComparison : Buffer -> Result Buffer.
Variable calculateHistogramSimilarity : Buffer -> Buffer -> Result Q.
Variable calculateStructuralSimilarity : Buffer -> Buffer -> Result Q.
Variable calculatePerceptualSimilarity : Buffer -> Buffer -> Result Q.
Variable detectColorChanges : Buffer -> Buffer -> Result Q.
Variable detectShapeChanges : Buffer -> Buffer -> Result Q.
Variable detectTextureChanges : Buffer -> Buffer -> Result Q.
Variable detectSizeChanges : Buffer -> Buffer -> Result Q.
Variable rawImage : Buffer -> Result (RawImage * Z * Z).
Variable largestSkinRegion : RawImage -> option Placement.SkinRegion.
Variable detectFingerTips : RawImage -> Placement.SkinRegion -> list (Z * Z).
Variable resize : Buffer -> Z -> Z -> Result Buffer.
Variable compositeOver : Buffer -> Buffer -> Q -> Q -> Result Buffer.
(** [sharp(b).png({ quality: 95 }).toBuffer()] *)
Variable toPng : Buffer -> Result Buffer.

(** [removeJewelryBackground] of lib/ai/backgroundRemoval: the cleaned
    image and a confidence. *)
Variable removeJewelryBackground : Buffer -> Result (Buffer * Q).
(** [generateBaseModel] of lib/ai/modelGeneration. *)
Variable generateBaseModel : ModelGeneration.ModelGenerationParams -> Result Buffer.

Record VirtualTryOnServiceRequest : Type := mkRequest {
  jewelryImageBuffer : Buffer;
  jewelryType : option JewelryType;
  dimensions : Placement.JewelryDimensions;
  demographics : option string;
  customModelBuffer : option Buffer;
  positionOffset : option (Q * Q);
  returnSeparateImages : bool;
  onProgress : option (Z -> Result unit)
}.

Record VirtualTryOnServiceResult : Type := mkServiceResult {
  imageBuffer : Buffer;
  modelImageBuffer : option Buffer;
  segmentedJewelryBuffer : option Buffer;
  processingSteps : list string;
  jewelryDimensions : Placement.JewelryDimensions;
  confidence : Q
}.

(** [await request.onProgress?.(progress)] *)
Definition reportProgress (request : VirtualTryOnServiceRequest) (progress : Z)
    : Result unit :=
  match onProgress request with
  | Some callback => callback progress
  | None => Ok tt
  end.

Definition poseFor (jewelryType : option JewelryType) : ModelGeneration.Pose :=
  match jewelryType with
  | Some ring | Some bracelet => ModelGeneration.handExtended
  | Some necklace => ModelGeneration.neckVisible
  | _ => ModelGeneration.earVisible
  end.

(** Step 2: the custom model, or a generated one. *)
Definition modelFor (request : VirtualTryOnServiceRequest) : Result Buffer :=
  match customModelBuffer request with
  | Some customModel => Ok customModel
  | None =>
      generateBaseModel
        {| ModelGeneration.pose := poseFor (jewelryType request);
           ModelGeneration.demographics :=
             match demographics request with
             | Some text => if String.eqb text "" then "adult_female"%string else text
             | None => "adult_female"%string
             end;
           ModelGeneration.lighting := ModelGeneration.studio;
           ModelGeneration.background := ModelGeneration.neutral |}
  end.

(** [(await sharp(b).metadata()).width || 100] and the same for the height:
    the bounding box passed to the compositor. *)
Definition cleanBoundingBox (cleanJewelryBuffer : Buffer) : Result Composition.BoundingBox :=
  bind (metadata cleanJewelryBuffer) (fun '(width, _) =>
  bind (metadata cleanJewelryBuffer) (fun '(_, height) =>
    Ok (Composition.mkBox 0 0
          (if (width =? 0)%N then 100 else inject_Z (Z.of_N width))
          (if (height =? 0)%N then 100 else inject_Z (Z.of_N height))))).

Definition serviceShadow : Composition.ShadowConfig :=
  {| Composition.opacity := 0.9; Composition.blur := 1;
     Composition.offsetX := 1; Composition.offsetY := 1;
     Composition.color := "#000000" |}.

Definition allSteps : list string :=
  [ "jewelry_background_removal"; "clean_model_generation"; "ai_placement_calculation";
    "jewelry_composition"; "validation"; "final_processing" ]%string.

(** [processVirtualTryOn]. The [catch] rethrows the error it caught, and
    the steps pushed so far are lost with it. *)
Definition processVirtualTryOn (request : VirtualTryOnServiceRequest)
    : Result VirtualTryOnServiceResult :=
  bind (reportProgress request 20) (fun _ =>
  bind (removeJewelryBackground (jewelryImageBuffer request)) (fun '(cleanJewelryBuffer, _) =>
  bind (reportProgress request 40) (fun _ =>
  bind (modelFor request) (fun modelBuffer =>
  bind (reportProgress request 60) (fun _ =>
  bind (Placement.calculateJewelryPlacement Buffer RawImage rawImage largestSkinRegion
          detectFingerTips modelBuffer (dimensions request) (jewelryType request))
    (fun placementData =>
  bind (reportProgress request 80) (fun _ =>
  bind (cleanBoundingBox cleanJewelryBuffer) (fun boundingBox =>
  bind (Composition.compositeJewelryOnModel Buffer Placement.PlacementCalculation
          metadata resize compositeOver modelBuffer
          (Composition.mkSegmentation Buffer None (Some (jewelryImageBuffer request))
             boundingBox (Some cleanJewelryBuffer))
          placementData (Some serviceShadow) (positionOffset request) (jewelryType request))
    (fun compositeResult =>
  bind (reportProgress request 90) (fun _ =>
  bind (Validator.validateJewelryIntegrity Buffer Pixels metadata rawPixels sharpExtract
          stats mathSqrt toFixed1 analyzeMetallicProperties calculateEdgeStrength
          analyzeJewelryColors normalizeForComparison calculateHistogramSimilarity
          calculateStructuralSimilarity calculatePerceptualSimilarity detectColorChanges
          detectShapeChanges detectTextureChanges detectSizeChanges
          (jewelryImageBuffer request) compositeResult 0.02)
    (fun validationResult =>
  bind (reportProgress request 100) (fun _ =>
  bind (toPng compositeResult) (fun optimizedBuffer =>
    Ok {| imageBuffer := optimizedBuffer;
          modelImageBuffer :=
            if returnSeparateImages request then Some modelBuffer else None;
          segmentedJewelryBuffer :=
            if returnSeparateImages request then Some cleanJewelryBuffer else None;
          processingSteps := allSteps;
          jewelryDimensions := dimensions request;
          confidence := Validator.similarity validationResult |}))))))))))))).

End Service.

End TryOnService.

(** ** A small image library for examples

    Concrete stand-ins for the image operations, used where a property is
    shown on an example: an image is known by its size only, and undecodable
    bytes are [Corrupt]. *)

Module Fixture.

Inductive Image : Type :=
| Picture (name : string) (width height : N)
| Corrupt.

Definition metadata (image : Image) : Result (N * N) :=
  match image with
  | Picture _ w h => Ok (w, h)
  | Corrupt => Throw "Input buffer contains unsupported image format"
  end.

Definition derive (name : string) (image : Image) : Result Image :=
  match image with
  | Picture _ w h => Ok (Picture name w h)
  | Corrupt => Throw "Input buffer contains unsupported image format"
  end.

Definition resize (image : Image) (w h : Z) : Result Image :=
  match image with
  | Picture _ _ _ =>
      if ((0 <? w) && (0 <? h))%Z then Ok (Picture "resized" (Z.to_N w) (Z.to_N h))
      else Throw "Expected positive integer for width"
  | Corrupt => Throw "Input buffer contains unsupported image format"
  end.

Definition compositeOver (base overlay : Image) (left top : Q) : Result Image :=
  match overlay with
  | Picture _ _ _ => derive "composite" base
  | Corrupt => Throw "Input buffer contains unsupported image format"
  end.

Definition extract (image : Image) (rect : Validator.Rect) : Result Image :=
  match image with
  | Picture _ _ _ =>
      Ok (Picture "extract" (Z.to_N (Validator.rectWidth rect))
                            (Z.to_N (Validator.rectHeight rect)))
  | Corrupt => Throw "Input buffer contains unsupported image format"
  end.

Definition rawPixels (image : Image) : Result Image := derive "raw" image.

Definition rawImage (image : Image) : Result (Image * Z * Z) :=
  match image with
  | Picture _ w h => Ok (image, Z.of_N w, Z.of_N h)
  | Corrupt => Throw "Input buffer contains unsupported image format"
  end.

(** The square root to three decimals. *)
Definition sqrt3 (q : Q) : Q := Z.sqrt (Qfloor (q * 1000000)) # 1000.

(** Block scores of a picture that looks metallic everywhere and has
    neither strong edges nor jewelry colours. *)
Definition metallicEverywhere (_ : Image) (_ _ : Z) : Q := 0.5.
Definition nothingFound (_ : Image) (_ _ : Z) : Q := 0.

(** Mask strategies: the thresholding ones work, the ring pipeline
    fails. *)
Definition thresholdMask (image : Image) (_ : Z) : Result Image := derive "mask" image.
Definition failingRingMask (_ : Image) : Result (Image * Q) :=
  Throw "Input image exceeds pixel limit".
Definition scanBoundingBox (_ : Image) : Result Segmentation.BoundingBox :=
  Ok (Segmentation.mkBox 10 10 80 80).

(** No skin-coloured region anywhere. *)
Definition noSkin (_ : Image) : option Placement.SkinRegion := None.
Definition noFingerTips (_ : Image) (_ : Placement.SkinRegion) : list (Z * Z) := [].

(** Channel statistics of a sharp, well exposed picture. *)
Definition stats (image : Image) : Result (list Validator.ChannelStats) :=
  match image with
  | Picture _ _ _ =>
      Ok [ {| Validator.mean := 128; Validator.stdev := 50 |};
           {| Validator.mean := 120; Validator.stdev := 45 |};
           {| Validator.mean := 110; Validator.stdev := 40 |} ]
  | Corrupt => Throw "Input buffer contains unsupported image format"
  end.

(** Comparisons that find two pictures alike, and a one-decimal printer
    for small whole percentages. *)
Definition alike (_ _ : Image) : Result Q := Ok 1.
Definition unchanged (_ _ : Image) : Result Q := Ok 0.
Definition toFixed1 (percent : Q) : string :=
  match Qfloor percent with
  | 0%Z => "0.0"
  | 1%Z => "1.0"
  | 2%Z => "2.0"
  | _ => "3.0"
  end.

(** Edge statistics with a standard deviation of exactly 76.5, which is
    0.3 of the full range. *)
Definition edgeStats (_ : Image) : Result (list Validator.ChannelStats) :=
  Ok [ {| Validator.mean := 40; Validator.stdev := 76.5 |} ].

(** Services that work: background removal, model generation (the first
    attempt shows jewelry, the second does not) and PNG encoding. *)
Definition removeJewelryBackground (image : Image) : Result (Image * Q) :=
  bind (derive "clean" image) (fun cleaned => Ok (cleaned, 0.9)).
Definition callModelService (_ : ModelGeneration.ModelService) (_ : string) (attempt : nat)
    : Result Image :=
  Ok (Picture (if (attempt =? 1)%nat then "model with ring" else "model") 1200 900).
Definition jewelryCheck (attempt : nat) (_ : Image) : ModelGeneration.CheckOutcome :=
  if (attempt =? 1)%nat
  then ModelGeneration.JsonReply true (Some 0.9) (Some ["ring"%string])
  else ModelGeneration.JsonReply false (Some 0.9) None.
Definition buildModelPrompt (_ : ModelGeneration.ModelGenerationParams) : string :=
  "High-fashion portrait photograph".

Definition modelPhoto : Image := Picture "model" 1200 900.
Definition jewelryPhoto : Image := Picture "jewelry" 100 100.
Definition compositePhoto : Image := Picture "composite" 100 80.

End Fixture.

(** * Properties *)

(** ** Numbers *)

Lemma Qltb_lt (a b : Q) : Qltb a b = true <-> a < b.
Proof.
  unfold Qltb. rewrite negb_true_iff.
  destruct (Qle_bool b a) eqn:E.
  - apply Qle_bool_iff in E. split; [discriminate | intros H; lra].
  - split; [intros _ | reflexivity].
    destruct (Qlt_le_dec a b) as [Hlt | Hle]; [exact Hlt |].
    apply Qle_bool_iff in Hle. congruence.
Qed.

Lemma Qltb_ge (a b : Q) : Qltb a b = false <-> b <= a.
Proof. unfold Qltb. rewrite negb_false_iff. apply Qle_bool_iff. Qed.

Lemma Qgtb_gt (a b : Q) : Qgtb a b = true <-> b < a.
Proof. apply Qltb_lt. Qed.

Lemma Qgtb_le (a b : Q) : Qgtb a b = false <-> a <= b.
Proof. apply Qltb_ge. Qed.

(** ** combineRegions *)

Section CombineRegions.

Import Validator.

Lemma filter_none {A} (f : A -> bool) (l : list A) :
  (forall a, In a l -> f a = false) -> List.filter f l = [].
Proof.
  induction l as [| a l IH]; intros H; simpl; [reflexivity |].
  rewrite (H a (or_introl eq_refl)). apply IH. intros b Hb. apply H. now right.
Qed.

(** On rectangles that are pairwise apart the loop pushes every region
    unchanged, in order. *)
Lemma combineLoop_apart (regions : list Region) :
  forall (k : nat) (processed : gset nat) (combined : list Region),
    (forall i, i ∈ processed -> (i < k)%nat) ->
    noOverlap regions = true ->
    combineLoop (combine (seq k (length regions)) regions) processed combined
    = combined ++ regions.
Proof.
  induction regions as [| r rest IH]; intros k processed combined Hlt Hno.
  - simpl. now rewrite app_nil_r.
  - simpl in Hno. apply andb_true_iff in Hno as [Hhead Hrest].
    cbn [length seq combine combineLoop].
    rewrite bool_decide_eq_false_2 by (intros Hin; apply Hlt in Hin; lia).
    rewrite filter_none.
    + rewrite IH; [now rewrite <- app_assoc | | exact Hrest].
      intros i Hi. apply elem_of_union in Hi as [Hi | Hi].
      * apply elem_of_singleton in Hi. lia.
      * apply Hlt in Hi. lia.
    + intros [j other] Hin. apply in_combine_r in Hin.
      rewrite forallb_forall in Hhead. specialize (Hhead other Hin).
      apply negb_true_iff in Hhead. rewrite Hhead. apply andb_false_r.
Qed.

Lemma combineRegions_apart (regions : list Region) :
  noOverlap regions = true -> combineRegions regions = regions.
Proof.
  intros H. unfold combineRegions, indexed.
  now rewrite combineLoop_apart by (set_solver || exact H).
Qed.

(** Every output of the loop is an input region or the merge of one with
    some others. *)
Lemma combineLoop_Forall (P : Region -> Prop) :
  (forall r others, P r -> Forall P others -> P (mergeRegions r others)) ->
  forall (todo : list (nat * Region)) (processed : gset nat) (combined : list Region),
    Forall P (map snd todo) -> Forall P combined ->
    Forall P (combineLoop todo processed combined).
Proof.
  intros Hmerge. induction todo as [| [i r] later IH]; intros processed combined Ht Hc.
  - exact Hc.
  - simpl in Ht. apply Forall_cons_iff in Ht as [Hr Hlater].
    cbn [combineLoop]. destruct (bool_decide (i ∈ processed)); [now apply IH |].
    set (overlapping := List.filter _ later).
    assert (Hover : Forall P (map snd overlapping)).
    { apply List.Forall_forall. intros o Ho. apply in_map_iff in Ho as [[j o'] [<- Ho]].
      apply filter_In in Ho as [Ho _].
      rewrite List.Forall_forall in Hlater. apply Hlater.
      apply in_map_iff. now exists (j, o'). }
    destruct overlapping as [| first more] eqn:E.
    + apply IH; [exact Hlater |]. apply Forall_app. split; [exact Hc | now constructor].
    + apply IH; [exact Hlater |]. apply Forall_app. split; [exact Hc |].
      constructor; [| constructor]. now apply Hmerge.
Qed.

Lemma combineRegions_Forall (P : Region -> Prop) (regions : list Region) :
  (forall r others, P r -> Forall P others -> P (mergeRegions r others)) ->
  Forall P regions -> Forall P (combineRegions regions).
Proof.
  intros Hmerge Hall. unfold combineRegions, indexed.
  apply combineLoop_Forall; [exact Hmerge | | constructor].
  assert (Hsnd : forall (l : list Region) k, map snd (combine (seq k (length l)) l) = l).
  { induction l as [| a l IHl]; intros k; simpl; [reflexivity | now rewrite IHl]. }
  now rewrite Hsnd.
Qed.

End CombineRegions.

(** C8 (as stated): a second application of [combineRegions] changes nothing.
    It fails on three blocks in a row: the first pass merges the first two
    and leaves the third, which touches the merged rectangle, so the second
    pass merges again. *)
Lemma combineRegions_not_idempotent :
  Validator.combineRegions Validator.blockRow
    = [ Validator.mkRegion 0 0 (48 - 0) (32 - 0) ((0 + (1#2) + (1#2)) / 2);
        Validator.mkRegion 48 0 32 32 (1#2) ]
  /\ Validator.sameRectangles
       (Validator.combineRegions (Validator.combineRegions Validator.blockRow))
       (Validator.combineRegions Validator.blockRow) = false.
Proof. split; reflexivity. Qed.

(** C8 (amended): [combineRegions] is idempotent on every input whose merged
    rectangles are pairwise apart; a second application then returns the
    same list. *)
Theorem combineRegions_idempotent_when_apart (regions : list Validator.Region) :
  Validator.noOverlap (Validator.combineRegions regions) = true ->
  Validator.combineRegions (Validator.combineRegions regions)
  = Validator.combineRegions regions.
Proof. intros H. now apply combineRegions_apart. Qed.

Lemma combineRegions_idempotent_when_apart_witness :
  let regions := [ Validator.mkRegion 0 0 32 32 (1#2); Validator.mkRegion 16 0 32 32 (1#2);
                   Validator.mkRegion 96 0 32 32 (1#2) ] in
  Validator.noOverlap (Validator.combineRegions regions) = true
  /\ Validator.combineRegions (Validator.combineRegions regions)
     = Validator.combineRegions regions.
Proof.
  intros regions. split; [reflexivity |].
  apply (combineRegions_idempotent_when_apart regions). reflexivity.
Defined.

(** ** Rounding on the pixel grid *)

Section Rounding.

Import Validator.

Lemma mathRound_frac (d : positive) (q : Q) (e : Z) :
  q * inject_Z (Zpos d) == inject_Z e ->
  mathRound q = ((2 * e + Zpos d) / (2 * Zpos d))%Z.
Proof.
  intros H. unfold mathRound.
  assert (Hq : q + (1 # 2) == (2 * e + Zpos d) # (2 * d)).
  { unfold Qeq in *. destruct q as [n m].
    cbn [Qnum Qden Qplus Qmult inject_Z] in *.
    rewrite ?Pos2Z.inj_mul in *. rewrite ?Z.mul_1_r in *. nia. }
  rewrite (Qfloor_comp _ _ Hq). reflexivity.
Qed.

Lemma Qmin_case (P : Q -> Prop) (a b : Q) : P a -> P b -> P (Qmin a b).
Proof.
  intros Ha Hb. unfold Qmin, GenericMinMax.gmin. destruct (a ?= b); assumption.
Qed.

Lemma Qmax_case (P : Q -> Prop) (a b : Q) : P a -> P b -> P (Qmax a b).
Proof.
  intros Ha Hb. unfold Qmax, GenericMinMax.gmax. destruct (a ?= b); assumption.
Qed.

Lemma evenInt_plus (a b : Q) : evenInt a -> evenInt b -> evenInt (a + b).
Proof.
  intros [j Hj] [k Hk]. exists (j + k)%Z.
  replace (2 * (j + k))%Z with (2 * j + 2 * k)%Z by lia.
  rewrite inject_Z_plus. lra.
Qed.

Lemma evenInt_minus (a b : Q) : evenInt a -> evenInt b -> evenInt (a - b).
Proof.
  intros [j Hj] [k Hk]. exists (j - k)%Z.
  replace (2 * (j - k))%Z with (2 * j + - (2 * k))%Z by lia.
  rewrite inject_Z_plus, inject_Z_opp. lra.
Qed.

Lemma evenInt_inject (k : Z) : evenInt (inject_Z (2 * k)).
Proof. now exists k. Qed.

Lemma fifths_zero : fifths 0.
Proof. exists 0%Z. reflexivity. Qed.

Lemma fifths_even (a : Q) : evenInt a -> fifths a.
Proof.
  intros [k Hk]. exists (5 * (2 * k))%Z. rewrite inject_Z_mult, Hk.
  change (inject_Z 5) with 5. lra.
Qed.

Lemma fifths_tenth (a : Q) : evenInt a -> fifths (a * 0.1).
Proof.
  intros [k Hk]. exists k. rewrite Hk, inject_Z_mult.
  change (inject_Z 2) with 2. lra.
Qed.

Lemma fifths_plus (a b : Q) : fifths a -> fifths b -> fifths (a + b).
Proof.
  intros [j Hj] [k Hk]. exists (j + k)%Z. rewrite inject_Z_plus. lra.
Qed.

Lemma fifths_minus (a b : Q) : fifths a -> fifths b -> fifths (a - b).
Proof.
  intros [j Hj] [k Hk]. exists (j + - k)%Z. rewrite inject_Z_plus, inject_Z_opp. lra.
Qed.

Lemma fifths_double (a : Q) : fifths a -> fifths (2 * a).
Proof. intros H. apply (fifths_plus a a) in H; [| exact H]. destruct H as [e He]. exists e. lra. Qed.

Lemma mathRound_nonneg (q : Q) : 0 <= q -> (0 <= mathRound q)%Z.
Proof.
  intros H. unfold mathRound.
  assert (Hlt : q + (1 # 2) < inject_Z (Qfloor (q + (1 # 2)) + 1)) by apply Qlt_floor.
  assert (Hz : inject_Z 0 < inject_Z (Qfloor (q + (1 # 2)) + 1)).
  { change (inject_Z 0) with 0. lra. }
  rewrite <- Zlt_Qlt in Hz. lia.
Qed.

(** One axis of the padded rectangle: the rounded start is not negative
    and the rounded start plus the rounded extent stays inside. *)
Lemma padded_axis (pos size shorter : Q) (w : Z) :
  evenInt pos -> evenInt size -> evenInt shorter ->
  let padding := shorter * 0.1 in
  let start := Qmax 0 (pos - padding) in
  let extent := Qmin (inject_Z w - start) (size + 2 * padding) in
  (0 <= mathRound start /\ mathRound start + mathRound extent <= w)%Z.
Proof.
  intros Hpos Hsize Hshort padding start extent.
  assert (Hpad : fifths padding) by now apply fifths_tenth.
  assert (Hstart : fifths start).
  { apply Qmax_case; [apply fifths_zero | apply fifths_minus; [now apply fifths_even | exact Hpad]]. }
  assert (Hw : fifths (inject_Z w)).
  { exists (5 * w)%Z. rewrite inject_Z_mult. change (inject_Z 5) with 5. lra. }
  assert (Hextent : fifths extent).
  { apply Qmin_case.
    - now apply fifths_minus.
    - apply fifths_plus; [now apply fifths_even | now apply fifths_double]. }
  assert (H0 : 0 <= start) by apply Q.le_max_l.
  assert (Hsum : extent <= inject_Z w - start) by apply Q.le_min_l.
  split; [now apply mathRound_nonneg |].
  destruct Hstart as [E HE], Hextent as [F HF].
  rewrite (mathRound_frac 5 start E HE), (mathRound_frac 5 extent F HF).
  assert (HZ : inject_Z (E + F) <= inject_Z (5 * w)).
  { rewrite inject_Z_plus, inject_Z_mult. change (inject_Z 5) with 5.
    clearbody extent start. lra. }
  rewrite <- Zle_Qle in HZ. change (2 * Z.pos 5)%Z with 10%Z.
  assert (HrE : ((2 * E + 5) / 10 = (E + 2) / 5)%Z)
    by (Z.to_euclidean_division_equations; lia).
  assert (HrF : ((2 * F + 5) / 10 = (F + 2) / 5)%Z)
    by (Z.to_euclidean_division_equations; lia).
  rewrite HrE, HrF. Z.to_euclidean_division_equations. lia.
Qed.

(** One axis of the centred crop. *)
Lemma crop_axis (extent shorter : Z) :
  (1 <= shorter <= extent)%Z ->
  let cropSize := inject_Z shorter * 0.3 in
  let start := mathRound ((inject_Z extent - cropSize) / 2) in
  (0 <= start /\ start + mathRound cropSize <= extent)%Z.
Proof.
  intros Hrange cropSize start. subst start.
  assert (Hs : (inject_Z extent - cropSize) / 2 * inject_Z 20
               == inject_Z (10 * extent + - (3 * shorter))).
  { subst cropSize. rewrite inject_Z_plus, inject_Z_opp, !inject_Z_mult.
    change (inject_Z 20) with 20. change (inject_Z 10) with 10.
    change (inject_Z 3) with 3. unfold Qdiv. change (/ 2) with (1 # 2). lra. }
  assert (Hc : cropSize * inject_Z 20 == inject_Z (6 * shorter)).
  { subst cropSize. rewrite inject_Z_mult.
    change (inject_Z 20) with 20. change (inject_Z 6) with 6. lra. }
  rewrite (mathRound_frac 20 _ _ Hs), (mathRound_frac 20 _ _ Hc).
  change (2 * Z.pos 20)%Z with 40%Z.
  split; Z.to_euclidean_division_equations; lia.
Qed.

End Rounding.

(** ** Detected regions lie on the pixel grid *)

Section Grid.

Import Validator.

Lemma forRange_steps (fuel : nat) :
  forall (i limit step v : Z),
    In v (forRange fuel i limit step) -> exists k : Z, v = (i + k * step)%Z.
Proof.
  induction fuel as [| fuel IH]; intros i limit step v Hin; simpl in Hin; [contradiction |].
  destruct (i <? limit)%Z; [| contradiction].
  destruct Hin as [<- | Hin].
  - exists 0%Z. lia.
  - apply IH in Hin as [k ->]. exists (k + 1)%Z. lia.
Qed.

(** The fuel of [blockOrigins] is enough: every multiple of the step below
    the limit is visited. *)
Lemma forRange_complete (fuel : nat) :
  forall (i limit step k : Z),
    (0 < step)%Z -> (limit - i <= Z.of_nat fuel)%Z -> (0 <= k)%Z ->
    (i + k * step < limit)%Z ->
    In (i + k * step)%Z (forRange fuel i limit step).
Proof.
  induction fuel as [| fuel IH]; intros i limit step k Hstep Hfuel Hk Hlt.
  - nia.
  - cbn [forRange].
    assert (Hi : (i <? limit)%Z = true) by (apply Z.ltb_lt; nia).
    rewrite Hi. destruct (Z.eq_dec k 0%Z) as [-> | Hne].
    + left. lia.
    + right. replace (i + k * step)%Z with ((i + step) + (k - 1) * step)%Z by lia.
      apply IH; nia.
Qed.

Lemma blockOrigins_complete (extent blockSize step k : Z) :
  (0 < step)%Z -> (0 <= k)%Z -> (k * step < extent - blockSize)%Z ->
  In (k * step)%Z (blockOrigins extent blockSize step).
Proof.
  intros Hstep Hk Hlt. unfold blockOrigins.
  replace (k * step)%Z with (0 + k * step)%Z by lia.
  apply forRange_complete; lia.
Qed.

Lemma blockOrigins_even (extent blockSize halfStep v : Z) :
  In v (blockOrigins extent blockSize (2 * halfStep)) -> exists k : Z, v = (2 * k)%Z.
Proof.
  intros Hin. apply forRange_steps in Hin as [k ->]. exists (k * halfStep)%Z. lia.
Qed.

Lemma scanBlocks_onGrid (score : Z -> Z -> Q) (accept : Q -> bool) (conf : Q -> Q)
    (halfSize halfStep imageWidth imageHeight : Z) :
  Forall onGrid
    (scanBlocks score accept conf (2 * halfSize) (2 * halfStep) imageWidth imageHeight).
Proof.
  apply List.Forall_forall. intros r Hin. unfold scanBlocks in Hin.
  apply in_flat_map in Hin as [by_ [Hy Hin]].
  apply in_flat_map in Hin as [bx [Hx Hin]].
  apply blockOrigins_even in Hy as [ky ->].
  apply blockOrigins_even in Hx as [kx ->].
  destruct (accept _); [| contradiction].
  destruct Hin as [<- | []].
  repeat split; cbn [x y width height]; apply evenInt_inject.
Qed.

Lemma fold_left_closed (P : Q -> Prop) (f : Q -> Q -> Q) :
  (forall a b, P a -> P b -> P (f a b)) ->
  forall (rest : list Q) (first : Q), P first -> Forall P rest -> P (fold_left f rest first).
Proof.
  intros Hf. induction rest as [| a rest IH]; intros first Hfirst Hrest; [exact Hfirst |].
  apply Forall_cons_iff in Hrest as [Ha Hrest]. simpl. apply IH; [now apply Hf | exact Hrest].
Qed.

Lemma Forall_map_field (P : Q -> Prop) (f : Region -> Q) (Pr : Region -> Prop)
    (regions : list Region) :
  (forall r, Pr r -> P (f r)) -> Forall Pr regions -> Forall P (map f regions).
Proof.
  intros H Hall. apply List.Forall_forall. intros q Hq.
  apply in_map_iff in Hq as [r [<- Hr]]. apply H.
  rewrite List.Forall_forall in Hall. now apply Hall.
Qed.

Lemma mergeRegions_onGrid (first : Region) (rest : list Region) :
  onGrid first -> Forall onGrid rest -> onGrid (mergeRegions first rest).
Proof.
  intros (Hx & Hy & Hw & Hh) Hrest.
  assert (HminX : evenInt (minOf (x first) (map x rest))).
  { apply (fold_left_closed evenInt Qmin); [intros; now apply Qmin_case | exact Hx |].
    apply (Forall_map_field _ _ onGrid); [intros r Hr; apply Hr | exact Hrest]. }
  assert (HminY : evenInt (minOf (y first) (map y rest))).
  { apply (fold_left_closed evenInt Qmin); [intros; now apply Qmin_case | exact Hy |].
    apply (Forall_map_field _ _ onGrid); [intros r Hr; apply Hr | exact Hrest]. }
  assert (HmaxX : evenInt (maxOf (x first + width first)
                             (map (fun r => x r + width r) rest))).
  { apply (fold_left_closed evenInt Qmax); [intros; now apply Qmax_case | now apply evenInt_plus |].
    apply (Forall_map_field _ _ onGrid); [| exact Hrest].
    intros r Hr. apply evenInt_plus; apply Hr. }
  assert (HmaxY : evenInt (maxOf (y first + height first)
                             (map (fun r => y r + height r) rest))).
  { apply (fold_left_closed evenInt Qmax); [intros; now apply Qmax_case | now apply evenInt_plus |].
    apply (Forall_map_field _ _ onGrid); [| exact Hrest].
    intros r Hr. apply evenInt_plus; apply Hr. }
  unfold mergeRegions, onGrid. cbn [x y width height].
  repeat split; try assumption; now apply evenInt_minus.
Qed.

Lemma insertByConfidence_In (r a : Region) (sorted : list Region) :
  In a (insertByConfidence r sorted) -> a = r \/ In a sorted.
Proof.
  induction sorted as [| h t IH]; simpl.
  - intros [<- | []]. now left.
  - destruct (Qltb (confidence r) (confidence h)); simpl.
    + intros [<- | Hin]; [right; now left |].
      apply IH in Hin as [-> | Hin]; [now left | right; now right].
    + intros [<- | Hin]; [now left | now right].
Qed.

Lemma insertByConfidence_Permutation (r : Region) (sorted : list Region) :
  Permutation (insertByConfidence r sorted) (r :: sorted).
Proof.
  induction sorted as [| h t IH]; simpl; [reflexivity |].
  destruct (Qltb (confidence r) (confidence h)); [| reflexivity].
  rewrite IH. apply perm_swap.
Qed.

(** The sort keeps every region, once. *)
Lemma sortByConfidence_Permutation (regions : list Region) :
  Permutation (sortByConfidence regions) regions.
Proof.
  induction regions as [| r regions IH]; simpl; [reflexivity |].
  rewrite insertByConfidence_Permutation. now constructor.
Qed.

Lemma sortByConfidence_In (a : Region) (regions : list Region) :
  In a (sortByConfidence regions) -> In a regions.
Proof.
  induction regions as [| r regions IH]; simpl; [tauto |].
  intros Hin. apply insertByConfidence_In in Hin as [-> | Hin]; [now left | right; now apply IH].
Qed.

Lemma firstn_In (n : nat) (a : Region) (regions : list Region) :
  In a (firstn n regions) -> In a regions.
Proof.
  revert regions. induction n as [| n IH]; intros [| r regions]; simpl; try tauto.
  intros [<- | Hin]; [now left | right; now apply IH].
Qed.

Lemma selectBest_fold_In (score : Region -> Q) (rest : list Region) :
  forall first : Region,
    In (fold_left (fun best current => if Qgtb (score current) (score best)
                                       then current else best) rest first)
       (first :: rest).
Proof.
  induction rest as [| r rest IH]; intros first; [now left |].
  simpl. destruct (Qgtb (score r) (score first)).
  - right. apply IH.
  - destruct (IH first) as [<- | Hin]; [now left | right; now right].
Qed.

End Grid.

(** ** The rectangles extracted from the composite *)

Section ExtractionBounds.

Import Validator.

Variables Buffer Pixels : Type.
Variable metadata : Buffer -> Result (N * N).
Variable rawPixels : Buffer -> Result Pixels.
Variable sharpExtract : Buffer -> Rect -> Result Buffer.
Variable mathSqrt : Q -> Q.
Variables analyzeMetallicProperties calculateEdgeStrength analyzeJewelryColors
  : Pixels -> Z -> Z -> Q.

Local Abbreviation detect :=
  (detectJewelryRegions Buffer Pixels rawPixels analyzeMetallicProperties
     calculateEdgeStrength analyzeJewelryColors).
Local Abbreviation extractFrom :=
  (extractJewelryFromComposite Buffer Pixels metadata rawPixels sharpExtract mathSqrt
     analyzeMetallicProperties calculateEdgeStrength analyzeJewelryColors).

Lemma detectJewelryRegions_onGrid (compositeResult : Buffer) (w h : Z) :
  Forall onGrid (detect compositeResult w h).
Proof.
  unfold detectJewelryRegions. destruct (rawPixels compositeResult) as [px |]; [| constructor].
  apply List.Forall_forall. intros r Hin.
  apply firstn_In, sortByConfidence_In, filter_In in Hin as [Hin _].
  revert r Hin. apply List.Forall_forall.
  apply combineRegions_Forall; [apply mergeRegions_onGrid |].
  repeat apply Forall_app_2.
  - apply (scanBlocks_onGrid _ _ _ 16 8).
  - apply (scanBlocks_onGrid _ _ _ 12 6).
  - apply (scanBlocks_onGrid _ _ _ 14 7).
Qed.

Lemma selectBest_In (regions : list Region) (imageWidth imageHeight : Q) :
  regions <> [] ->
  In (selectBestJewelryRegion mathSqrt regions imageWidth imageHeight) regions.
Proof.
  destruct regions as [| first rest]; [congruence | intros _].
  apply (selectBest_fold_In (fun r => finalScore mathSqrt r imageWidth imageHeight)).
Qed.

Lemma paddedRect_inside (bestRegion : Region) (w h : Z) :
  onGrid bestRegion ->
  insideImage (paddedRect bestRegion (inject_Z w) (inject_Z h)) w h.
Proof.
  intros (Hx & Hy & Hw & Hh).
  assert (Hshort : evenInt (Qmin (width bestRegion) (height bestRegion)))
    by now apply Qmin_case.
  destruct (padded_axis (x bestRegion) (width bestRegion) _ w Hx Hw Hshort) as [Hl Hr].
  destruct (padded_axis (y bestRegion) (height bestRegion) _ h Hy Hh Hshort) as [Ht Hb].
  unfold insideImage, paddedRect. cbn [left top rectWidth rectHeight]. auto.
Qed.

Lemma centerCropRect_inside (w h : Z) :
  (1 <= w)%Z -> (1 <= h)%Z ->
  insideImage (centerCropRect (inject_Z w) (inject_Z h)) w h.
Proof.
  intros Hw Hh. unfold insideImage, centerCropRect. cbn [left top rectWidth rectHeight].
  unfold Qmin, GenericMinMax.gmin.
  destruct (inject_Z w ?= inject_Z h) eqn:E.
  - apply Qeq_alt in E. rewrite inject_Z_injective in E. subst h.
    destruct (crop_axis w w) as [H1 H2]; [lia | auto].
  - apply Qlt_alt in E. rewrite <- Zlt_Qlt in E.
    destruct (crop_axis w w) as [H1 H2]; [lia |].
    destruct (crop_axis h w) as [H3 H4]; [lia | auto].
  - apply Qgt_alt in E. rewrite <- Zlt_Qlt in E.
    destruct (crop_axis w h) as [H1 H2]; [lia |].
    destruct (crop_axis h h) as [H3 H4]; [lia | auto].
Qed.

(** C10: every rectangle that [extractJewelryFromComposite] asks sharp to
    extract, on the detected-region path and on the centre-crop fallback,
    lies inside the composite image: left and top are not negative,
    left + width is at most the image width and top + height at most the
    image height. *)
Theorem extraction_rectangles_inside (compositeResult : Buffer) (w h : N) (rect : Rect) :
  metadata compositeResult = Ok (w, h) ->
  In rect (snd (extractFrom compositeResult)) ->
  insideImage rect (Z.of_N w) (Z.of_N h).
Proof.
  intros Hmeta Hin. unfold extractJewelryFromComposite, dimensions in Hin.
  rewrite Hmeta in Hin. cbn [bind] in Hin.
  destruct ((w =? 0)%N || (h =? 0)%N) eqn:Hzero; [contradiction |].
  apply orb_false_iff in Hzero as [Hw Hh].
  apply N.eqb_neq in Hw, Hh.
  assert (Hcrop : insideImage (centerCropRect (NtoQ w) (NtoQ h)) (Z.of_N w) (Z.of_N h))
    by (apply centerCropRect_inside; lia).
  pose proof (detectJewelryRegions_onGrid compositeResult (Z.of_N w) (Z.of_N h)) as Hgrid.
  destruct (detect compositeResult (Z.of_N w) (Z.of_N h)) as [| first rest] eqn:Hdet.
  - destruct Hin as [<- | []]. exact Hcrop.
  - assert (Hpad : insideImage
                     (paddedRect (selectBestJewelryRegion mathSqrt (first :: rest)
                                    (NtoQ w) (NtoQ h)) (NtoQ w) (NtoQ h))
                     (Z.of_N w) (Z.of_N h)).
    { apply paddedRect_inside. rewrite List.Forall_forall in Hgrid. apply Hgrid.
      apply selectBest_In. discriminate. }
    destruct (sharpExtract compositeResult _) as [extracted | message].
    + destruct Hin as [<- | []]. exact Hpad.
    + destruct Hin as [<- | [<- | []]]; [exact Hpad | exact Hcrop].
Qed.

End ExtractionBounds.
Lemma extraction_rectangles_inside_witness :
  Fixture.metadata Fixture.compositePhoto = Ok (100%N, 80%N)
  /\ In (Validator.mkRect 43 0 57 74)
        (snd (Validator.extractJewelryFromComposite Fixture.Image Fixture.Image
                Fixture.metadata Fixture.rawPixels Fixture.extract Fixture.sqrt3
                Fixture.metallicEverywhere Fixture.nothingFound Fixture.nothingFound
                Fixture.compositePhoto))
  /\ Validator.insideImage (Validator.mkRect 43 0 57 74) 100 80.
Proof.
  assert (Hin : In (Validator.mkRect 43 0 57 74)
                  (snd (Validator.extractJewelryFromComposite Fixture.Image Fixture.Image
                          Fixture.metadata Fixture.rawPixels Fixture.extract Fixture.sqrt3
                          Fixture.metallicEverywhere Fixture.nothingFound
                          Fixture.nothingFound Fixture.compositePhoto))).
  { vm_compute. left. reflexivity. }
  split; [reflexivity | split; [exact Hin |]].
  exact (extraction_rectangles_inside Fixture.Image Fixture.Image
           Fixture.metadata Fixture.rawPixels Fixture.extract Fixture.sqrt3
           Fixture.metallicEverywhere Fixture.nothingFound Fixture.nothingFound
           Fixture.compositePhoto 100%N 80%N _ eq_refl Hin).
Defined.

(** ** validateJewelryIntegrity *)

Section Validation.

Import Validator.

Variables Buffer Pixels : Type.
Variable metadata : Buffer -> Result (N * N).
Variable rawPixels : Buffer -> Result Pixels.
Variable sharpExtract : Buffer -> Rect -> Result Buffer.
Variable stats : Buffer -> Result (list ChannelStats).
Variable mathSqrt : Q -> Q.
Variable toFixed1 : Q -> string.
Variables analyzeMetallicProperties calculateEdgeStrength analyzeJewelryColors
  : Pixels -> Z -> Z -> Q.
Variable normalizeForComparison : Buffer -> Result Buffer.
Variables calculateHistogramSimilarity calculateStructuralSimilarity
  calculatePerceptualSimilarity : Buffer -> Buffer -> Result Q.
Variables detectColorChanges detectShapeChanges detectTextureChanges detectSizeChanges
  : Buffer -> Buffer -> Result Q.

Local Abbreviation validate :=
  (validateJewelryIntegrity Buffer Pixels metadata rawPixels sharpExtract stats mathSqrt
     toFixed1 analyzeMetallicProperties calculateEdgeStrength analyzeJewelryColors
     normalizeForComparison calculateHistogramSimilarity calculateStructuralSimilarity
     calculatePerceptualSimilarity detectColorChanges detectShapeChanges
     detectTextureChanges detectSizeChanges).
Local Abbreviation extractFrom :=
  (extractJewelryFromComposite Buffer Pixels metadata rawPixels sharpExtract mathSqrt
     analyzeMetallicProperties calculateEdgeStrength analyzeJewelryColors).
Local Abbreviation similarityOf :=
  (calculateSimilarity Buffer normalizeForComparison calculateHistogramSimilarity
     calculateStructuralSimilarity calculatePerceptualSimilarity).
Local Abbreviation deviationsOf :=
  (detectDeviations Buffer toFixed1 detectColorChanges detectShapeChanges
     detectTextureChanges detectSizeChanges).
Local Abbreviation qualityOf := (performQualityChecks Buffer metadata stats).

(** C1: [validateJewelryIntegrity] always returns a result, and in it
    [isValid] is true exactly when the similarity is at least
    [1 - tolerance] and the list of deviations is empty; when the jewelry
    could be extracted, that similarity is the computed overall similarity
    and that list is the deviation entries followed by the quality
    issues. *)
Theorem isValid_iff_similar_and_no_deviation
    (originalJewelry compositeResult : Buffer) (tolerance : Q) :
  exists result : ValidationResult,
    validate originalJewelry compositeResult tolerance = Ok result
    /\ (isValid result = true
        <-> 1 - tolerance <= similarity result /\ deviations result = [])
    /\ match fst (extractFrom compositeResult) with
       | Ok extractedJewelry =>
           similarity result = similarityOf originalJewelry extractedJewelry
           /\ deviations result
              = deviationsOf originalJewelry extractedJewelry tolerance
                ++ qualityOf extractedJewelry
       | Throw _ => isValid result = false
       end.
Proof.
  unfold validateJewelryIntegrity.
  destruct (fst (extractFrom compositeResult)) as [extracted | message];
    cbn [bind tryCatch]; eexists; (split; [reflexivity |]); cbn [isValid similarity deviations].
  - split; [| split; reflexivity].
    rewrite andb_true_iff, Qle_bool_iff, Nat.eqb_eq, length_zero_iff_nil. reflexivity.
  - split; [| reflexivity].
    split; [discriminate | intros [_ H]; discriminate].
Qed.

End Validation.

(** ** compositeJewelryOnModel *)

Section CompositionProperties.

Import Composition.

Variables Buffer Placement : Type.
Variable metadata : Buffer -> Result (N * N).
Variable resize : Buffer -> Z -> Z -> Result Buffer.
Variable compositeOver : Buffer -> Buffer -> Q -> Q -> Result Buffer.

Local Abbreviation composite :=
  (compositeJewelryOnModel Buffer Placement metadata resize compositeOver).

(** C6: [compositeJewelryOnModel] never throws, and every internal failure
    gives back the model image itself: without a cleaned jewelry buffer,
    when the size of the model image or of the jewelry cannot be read, when
    the resize to the computed target size fails, and when the overlay at
    the computed corner fails. Only when all of these steps succeed is the
    result the output of the overlay. *)
Theorem composite_returns_model_on_failure
    (modelImage : Buffer) (segmentedJewelry : JewelrySegmentation Buffer)
    (placement : Placement) (shadowSettings : option ShadowConfig)
    (positionOffset : option (Q * Q)) (jewelryType : option JewelryType) :
  let result :=
    composite modelImage segmentedJewelry placement shadowSettings positionOffset
      jewelryType in
  (exists returned, result = Ok returned)
  /\ match cleanedJewelry Buffer segmentedJewelry with
     | None => result = Ok modelImage
     | Some jewelryBuffer =>
         match metadata modelImage with
         | Throw _ => result = Ok modelImage
         | Ok (modelWidth, modelHeight) =>
             match metadata jewelryBuffer with
             | Throw _ => result = Ok modelImage
             | Ok (jewelryWidth, jewelryHeight) =>
                 let targetWidth :=
                   targetJewelryWidth jewelryType (NtoQ modelWidth) (NtoQ jewelryWidth) in
                 let targetHeight :=
                   targetJewelryHeight jewelryType (NtoQ modelWidth) (NtoQ jewelryWidth)
                     (NtoQ jewelryHeight) in
                 let left :=
                   placeLeft jewelryType (NtoQ modelWidth) (NtoQ jewelryWidth)
                     positionOffset in
                 let top := placeTop jewelryType (NtoQ modelHeight) positionOffset in
                 match resize jewelryBuffer (mathRound targetWidth)
                         (mathRound (inject_Z targetHeight)) with
                 | Throw _ => result = Ok modelImage
                 | Ok resizedJewelry =>
                     match compositeOver modelImage resizedJewelry
                             (Qmax 0 left) (Qmax 0 top) with
                     | Throw _ => result = Ok modelImage
                     | Ok output => result = Ok output
                     end
                 end
             end
         end
     end.
Proof.
  cbv zeta. unfold compositeJewelryOnModel, composeSteps.
  destruct (cleanedJewelry Buffer segmentedJewelry) as [jewelryBuffer |].
  2: { destruct (metadata modelImage) as [[modelWidth modelHeight] | message];
         cbn [bind tryCatch]; split; eauto. }
  destruct (metadata modelImage) as [[modelWidth modelHeight] | message];
    cbn [bind tryCatch]; [| split; eauto].
  destruct (metadata jewelryBuffer) as [[jewelryWidth jewelryHeight] | message];
    cbn [bind tryCatch]; [| split; eauto].
  destruct (resize jewelryBuffer _ _) as [resizedJewelry | message];
    cbn [bind tryCatch]; [| split; eauto].
  destruct (compositeOver modelImage resizedJewelry _ _) as [output | message];
    cbn [tryCatch]; split; eauto.
Qed.

(** C9: the output does not depend on the placement argument. *)
Theorem composite_ignores_placement
    (modelImage : Buffer) (segmentedJewelry : JewelrySegmentation Buffer)
    (placement1 placement2 : Placement) (shadowSettings : option ShadowConfig)
    (positionOffset : option (Q * Q)) (jewelryType : option JewelryType) :
  composite modelImage segmentedJewelry placement1 shadowSettings positionOffset jewelryType
  = composite modelImage segmentedJewelry placement2 shadowSettings positionOffset jewelryType.
Proof. reflexivity. Qed.

Lemma mathRound_near (q : Q) :
  q - (1 # 2) < inject_Z (mathRound q) /\ inject_Z (mathRound q) <= q + (1 # 2).
Proof.
  unfold mathRound. split.
  - pose proof (Qlt_floor (q + (1 # 2))) as H. rewrite inject_Z_plus in H.
    change (inject_Z 1) with 1 in H. lra.
  - apply Qfloor_le.
Qed.

(** C5 (amended): when every step succeeds the jewelry is resized to the
    target size and drawn over the model image at the clamped corner,
    where
    - the target width is the smaller of the type's fraction of the model
      width (necklace 40%, ring 15%, earrings 8%, otherwise 25%) and the
      jewelry image's own width;
    - the target height keeps the aspect ratio, up to rounding;
    - before the offset the jewelry is centred horizontally, up to
      rounding, and its top edge (not its centre) is at the type's
      fraction of the model height (necklace 35%, ring 60%, earrings 25%,
      otherwise 70%), up to rounding;
    - the caller's offset is added and each coordinate is clamped at 0. *)
Theorem composite_geometry
    (modelImage jewelryBuffer resizedJewelry : Buffer)
    (segmentedJewelry : JewelrySegmentation Buffer)
    (placement : Placement) (shadowSettings : option ShadowConfig)
    (positionOffset : option (Q * Q)) (jewelryType : option JewelryType)
    (modelWidth modelHeight jewelryWidth jewelryHeight : N) :
  let W := NtoQ modelWidth in
  let H := NtoQ modelHeight in
  let jw := NtoQ jewelryWidth in
  let jh := NtoQ jewelryHeight in
  let targetWidth := targetJewelryWidth jewelryType W jw in
  let targetHeight := targetJewelryHeight jewelryType W jw jh in
  let dx := match positionOffset with Some (dx, _) => dx | None => 0 end in
  let dy := match positionOffset with Some (_, dy) => dy | None => 0 end in
  let left := placeLeft jewelryType W jw positionOffset in
  let top := placeTop jewelryType H positionOffset in
  cleanedJewelry Buffer segmentedJewelry = Some jewelryBuffer ->
  metadata modelImage = Ok (modelWidth, modelHeight) ->
  metadata jewelryBuffer = Ok (jewelryWidth, jewelryHeight) ->
  (0 < jewelryWidth)%N ->
  resize jewelryBuffer (mathRound targetWidth) targetHeight = Ok resizedJewelry ->
  composite modelImage segmentedJewelry placement shadowSettings positionOffset jewelryType
  = tryCatch (compositeOver modelImage resizedJewelry (Qmax 0 left) (Qmax 0 top))
             (fun _ => Ok modelImage)
  /\ targetWidth == Qmin (W * widthFraction jewelryType) jw
  /\ Qabs (inject_Z targetHeight - jh * (targetWidth / jw)) <= 1 # 2
  /\ Qabs ((left - dx) + targetWidth / 2 - W / 2) <= 1 # 2
  /\ Qabs ((top - dy) - H * yPositionRatio jewelryType) <= 1 # 2
  /\ 0 <= Qmax 0 left /\ 0 <= Qmax 0 top.
Proof.
  intros W H jw jh targetWidth targetHeight dx dy left top
    Hclean Hmodel Hjewelry Hpos Hresize.
  split.
  { unfold compositeJewelryOnModel, composeSteps.
    rewrite Hmodel. cbn [bind]. rewrite Hclean, Hjewelry. cbn [bind].
    fold W jw jh targetWidth targetHeight.
    assert (Hround : mathRound (inject_Z targetHeight) = targetHeight).
    { unfold mathRound.
      rewrite (Qfloor_comp _ ((2 * targetHeight + 1) # 2)).
      - cbn [Qfloor]. Z.to_euclidean_division_equations. lia.
      - unfold Qeq. cbn. lia. }
    rewrite Hround, Hresize. cbn [bind]. reflexivity. }
  split; [reflexivity |].
  split.
  { subst targetHeight. unfold targetJewelryHeight. fold targetWidth.
    pose proof (mathRound_near (jh * (targetWidth / jw))) as [Hlo Hhi].
    apply Qabs_Qle_condition. split; lra. }
  split.
  { subst left. unfold placeLeft. fold targetWidth.
    pose proof (mathRound_near ((W - targetWidth) / 2)) as [Hlo Hhi].
    assert (Hhalf : (W - targetWidth) / 2 == W / 2 - targetWidth / 2) by field.
    apply Qabs_Qle_condition.
    subst dx. destruct positionOffset as [[dx' dy'] |]; split; lra. }
  split.
  { subst top. unfold placeTop.
    pose proof (mathRound_near (H * yPositionRatio jewelryType)) as [Hlo Hhi].
    apply Qabs_Qle_condition.
    subst dy. destruct positionOffset as [[dx' dy'] |]; split; lra. }
  split; apply Q.le_max_l.
Qed.

End CompositionProperties.

(** C5 (as stated): the jewelry is scaled to the type's fraction of the
    model width and its centre is put at the type's fraction of the model
    height. For a 100x100 necklace cut-out on a 1200x900 model image the
    target width is 100, not 480, and the centre is at 365, not 315. *)
Lemma composite_not_fraction_nor_centred :
  Composition.targetJewelryWidth (Some necklace) 1200 100 == 100
  /\ ~ Composition.targetJewelryWidth (Some necklace) 1200 100 == 1200 * 0.4
  /\ Composition.placeTop (Some necklace) 900 None
     + inject_Z (Composition.targetJewelryHeight (Some necklace) 1200 100 100) / 2 == 365
  /\ ~ Composition.placeTop (Some necklace) 900 None
       + inject_Z (Composition.targetJewelryHeight (Some necklace) 1200 100 100) / 2
       == 900 * 0.35.
Proof.
  repeat split; try (vm_compute; reflexivity); intros H; vm_compute in H; discriminate.
Qed.

Lemma composite_geometry_witness :
  let segmented :=
    Composition.mkSegmentation Fixture.Image None (Some Fixture.jewelryPhoto)
      (Composition.mkBox 0 0 100 100) (Some Fixture.jewelryPhoto) in
  Composition.compositeJewelryOnModel Fixture.Image unit
    Fixture.metadata Fixture.resize Fixture.compositeOver
    Fixture.modelPhoto segmented tt None None (Some necklace)
  = Ok (Fixture.Picture "composite" 1200 900).
Proof.
  intros segmented.
  assert (Hpos : (0 < 100)%N) by reflexivity.
  exact (proj1 (composite_geometry Fixture.Image unit
                  Fixture.metadata Fixture.resize Fixture.compositeOver
                  Fixture.modelPhoto Fixture.jewelryPhoto (Fixture.Picture "resized" 100 100)
                  segmented tt None None (Some necklace) 1200%N 900%N 100%N 100%N
                  eq_refl eq_refl eq_refl Hpos eq_refl)).
Defined.

(** ** segmentJewelry *)

Section SegmentationProperties.

Import Segmentation.

Variable Buffer : Type.
Variable metadata : Buffer -> Result (N * N).
Variables toStandardPng preprocess : Buffer -> Result Buffer.
Variable thresholdMask : Buffer -> Z -> Result Buffer.
Variable ringMask : Buffer -> Result (Buffer * Q).
Variables necklaceMask dilate removeJewelryBackground : Buffer -> Result Buffer.
Variables pixelRuleRemoval maskComposite : Buffer -> Buffer -> Result Buffer.
Variable scanBoundingBox : Buffer -> Result BoundingBox.

Local Abbreviation segment :=
  (segmentJewelry Buffer metadata toStandardPng preprocess thresholdMask ringMask
     necklaceMask dilate removeJewelryBackground pixelRuleRemoval maskComposite
     scanBoundingBox).
Local Abbreviation strategy :=
  (applyJewelrySpecificSegmentation Buffer thresholdMask ringMask necklaceMask).
Local Abbreviation generic := (segmentGenericJewelry Buffer thresholdMask).

(** C7 (amended): [segmentJewelry] fails hard, with "Segmentation failed:
    ..", when the input cannot be decoded or has zero width or height, and
    also when the mask strategy selected for the jewelry type fails: for a
    photo that decodes with non-zero dimensions and is preprocessed without
    error it succeeds exactly when that strategy succeeds. The strategy is
    the one of the jewelry type, the generic one being selected for a type
    outside the four known ones only. Failures of the mask refinement, of
    the AI background removal and of the bounding-box scan never abort
    it. *)
Theorem segment_aborts_with_strategy
    (inputImage : Buffer) (jewelryType : option JewelryType) :
  (forall message,
      standardize Buffer metadata toStandardPng inputImage = Throw message ->
      segment inputImage jewelryType
      = Throw (String.append "Segmentation failed: " message))
  /\ (forall processedBuffer preprocessed w h,
        standardize Buffer metadata toStandardPng inputImage = Ok processedBuffer ->
        metadata processedBuffer = Ok (w, h) ->
        (0 < w)%N -> (0 < h)%N ->
        preprocess processedBuffer = Ok preprocessed ->
        match strategy preprocessed jewelryType with
        | Throw message =>
            segment inputImage jewelryType
            = Throw (String.append "Segmentation failed: " message)
        | Ok _ => exists segmentation, segment inputImage jewelryType = Ok segmentation
        end)
  /\ (forall preprocessed,
        strategy preprocessed jewelryType
        = match jewelryType with
          | Some ring => segmentRing Buffer ringMask preprocessed
          | Some necklace => segmentNecklace Buffer necklaceMask preprocessed
          | Some earrings => segmentEarrings Buffer thresholdMask preprocessed
          | Some bracelet => segmentBracelet Buffer thresholdMask preprocessed
          | None => generic preprocessed
          end)
  /\ (forall message,
        metadata inputImage = Throw message ->
        exists reason, standardize Buffer metadata toStandardPng inputImage = Throw reason)
  /\ (forall w h,
        metadata inputImage = Ok (w, h) -> w = 0%N \/ h = 0%N ->
        exists reason, standardize Buffer metadata toStandardPng inputImage = Throw reason).
Proof.
  split; [| split; [| split; [| split]]].
  - intros message Hstd. unfold segmentJewelry. rewrite Hstd. reflexivity.
  - intros processedBuffer preprocessed w h Hstd Hmeta Hw Hh Hpre.
    unfold segmentJewelry. rewrite Hstd. cbn [bind]. rewrite Hmeta. cbn [bind].
    assert (Hnz : (w =? 0)%N || (h =? 0)%N = false).
    { apply orb_false_iff. split; apply N.eqb_neq; lia. }
    rewrite Hnz, Hpre. cbn [bind].
    destruct (strategy preprocessed jewelryType) as [[mask confidence] | message];
      cbn [bind tryCatch]; [eexists |]; reflexivity.
  - intros preprocessed. destruct jewelryType as [[] |]; reflexivity.
  - intros message Hmeta. unfold standardize. rewrite Hmeta. cbn [bind tryCatch]. eauto.
  - intros w h Hmeta Hzero. unfold standardize. rewrite Hmeta. cbn [bind].
    assert (Hz : (w =? 0)%N || (h =? 0)%N = true).
    { apply orb_true_iff. destruct Hzero as [-> | ->]; [left | right]; reflexivity. }
    rewrite Hz. cbn [tryCatch]. eauto.
Qed.

End SegmentationProperties.

(** C7 (as stated): a failure inside the ring strategy degrades to the
    generic strategy. On a decodable 100x100 photo whose ring pipeline
    throws while the generic strategy succeeds, [segmentJewelry] fails. *)
Lemma segment_does_not_degrade_to_generic :
  Fixture.metadata Fixture.jewelryPhoto = Ok (100%N, 100%N)
  /\ isOk (Segmentation.segmentGenericJewelry Fixture.Image Fixture.thresholdMask
             (Fixture.Picture "preprocessed" 100 100)) = true
  /\ Segmentation.segmentJewelry Fixture.Image Fixture.metadata
       (Fixture.derive "png") (Fixture.derive "preprocessed") Fixture.thresholdMask
       Fixture.failingRingMask (Fixture.derive "necklace mask") (Fixture.derive "dilated")
       (Fixture.derive "cleaned") (fun image _ => Fixture.derive "cleaned" image)
       (fun image _ => Fixture.derive "cleaned" image) Fixture.scanBoundingBox
       Fixture.jewelryPhoto (Some ring)
     = Throw "Segmentation failed: Input image exceeds pixel limit".
Proof. repeat split. Qed.

Lemma segment_aborts_with_strategy_witness :
  Segmentation.segmentJewelry Fixture.Image Fixture.metadata
    (Fixture.derive "png") (Fixture.derive "preprocessed") Fixture.thresholdMask
    Fixture.failingRingMask (Fixture.derive "necklace mask") (Fixture.derive "dilated")
    (Fixture.derive "cleaned") (fun image _ => Fixture.derive "cleaned" image)
    (fun image _ => Fixture.derive "cleaned" image) Fixture.scanBoundingBox
    Fixture.jewelryPhoto (Some ring)
  = Throw (String.append "Segmentation failed: " "Input image exceeds pixel limit").
Proof.
  assert (Hw : (0 < 100)%N) by reflexivity.
  exact (proj1 (proj2 (segment_aborts_with_strategy Fixture.Image Fixture.metadata
                  (Fixture.derive "png") (Fixture.derive "preprocessed")
                  Fixture.thresholdMask Fixture.failingRingMask
                  (Fixture.derive "necklace mask") (Fixture.derive "dilated")
                  (Fixture.derive "cleaned") (fun image _ => Fixture.derive "cleaned" image)
                  (fun image _ => Fixture.derive "cleaned" image) Fixture.scanBoundingBox
                  Fixture.jewelryPhoto (Some ring)))
           (Fixture.Picture "png" 100 100)
           (Fixture.Picture "preprocessed" 100 100) 100%N 100%N
           eq_refl eq_refl Hw Hw eq_refl).
Defined.

(** ** parseVisionResponse *)

Section VisionProperties.

Import VisionPositioning.

Lemma clamp_Fin (lo hi v : Q) : clamp lo hi (Fin v) = Fin (Qmax lo (Qmin hi v)).
Proof. reflexivity. Qed.

Lemma clamped_between (lo hi v : Q) :
  lo <= hi -> lo <= Qmax lo (Qmin hi v) /\ Qmax lo (Qmin hi v) <= hi.
Proof.
  intros H. split; [apply Q.le_max_l |].
  apply Q.max_lub; [exact H | apply Q.le_min_l].
Qed.

Lemma orElse_numeric (field : JsonField) (fallback : Q) :
  numeric field -> exists v, orElse field fallback = Fin v.
Proof.
  destruct field as [| q | | | | |]; cbn; try contradiction; [eauto |].
  unfold orElse. cbn [toBoolean toNumber]. destruct (Qeq_bool q 0); cbn [negb]; eauto.
Qed.



Lemma div_le_bound (a c h : Q) : 0 < h -> a / h <= c -> a <= c * h.
Proof.
  intros Hh Hle. assert (Ha : a == a / h * h) by (field; lra).
  rewrite Ha. apply Qmult_le_compat_r; [assumption | lra].
Qed.

Lemma div_ge_bound (a c h : Q) : 0 < h -> c <= a / h -> c * h <= a.
Proof.
  intros Hh Hle. assert (Ha : a == a / h * h) by (field; lra).
  rewrite Ha. apply Qmult_le_compat_r; [assumption | lra].
Qed.



End VisionProperties.


Section NecklaceCorrection.

Import VisionPositioning.

(** C2 (amended): for a necklace,
    - on the JSON path the test is made on the y already defaulted and
      clamped into [50, canvasHeight - 50]: below 35% of the canvas height
      the returned y is 55% of it, above 75% it is 60% of it, and in both
      cases the confidence is the clamped confidence minus 0.3, floored at
      0.3; inside the band y and confidence are returned as they are;
    - on the regular-expression path a y outside the band is replaced by
      55% of the canvas height in both cases (then clamped), and the
      confidence is 0.6 whatever y is. *)
Theorem necklace_correction
    (parsed : ParsedJson) (xMatch yMatch : option N) (scaleMatch : option JsNum)
    (canvasWidth canvasHeight y0 c0 : Q) :
  0 < canvasHeight ->
  jsonY parsed canvasHeight = Fin y0 ->
  jsonConfidence parsed = Fin c0 ->
  let json := parseVisionResponse (JsonObject parsed) canvasWidth canvasHeight (Some necklace) in
  let text :=
    parseVisionResponse (NotJson xMatch yMatch scaleMatch) canvasWidth canvasHeight
      (Some necklace) in
  let yText := regexY yMatch canvasHeight in
  (y0 / canvasHeight < 0.35 ->
     position_y json = Fin (canvasHeight * 0.55)
     /\ confidence json = Fin (Qmax 0.3 (c0 - 0.3)))
  /\ (0.75 < y0 / canvasHeight ->
        position_y json = Fin (canvasHeight * 0.6)
        /\ confidence json = Fin (Qmax 0.3 (c0 - 0.3)))
  /\ (0.35 <= y0 / canvasHeight <= 0.75 ->
        position_y json = Fin y0 /\ confidence json = Fin c0)
  /\ (yText / canvasHeight < 0.35 \/ 0.75 < yText / canvasHeight ->
        position_y text = clamp 50 (canvasHeight - 50) (Fin (canvasHeight * 0.55)))
  /\ (0.35 <= yText / canvasHeight <= 0.75 ->
        position_y text = clamp 50 (canvasHeight - 50) (Fin yText))
  /\ confidence text = Fin 0.6.
Proof.
  intros HH Hy Hc json text yText. subst json text yText.
  unfold parseVisionResponse. rewrite Hy, Hc.
  cbn [isNecklace andb jsDiv jsLt jsGt jsSub mathMax lift2].
  split; [| split; [| split; [| split; [| split; [| reflexivity]]]]].
  - intros Hlt. assert (Hge : Qltb 0.75 (y0 / canvasHeight) = false) by (apply Qltb_ge; lra).
    apply Qltb_lt in Hlt. rewrite Hlt, Hge. split; reflexivity.
  - intros Hgt. assert (Hge : Qltb (y0 / canvasHeight) 0.35 = false) by (apply Qltb_ge; lra).
    apply Qltb_lt in Hgt. rewrite Hgt, Hge. split; reflexivity.
  - intros [Hlo Hhi]. apply Qltb_ge in Hlo, Hhi. rewrite Hlo, Hhi. split; reflexivity.
  - intros Hout. cbn [position_y].
    assert (Hcond : Qltb (regexY yMatch canvasHeight / canvasHeight) 0.35
                    || Qgtb (regexY yMatch canvasHeight / canvasHeight) 0.75 = true).
    { apply orb_true_iff. destruct Hout as [Hlt | Hgt]; [left | right]; now apply Qltb_lt. }
    rewrite Hcond. reflexivity.
  - intros [Hlo Hhi]. cbn [position_y].
    apply Qltb_ge in Hlo, Hhi. unfold Qgtb. rewrite Hlo, Hhi. reflexivity.
Qed.

End NecklaceCorrection.

Lemma necklace_correction_witness :
  let parsed :=
    VisionPositioning.mkParsed (VisionPositioning.FNumber 500) (VisionPositioning.FNumber 100)
      VisionPositioning.FAbsent (VisionPositioning.FNumber 0.9) None in
  VisionPositioning.position_y
    (VisionPositioning.parseVisionResponse (VisionPositioning.JsonObject parsed)
       1000 1000 (Some necklace))
  = Fin (1000 * 0.55).
Proof.
  intros parsed.
  assert (HH : 0 < 1000) by reflexivity.
  assert (Hband : 100 / 1000 < 0.35) by reflexivity.
  exact (proj1 (proj1 (necklace_correction parsed (Some 400%N) (Some 900%N) None
                         1000 1000 100 0.9 HH eq_refl eq_refl) Hband)).
Defined.

(** C2 (as stated): the regular-expression path corrects a too-low necklace
    to 60% of the canvas height and lowers the confidence by 0.3. On a
    1000x1000 canvas the text "x: 400, y: 900" gives y = 550, not 600, and
    the same confidence 0.6 as the in-band text "x: 400, y: 500". *)
Lemma regex_path_corrects_to_55_percent :
  let tooLow :=
    VisionPositioning.parseVisionResponse
      (VisionPositioning.NotJson (Some 400%N) (Some 900%N) None) 1000 1000 (Some necklace) in
  let inBand :=
    VisionPositioning.parseVisionResponse
      (VisionPositioning.NotJson (Some 400%N) (Some 500%N) None) 1000 1000 (Some necklace) in
  0.75 < VisionPositioning.regexY (Some 900%N) 1000 / 1000
  /\ (exists y, VisionPositioning.position_y tooLow = Fin y
                /\ y == 550 /\ ~ y == 1000 * 0.6)
  /\ VisionPositioning.confidence tooLow = Fin 0.6
  /\ VisionPositioning.confidence inBand = Fin 0.6.
Proof.
  cbv zeta. split; [reflexivity |]. split; [| split; reflexivity].
  eexists. split; [vm_compute; reflexivity |].
  split; [reflexivity | intros H; vm_compute in H; discriminate].
Qed.

(** ** The placement estimators *)


Section Estimators.

Import Placement.

Variables Buffer RawImage : Type.
Variable rawImage : Buffer -> Result (RawImage * Z * Z).
Variable largestSkinRegion : RawImage -> option SkinRegion.
Variable detectFingerTips : RawImage -> SkinRegion -> list (Z * Z).

Local Abbreviation estimate :=
  (calculateJewelryPlacement Buffer RawImage rawImage largestSkinRegion detectFingerTips).
Local Abbreviation landmarksOf :=
  (detectBodyLandmarks Buffer RawImage rawImage largestSkinRegion detectFingerTips).

Lemma detectBodyLandmarks_total (modelImage : Buffer) (jewelryType : option JewelryType) :
  exists landmarks, landmarksOf modelImage jewelryType = Ok landmarks.
Proof.
  unfold detectBodyLandmarks, analyzeImageForLandmarks.
  destruct (rawImage modelImage) as [[[data w] h] |]; cbn [bind tryCatch]; [| eauto].
  destruct jewelryType as [[] |]; cbn [tryCatch]; eauto.
Qed.

Lemma calculateJewelryPlacement_total (modelImage : Buffer)
    (jewelryDimensions : JewelryDimensions) (jewelryType : option JewelryType) :
  exists placement, estimate modelImage jewelryDimensions jewelryType = Ok placement.
Proof.
  unfold calculateJewelryPlacement.
  destruct (detectBodyLandmarks_total modelImage jewelryType) as [landmarks ->].
  cbn [bind].
  destruct (match jewelryType, face landmarks, hands landmarks with
            | Some ring, _, Some (hand :: _) => _
            | _, _, _ => _
            end) as [[px py] ps].
  cbn [tryCatch]. eauto.
Qed.

(** C4 (amended): neither estimator fails.
    - The AI estimator ([findOptimalJewelryPosition]) returns the model's
      placement when there is one and otherwise the per-type fallback,
      whose confidence is 0.5 and which for a necklace is exactly
      x = 600, y = 270, scale = 0.6, rotation = 0 on its fixed 1200x900
      canvas.
    - The heuristic estimator ([calculateJewelryPlacement]) works from
      the per-type estimated landmarks when the photo cannot be decoded;
      for a necklace on a decodable photo without a detectable face it
      returns the fractions x = 0.5, y = 0.5 with
      scale = min(width / 120, 1.5), rotation = 0, front. *)
Theorem estimators_never_fail
    (outcome : AIPositioning.GeminiOutcome) (jewelryType : option JewelryType)
    (modelImage : Buffer) (jewelryDimensions : JewelryDimensions) :
  (exists result,
      AIPositioning.findOptimalJewelryPosition outcome jewelryType = Ok result
      /\ match AIPositioning.analyzeModelAnatomyWithGemini outcome jewelryType with
         | Ok (Some answer) => result = answer
         | _ => result = AIPositioning.getFallbackPosition jewelryType
         end)
  /\ AIPositioning.confidence (AIPositioning.getFallbackPosition jewelryType) == 0.5
  /\ (let fallback := AIPositioning.getFallbackPosition (Some necklace) in
      AIPositioning.position_x fallback == 600
      /\ AIPositioning.position_y fallback == 270
      /\ AIPositioning.scale fallback == 0.6
      /\ AIPositioning.rotation fallback == 0
      /\ AIPositioning.confidence fallback == 0.5)
  /\ (exists placement,
        estimate modelImage jewelryDimensions jewelryType = Ok placement)
  /\ (forall message,
        rawImage modelImage = Throw message ->
        landmarksOf modelImage jewelryType = Ok (estimateLandmarks jewelryType))
  /\ (forall data w h,
        rawImage modelImage = Ok (data, w, h) ->
        detectFaceRegion RawImage largestSkinRegion data w h = None ->
        exists placement,
          estimate modelImage jewelryDimensions (Some necklace) = Ok placement
          /\ x placement == 0.5 /\ y placement == 0.5
          /\ scale placement == Qmin (width jewelryDimensions / 120) 1.5
          /\ rotation placement == 0
          /\ perspective placement = front).
Proof.
  split; [| split; [| split; [| split; [| split]]]].
  - unfold AIPositioning.findOptimalJewelryPosition.
    destruct (AIPositioning.analyzeModelAnatomyWithGemini outcome jewelryType)
      as [[answer |] | message] eqn:E; cbn [bind tryCatch]; eauto.
  - destruct jewelryType as [[] |]; reflexivity.
  - cbv zeta. repeat split; vm_compute; reflexivity.
  - apply calculateJewelryPlacement_total.
  - intros message Hraw. unfold detectBodyLandmarks, analyzeImageForLandmarks.
    rewrite Hraw. reflexivity.
  - intros data w h Hraw Hface.
    unfold calculateJewelryPlacement, detectBodyLandmarks, analyzeImageForLandmarks.
    rewrite Hraw. cbn [bind tryCatch]. unfold detectNeckLandmarks. rewrite Hface.
    cbn [face hands lx ly bind tryCatch].
    eexists. split; [reflexivity |].
    cbn [x y scale rotation perspective].
    repeat split; try reflexivity.
Qed.

End Estimators.

Lemma estimators_never_fail_witness :
  exists placement,
    Placement.calculateJewelryPlacement Fixture.Image Fixture.Image
      Fixture.rawImage Fixture.noSkin Fixture.noFingerTips
      Fixture.modelPhoto (Placement.mkDimensions 45 20 2) (Some necklace) = Ok placement
    /\ Placement.x placement == 0.5 /\ Placement.y placement == 0.5
    /\ Placement.scale placement == Qmin (45 / 120) 1.5
    /\ Placement.rotation placement == 0
    /\ Placement.perspective placement = Placement.front.
Proof.
  exact (proj2 (proj2 (proj2 (proj2 (proj2
           (estimators_never_fail Fixture.Image Fixture.Image
              Fixture.rawImage Fixture.noSkin Fixture.noFingerTips
              AIPositioning.HttpError (Some necklace) Fixture.modelPhoto
              (Placement.mkDimensions 45 20 2))))))
           Fixture.modelPhoto 1200%Z 900%Z eq_refl eq_refl).
Defined.

(** C4 (as stated): a necklace on a 1200x900 image with no detectable face
    yields x = 600, y = 270, scale = 0.6 and confidence 0.5 from the
    estimator. The heuristic estimator yields x = 0.5, y = 0.5 and, for a
    45 mm wide necklace, scale = 0.375; its result has no confidence. *)
Lemma heuristic_fallback_is_not_600_270 :
  match Placement.calculateJewelryPlacement Fixture.Image Fixture.Image
          Fixture.rawImage Fixture.noSkin Fixture.noFingerTips
          Fixture.modelPhoto (Placement.mkDimensions 45 20 2) (Some necklace) with
  | Ok placement =>
      ~ Placement.x placement == 600 /\ ~ Placement.y placement == 270
      /\ ~ Placement.scale placement == 0.6
  | Throw _ => False
  end.
Proof.
  vm_compute. repeat split; discriminate.
Qed.

(** * Further properties of the code *)

(** ** Merging of detected regions *)

Section RegionMerging.

Import Validator.

Lemma encloses_refl (r : Region) : encloses r r.
Proof. unfold encloses. repeat split; apply Qle_refl. Qed.

Lemma fold_min_le (rest : list Q) :
  forall first : Q,
    fold_left Qmin rest first <= first
    /\ Forall (fun v => fold_left Qmin rest first <= v) rest.
Proof.
  induction rest as [| a rest IH]; intros first; cbn [fold_left].
  - split; [apply Qle_refl | constructor].
  - destruct (IH (Qmin first a)) as [Hfirst Hrest]. split; [| constructor].
    + eapply Qle_trans; [exact Hfirst | apply Q.le_min_l].
    + eapply Qle_trans; [exact Hfirst | apply Q.le_min_r].
    + exact Hrest.
Qed.

Lemma fold_max_ge (rest : list Q) :
  forall first : Q,
    first <= fold_left Qmax rest first
    /\ Forall (fun v => v <= fold_left Qmax rest first) rest.
Proof.
  induction rest as [| a rest IH]; intros first; cbn [fold_left].
  - split; [apply Qle_refl | constructor].
  - destruct (IH (Qmax first a)) as [Hfirst Hrest]. split; [| constructor].
    + eapply Qle_trans; [apply Q.le_max_l | exact Hfirst].
    + eapply Qle_trans; [apply Q.le_max_r | exact Hfirst].
    + exact Hrest.
Qed.

Lemma Forall_map_iff {A B} (P : B -> Prop) (f : A -> B) (l : list A) :
  Forall P (map f l) <-> Forall (fun a => P (f a)) l.
Proof.
  induction l as [| a l IH]; cbn [map]; split; intros H; try constructor;
    inversion H; subst; try assumption; now apply IH.
Qed.

Lemma mergeRegions_encloses (first : Region) (rest : list Region) :
  Forall (encloses (mergeRegions first rest)) (first :: rest).
Proof.
  unfold mergeRegions, minOf, maxOf.
  destruct (fold_min_le (map x rest) (x first)) as [Hx0 Hx].
  destruct (fold_min_le (map y rest) (y first)) as [Hy0 Hy].
  destruct (fold_max_ge (map (fun r => x r + width r) rest) (x first + width first))
    as [Hr0 Hr].
  destruct (fold_max_ge (map (fun r => y r + height r) rest) (y first + height first))
    as [Hb0 Hb].
  rewrite List.Forall_forall in Hx, Hy, Hr, Hb.
  set (minX := fold_left Qmin (map x rest) (x first)) in *.
  set (minY := fold_left Qmin (map y rest) (y first)) in *.
  set (maxX := fold_left Qmax _ (x first + width first)) in *.
  set (maxY := fold_left Qmax _ (y first + height first)) in *.
  clearbody minX minY maxX maxY.
  constructor.
  - unfold encloses; cbn [x y width height]. repeat split; lra.
  - apply List.Forall_forall. intros r Hin.
    pose proof (Hx _ (in_map x rest r Hin)) as Hx1.
    pose proof (Hy _ (in_map y rest r Hin)) as Hy1.
    pose proof (Hr _ (in_map (fun r => x r + width r) rest r Hin)) as Hr1.
    pose proof (Hb _ (in_map (fun r => y r + height r) rest r Hin)) as Hb1.
    cbn beta in Hr1, Hb1.
    unfold encloses; cbn [x y width height]. repeat split; lra.
Qed.

Lemma inject_succ (n : nat) :
  inject_Z (Z.of_nat (S n)) == inject_Z (Z.of_nat n) + 1.
Proof. rewrite Nat2Z.inj_succ, <- Z.add_1_r, inject_Z_plus. reflexivity. Qed.

Lemma sum_bounds (lo hi : Q) (values : list Q) :
  Forall (fun v => lo <= v /\ v <= hi) values ->
  forall acc : Q,
    acc + lo * inject_Z (Z.of_nat (length values)) <= fold_left Qplus values acc
    /\ fold_left Qplus values acc <= acc + hi * inject_Z (Z.of_nat (length values)).
Proof.
  induction 1 as [| v values [Hlo Hhi] _ IH]; intros acc.
  - cbn [fold_left length]. change (inject_Z (Z.of_nat 0)) with 0. split; lra.
  - cbn [fold_left length]. destruct (IH (acc + v)) as [IHlo IHhi].
    pose proof (inject_succ (length values)) as Hs.
    set (n := inject_Z (Z.of_nat (length values))) in *.
    set (n' := inject_Z (Z.of_nat (S (length values)))) in *.
    set (s := fold_left Qplus values (acc + v)) in *.
    clearbody n n' s. split.
    + rewrite Hs. lra.
    + rewrite Hs. lra.
Qed.

Lemma average_bounds (lo hi : Q) (first : Q) (rest : list Q) :
  Forall (fun v => lo <= v /\ v <= hi) (first :: rest) ->
  lo <= sumOf (first :: rest) / inject_Z (Z.of_nat (length (first :: rest)))
  /\ sumOf (first :: rest) / inject_Z (Z.of_nat (length (first :: rest))) <= hi.
Proof.
  intros Hall. destruct (sum_bounds lo hi _ Hall 0) as [Hlo Hhi].
  assert (Hpos : 0 < inject_Z (Z.of_nat (length (first :: rest)))).
  { change 0 with (inject_Z 0). rewrite <- Zlt_Qlt. cbn [length]. lia. }
  unfold sumOf. split.
  - apply Qle_shift_div_l; [exact Hpos | lra].
  - apply Qle_shift_div_r; [exact Hpos | lra].
Qed.

Lemma mergeRegions_confidence (lo hi : Q) (first : Region) (rest : list Region) :
  Forall (fun r => lo <= confidence r /\ confidence r <= hi) (first :: rest) ->
  lo <= confidence (mergeRegions first rest)
  /\ confidence (mergeRegions first rest) <= hi.
Proof.
  intros Hall. unfold mergeRegions. cbn [confidence].
  rewrite <- (length_map confidence (first :: rest)).
  apply (average_bounds lo hi (confidence first) (map confidence rest)).
  apply (Forall_map_iff (fun v => lo <= v /\ v <= hi) confidence (first :: rest)).
  exact Hall.
Qed.

Lemma fold_min_In (rest : list Q) :
  forall first : Q, In (fold_left Qmin rest first) (first :: rest).
Proof.
  induction rest as [| a rest IH]; intros first; cbn [fold_left]; [now left |].
  destruct (IH (Qmin first a)) as [H | H]; [| right; now right].
  rewrite <- H. apply (Qmin_case (fun q => In q (first :: a :: rest)));
    [now left | right; now left].
Qed.

Lemma fold_max_In (rest : list Q) :
  forall first : Q, In (fold_left Qmax rest first) (first :: rest).
Proof.
  induction rest as [| a rest IH]; intros first; cbn [fold_left]; [now left |].
  destruct (IH (Qmax first a)) as [H | H]; [| right; now right].
  rewrite <- H. apply (Qmax_case (fun q => In q (first :: a :: rest)));
    [now left | right; now left].
Qed.

(** Each edge of the merged rectangle is an edge of one of the inputs. *)
Lemma mergeRegions_edges (first : Region) (rest : list Region) :
  let merged := mergeRegions first rest in
  (exists r, In r (first :: rest) /\ x r = x merged)
  /\ (exists r, In r (first :: rest) /\ y r = y merged)
  /\ (exists r, In r (first :: rest) /\ x r + width r == x merged + width merged)
  /\ (exists r, In r (first :: rest) /\ y r + height r == y merged + height merged).
Proof.
  assert (Hpick : forall (f : Region -> Q) (v : Q),
             In v (f first :: map f rest) -> exists r, In r (first :: rest) /\ f r = v).
  { intros f v [Hv | Hv]; [exists first; split; [now left | exact Hv] |].
    apply in_map_iff in Hv as [r [Hr Hin]]. exists r. split; [now right | exact Hr]. }
  cbv zeta. unfold mergeRegions, minOf, maxOf. cbn [x y width height].
  split; [| split; [| split]].
  - apply (Hpick x). apply fold_min_In.
  - apply (Hpick y). apply fold_min_In.
  - destruct (Hpick (fun r => x r + width r) _
                (fold_max_In (map (fun r => x r + width r) rest) (x first + width first)))
      as [r [Hin Hr]].
    exists r. split; [exact Hin |]. rewrite Hr. ring.
  - destruct (Hpick (fun r => y r + height r) _
                (fold_max_In (map (fun r => y r + height r) rest) (y first + height first)))
      as [r [Hin Hr]].
    exists r. split; [exact Hin |]. rewrite Hr. ring.
Qed.

(** X1: the rectangle that [mergeRegions] returns is the bounding box of
    the rectangles it was given: it contains every one of them, and every
    rectangle that contains them all contains it. *)
Theorem mergeRegions_bounding_box (first : Region) (rest : list Region) :
  Forall (encloses (mergeRegions first rest)) (first :: rest)
  /\ forall outer : Region,
       Forall (encloses outer) (first :: rest) -> encloses outer (mergeRegions first rest).
Proof.
  split; [apply mergeRegions_encloses |].
  intros outer Hall. rewrite List.Forall_forall in Hall.
  destruct (mergeRegions_edges first rest)
    as ([r1 [In1 E1]] & [r2 [In2 E2]] & [r3 [In3 E3]] & [r4 [In4 E4]]).
  destruct (Hall _ In1) as (H1 & _). destruct (Hall _ In2) as (_ & H2 & _).
  destruct (Hall _ In3) as (_ & _ & H3 & _). destruct (Hall _ In4) as (_ & _ & _ & H4).
  unfold encloses. split; [| split; [| split]].
  - rewrite <- E1. exact H1.
  - rewrite <- E2. exact H2.
  - apply Qle_trans with (x r3 + width r3); [| exact H3].
    apply Qle_lteq. right. apply Qeq_sym. exact E3.
  - apply Qle_trans with (y r4 + height r4); [| exact H4].
    apply Qle_lteq. right. apply Qeq_sym. exact E4.
Qed.

Lemma combineLoop_keeps (todo : list (nat * Region)) :
  forall (processed : gset nat) (combined : list Region) (m : Region),
    In m combined -> In m (combineLoop todo processed combined).
Proof.
  induction todo as [| [i region] later IH]; intros processed combined m Hm.
  - exact Hm.
  - cbn [combineLoop]. destruct (bool_decide (i ∈ processed)); [now apply IH |].
    destruct (List.filter _ later); apply IH; apply in_or_app; now left.
Qed.

Lemma Exists_keeps (P : Region -> Prop) (todo : list (nat * Region))
    (processed : gset nat) (combined : list Region) :
  Exists P combined -> Exists P (combineLoop todo processed combined).
Proof.
  rewrite !List.Exists_exists. intros [m [Hm HP]]. exists m. split; [| exact HP].
  now apply combineLoop_keeps.
Qed.

Lemma same_index (todo : list (nat * Region)) (j : nat) (a b : Region) :
  List.NoDup (map fst todo) -> In (j, a) todo -> In (j, b) todo -> a = b.
Proof.
  induction todo as [| [i r] later IH]; intros Hnd Ha Hb; [destruct Ha |].
  cbn [map fst] in Hnd. inversion Hnd as [| ? ? Hnotin Hnd']; subst.
  destruct Ha as [Ha | Ha], Hb as [Hb | Hb].
  - congruence.
  - inversion Ha; subst. exfalso. apply Hnotin. apply in_map_iff. now exists (j, b).
  - inversion Hb; subst. exfalso. apply Hnotin. apply in_map_iff. now exists (j, a).
  - now apply IH.
Qed.

(** Every region still to be visited ends up inside one of the output
    rectangles, provided that those already marked as processed are inside
    one of the rectangles pushed so far. *)
Lemma combineLoop_covers (todo : list (nat * Region)) :
  forall (processed : gset nat) (combined : list Region),
    List.NoDup (map fst todo) ->
    (forall j r, In (j, r) todo -> j ∈ processed ->
                 Exists (fun m => encloses m r) combined) ->
    forall j r, In (j, r) todo ->
                Exists (fun m => encloses m r) (combineLoop todo processed combined).
Proof.
  induction todo as [| [i region] later IH]; intros processed combined Hnd Hinv j r Hin;
    [destruct Hin |].
  cbn [map fst] in Hnd. inversion Hnd as [| ? ? Hnotin Hnd']; subst.
  assert (Hne : forall k other, In (k, other) later -> k <> i).
  { intros k other Hk ->. apply Hnotin. apply in_map_iff. now exists (i, other). }
  cbn [combineLoop]. destruct (bool_decide (i ∈ processed)) eqn:Hproc.
  - apply bool_decide_eq_true_1 in Hproc. destruct Hin as [Hin | Hin].
    + inversion Hin; subst. apply Exists_keeps. apply (Hinv j r); [now left | exact Hproc].
    + apply IH with (j := j); [exact Hnd' | | exact Hin].
      intros k other Hk. apply Hinv. now right.
  - set (overlapping := List.filter _ later).
    assert (Hsub : forall k other, In (k, other) overlapping -> In (k, other) later).
    { intros k other Hk. now apply filter_In in Hk as [Hk _]. }
    destruct overlapping as [| o more] eqn:E.
    + destruct Hin as [Hin | Hin].
      * inversion Hin; subst. apply Exists_keeps. apply List.Exists_exists.
        exists r. split; [apply in_or_app; right; now left | apply encloses_refl].
      * apply IH with (j := j); [exact Hnd' | | exact Hin].
        intros k other Hk Hproc'. apply elem_of_union in Hproc' as [Hproc' | Hproc'].
        -- apply elem_of_singleton in Hproc'. now apply Hne in Hk.
        -- apply Exists_app. left. apply (Hinv k other); [now right | exact Hproc'].
    + pose proof (mergeRegions_encloses region (map snd (o :: more))) as Hmerged.
      rewrite List.Forall_forall in Hmerged.
      destruct Hin as [Hin | Hin].
      * inversion Hin; subst. apply Exists_keeps. apply List.Exists_exists.
        eexists. split; [apply in_or_app; right; now left |].
        apply Hmerged. now left.
      * apply IH with (j := j); [exact Hnd' | | exact Hin].
        intros k other Hk Hproc'. apply elem_of_union in Hproc' as [Hproc' | Hproc'].
        -- apply elem_of_list_to_set in Hproc'. apply elem_of_cons in Hproc' as [-> | Hproc'].
           ++ now apply Hne in Hk.
           ++ apply list_elem_of_In in Hproc'. apply in_map_iff in Hproc' as [[k' o'] [Hk' Ho']].
              cbn [fst] in Hk'. subst k'.
              assert (o' = other) as -> by (apply (same_index later k); auto).
              apply Exists_app. right. apply List.Exists_exists.
              eexists. split; [now left |].
              apply Hmerged. right. apply in_map_iff. now exists (k, other).
        -- apply Exists_app. left. apply (Hinv k other); [now right | exact Hproc'].
Qed.

Lemma combineLoop_length (todo : list (nat * Region)) :
  forall (processed : gset nat) (combined : list Region),
    (length (combineLoop todo processed combined) <= length combined + length todo)%nat.
Proof.
  induction todo as [| [i region] later IH]; intros processed combined.
  - cbn [combineLoop length]. lia.
  - cbn [combineLoop length]. destruct (bool_decide (i ∈ processed)).
    + specialize (IH processed combined). lia.
    + destruct (List.filter _ later);
        match goal with
        | |- (length (combineLoop _ ?p ?c) <= _)%nat =>
            specialize (IH p c); rewrite length_app in IH; cbn [length] in IH; lia
        end.
Qed.

Lemma indexed_In (regions : list Region) :
  forall (k : nat) (r : Region),
    In r regions -> exists i, In (i, r) (combine (seq k (length regions)) regions).
Proof.
  induction regions as [| a regions IH]; intros k r Hin; [destruct Hin |].
  cbn [length seq combine]. destruct Hin as [-> | Hin].
  - exists k. now left.
  - destruct (IH (S k) r Hin) as [i Hi]. exists i. now right.
Qed.

Lemma indexed_fst (regions : list Region) :
  forall k : nat, map fst (combine (seq k (length regions)) regions) = seq k (length regions).
Proof.
  induction regions as [| a regions IH]; intros k; cbn [length seq combine map fst];
    [reflexivity | now rewrite IH].
Qed.

(** X2: merging loses no detection and adds none: every input rectangle of
    [combineRegions] lies inside one of the output rectangles, and the
    output is never longer than the input. *)
Theorem combineRegions_covers (regions : list Region) :
  Forall (fun r => Exists (fun m => encloses m r) (combineRegions regions)) regions
  /\ (length (combineRegions regions) <= length regions)%nat.
Proof.
  split.
  - apply List.Forall_forall. intros r Hin.
    destruct (indexed_In regions 0 r Hin) as [i Hi].
    unfold combineRegions, indexed.
    apply (combineLoop_covers _ ∅ [] ) with (j := i); [| | exact Hi].
    + rewrite indexed_fst. apply List.seq_NoDup.
    + intros j other _ Hempty. now apply not_elem_of_empty in Hempty.
  - unfold combineRegions, indexed. etransitivity; [apply combineLoop_length |].
    cbn [length]. rewrite length_combine, length_seq. lia.
Qed.

End RegionMerging.

Lemma mergeRegions_bounding_box_witness :
  let first := Validator.mkRegion 0 0 32 32 (1 # 2) in
  let rest := [ Validator.mkRegion 16 0 32 32 (7 # 10) ] in
  Validator.encloses (Validator.mkRegion 0 0 48 32 1) (Validator.mergeRegions first rest).
Proof.
  intros first rest.
  apply (proj2 (mergeRegions_bounding_box first rest)).
  repeat constructor; cbn; lra.
Defined.

(** ** Detection and ranking of jewelry regions *)

Section Detection.

Import Validator.

Variables Buffer Pixels : Type.
Variable rawPixels : Buffer -> Result Pixels.
Variable mathSqrt : Q -> Q.
Variables analyzeMetallicProperties calculateEdgeStrength analyzeJewelryColors
  : Pixels -> Z -> Z -> Q.

Local Abbreviation detect :=
  (detectJewelryRegions Buffer Pixels rawPixels analyzeMetallicProperties
     calculateEdgeStrength analyzeJewelryColors).

Lemma forRange_bounds (fuel : nat) :
  forall (i limit step v : Z),
    (0 <= step)%Z -> In v (forRange fuel i limit step) -> (i <= v < limit)%Z.
Proof.
  induction fuel as [| fuel IH]; intros i limit step v Hstep Hin; [destruct Hin |].
  cbn [forRange] in Hin. destruct (i <? limit)%Z eqn:E; [| destruct Hin].
  apply Z.ltb_lt in E. destruct Hin as [<- | Hin]; [lia |].
  apply IH in Hin; [lia | exact Hstep].
Qed.

Lemma scanBlocks_withinImage (score : Z -> Z -> Q) (accept : Q -> bool) (conf : Q -> Q)
    (blockSize step imageWidth imageHeight : Z) :
  (0 <= step)%Z ->
  Forall (withinImage imageWidth imageHeight)
    (scanBlocks score accept conf blockSize step imageWidth imageHeight).
Proof.
  intros Hstep. apply List.Forall_forall. intros r Hin. unfold scanBlocks in Hin.
  apply in_flat_map in Hin as [by_ [Hby Hin]].
  apply in_flat_map in Hin as [bx [Hbx Hin]].
  destruct (accept (score bx by_)); [| destruct Hin].
  destruct Hin as [<- | []].
  apply forRange_bounds in Hby, Hbx; try exact Hstep.
  unfold withinImage; cbn [x y width height].
  rewrite <- !inject_Z_plus. change 0 with (inject_Z 0).
  rewrite <- !Zle_Qle, <- !Zlt_Qlt. lia.
Qed.

Lemma mergeRegions_withinImage (imageWidth imageHeight : Z) (first : Region)
    (rest : list Region) :
  withinImage imageWidth imageHeight first ->
  Forall (withinImage imageWidth imageHeight) rest ->
  withinImage imageWidth imageHeight (mergeRegions first rest).
Proof.
  intros (Hx & Hy & Hr & Hb) Hrest.
  assert (HminX : 0 <= minOf (x first) (map x rest)).
  { apply (fold_left_closed (fun q => 0 <= q) Qmin);
      [intros a b; exact (Qmin_case (fun q => 0 <= q) a b) | exact Hx |].
    apply (Forall_map_field _ _ (withinImage imageWidth imageHeight)); [| exact Hrest].
    now intros r (H & _). }
  assert (HminY : 0 <= minOf (y first) (map y rest)).
  { apply (fold_left_closed (fun q => 0 <= q) Qmin);
      [intros a b; exact (Qmin_case (fun q => 0 <= q) a b) | exact Hy |].
    apply (Forall_map_field _ _ (withinImage imageWidth imageHeight)); [| exact Hrest].
    now intros r (_ & H & _). }
  assert (HmaxX : maxOf (x first + width first) (map (fun r => x r + width r) rest)
                  < inject_Z imageWidth).
  { apply (fold_left_closed (fun q => q < inject_Z imageWidth) Qmax);
      [intros a b; exact (Qmax_case (fun q => q < inject_Z imageWidth) a b) | exact Hr |].
    apply (Forall_map_field _ _ (withinImage imageWidth imageHeight)); [| exact Hrest].
    now intros r (_ & _ & H & _). }
  assert (HmaxY : maxOf (y first + height first) (map (fun r => y r + height r) rest)
                  < inject_Z imageHeight).
  { apply (fold_left_closed (fun q => q < inject_Z imageHeight) Qmax);
      [intros a b; exact (Qmax_case (fun q => q < inject_Z imageHeight) a b) | exact Hb |].
    apply (Forall_map_field _ _ (withinImage imageWidth imageHeight)); [| exact Hrest].
    now intros r (_ & _ & _ & H). }
  unfold withinImage, mergeRegions; cbn [x y width height].
  set (minX := minOf _ _) in *. set (minY := minOf _ _) in *.
  set (maxX := maxOf _ _) in *. set (maxY := maxOf _ _) in *.
  clearbody minX minY maxX maxY. repeat split; lra.
Qed.

Lemma detected_from_combined (compositeResult : Buffer) (w h : Z) (r : Region) :
  In r (detect compositeResult w h) ->
  exists px,
    rawPixels compositeResult = Ok px
    /\ In r (combineRegions
               (detectMetallicRegions Pixels analyzeMetallicProperties px w h
                ++ detectHighContrastRegions Pixels calculateEdgeStrength px w h
                ++ detectJewelryColorRegions Pixels analyzeJewelryColors px w h))
    /\ 0.3 < confidence r.
Proof.
  unfold detectJewelryRegions. destruct (rawPixels compositeResult) as [px |];
    [| intros []].
  intros Hin. apply firstn_In, sortByConfidence_In, filter_In in Hin as [Hin Hconf].
  exists px. split; [reflexivity |]. split; [exact Hin | now apply Qgtb_gt].
Qed.

(** X3: every region that [detectJewelryRegions] reports starts inside the
    image and ends before its right and bottom border. *)
Theorem detectJewelryRegions_within_image (compositeResult : Buffer) (w h : Z) :
  Forall (withinImage w h) (detect compositeResult w h).
Proof.
  apply List.Forall_forall. intros r Hin.
  apply detected_from_combined in Hin as (px & _ & Hin & _).
  revert r Hin. apply List.Forall_forall.
  apply combineRegions_Forall; [intros first others; apply mergeRegions_withinImage |].
  unfold detectMetallicRegions, detectHighContrastRegions, detectJewelryColorRegions.
  repeat (apply Forall_app; split); apply scanBlocks_withinImage; lia.
Qed.

Lemma insertByConfidence_sorted (r : Region) (sorted : list Region) :
  StronglySorted byConfidence sorted ->
  StronglySorted byConfidence (insertByConfidence r sorted).
Proof.
  induction 1 as [| a l Hsorted IH Hall]; cbn [insertByConfidence].
  - repeat constructor.
  - destruct (Qltb (confidence r) (confidence a)) eqn:E.
    + apply Qltb_lt in E. constructor; [exact IH |].
      apply List.Forall_forall. intros b Hb.
      apply insertByConfidence_In in Hb as [-> | Hb].
      * unfold byConfidence. now apply Qlt_le_weak.
      * rewrite List.Forall_forall in Hall. now apply Hall.
    + apply Qltb_ge in E. constructor; [now constructor |].
      constructor; [exact E |].
      apply List.Forall_forall. intros b Hb. rewrite List.Forall_forall in Hall.
      unfold byConfidence in *. eapply Qle_trans; [apply (Hall b Hb) | exact E].
Qed.

Lemma sortByConfidence_sorted (regions : list Region) :
  StronglySorted byConfidence (sortByConfidence regions).
Proof.
  induction regions as [| r regions IH]; cbn [sortByConfidence fold_right];
    [constructor | now apply insertByConfidence_sorted].
Qed.

Lemma firstn_sorted (n : nat) :
  forall regions : list Region,
    StronglySorted byConfidence regions -> StronglySorted byConfidence (firstn n regions).
Proof.
  induction n as [| n IH]; intros regions Hsorted; [constructor |].
  destruct Hsorted as [| a l Hsorted Hall]; cbn [firstn]; constructor.
  - now apply IH.
  - apply List.Forall_forall. intros b Hb. apply firstn_In in Hb.
    rewrite List.Forall_forall in Hall. now apply Hall.
Qed.

(** X4: [detectJewelryRegions] reports at most five regions, each with a
    confidence above 0.3, in descending order of confidence. *)
Theorem detectJewelryRegions_ranked (compositeResult : Buffer) (w h : Z) :
  (length (detect compositeResult w h) <= 5)%nat
  /\ Forall (fun r => 0.3 < confidence r) (detect compositeResult w h)
  /\ StronglySorted byConfidence (detect compositeResult w h).
Proof.
  split; [| split].
  - unfold detectJewelryRegions. destruct (rawPixels compositeResult);
      [apply firstn_le_length | cbn [length]; lia].
  - apply List.Forall_forall. intros r Hin.
    now apply detected_from_combined in Hin as (_ & _ & _ & H).
  - unfold detectJewelryRegions. destruct (rawPixels compositeResult); [| constructor].
    apply firstn_sorted, sortByConfidence_sorted.
Qed.

Lemma best_of_fold (score : Region -> Q) (rest : list Region) :
  forall first : Region,
    let best :=
      fold_left (fun best current => if Qgtb (score current) (score best)
                                     then current else best) rest first in
    score first <= score best /\ Forall (fun r => score r <= score best) rest.
Proof.
  induction rest as [| a rest IH]; intros first; cbn [fold_left].
  - split; [apply Qle_refl | constructor].
  - destruct (Qgtb (score a) (score first)) eqn:E.
    + apply Qgtb_gt in E. destruct (IH a) as [Ha Hrest]. cbv zeta in Ha, Hrest.
      split; [| constructor; assumption].
      eapply Qle_trans; [apply Qlt_le_weak, E | exact Ha].
    + apply Qgtb_le in E. destruct (IH first) as [Hfirst Hrest]. cbv zeta in Hfirst, Hrest.
      split; [exact Hfirst | constructor; [| exact Hrest]].
      eapply Qle_trans; [exact E | exact Hfirst].
Qed.

(** X5: from a list with at least one region, [selectBestJewelryRegion]
    returns one of the listed regions, and none of them has a higher final
    score (confidence, size bonus and centrality). *)
Theorem selectBestJewelryRegion_is_best (first : Region) (rest : list Region)
    (imageWidth imageHeight : Q) :
  let best := selectBestJewelryRegion mathSqrt (first :: rest) imageWidth imageHeight in
  In best (first :: rest)
  /\ Forall (fun r => finalScore mathSqrt r imageWidth imageHeight
                      <= finalScore mathSqrt best imageWidth imageHeight)
            (first :: rest).
Proof.
  cbv zeta. split.
  - apply (selectBest_fold_In (fun r => finalScore mathSqrt r imageWidth imageHeight)).
  - destruct (best_of_fold (fun r => finalScore mathSqrt r imageWidth imageHeight)
                rest first) as [Hfirst Hrest].
    constructor; assumption.
Qed.

End Detection.

(** ** Acceptance by the integrity validation *)

Section Acceptance.

Import Validator.

Variables Buffer Pixels : Type.
Variable metadata : Buffer -> Result (N * N).
Variable rawPixels : Buffer -> Result Pixels.
Variable sharpExtract : Buffer -> Rect -> Result Buffer.
Variable stats : Buffer -> Result (list ChannelStats).
Variable mathSqrt : Q -> Q.
Variable toFixed1 : Q -> string.
Variables analyzeMetallicProperties calculateEdgeStrength analyzeJewelryColors
  : Pixels -> Z -> Z -> Q.
Variable normalizeForComparison : Buffer -> Result Buffer.
Variables calculateHistogramSimilarity calculateStructuralSimilarity
  calculatePerceptualSimilarity : Buffer -> Buffer -> Result Q.
Variables detectColorChanges detectShapeChanges detectTextureChanges detectSizeChanges
  : Buffer -> Buffer -> Result Q.

Local Abbreviation validate :=
  (validateJewelryIntegrity Buffer Pixels metadata rawPixels sharpExtract stats mathSqrt
     toFixed1 analyzeMetallicProperties calculateEdgeStrength analyzeJewelryColors
     normalizeForComparison calculateHistogramSimilarity calculateStructuralSimilarity
     calculatePerceptualSimilarity detectColorChanges detectShapeChanges
     detectTextureChanges detectSizeChanges).
Local Abbreviation extractFrom :=
  (extractJewelryFromComposite Buffer Pixels metadata rawPixels sharpExtract mathSqrt
     analyzeMetallicProperties calculateEdgeStrength analyzeJewelryColors).
Local Abbreviation similarityOf :=
  (calculateSimilarity Buffer normalizeForComparison calculateHistogramSimilarity
     calculateStructuralSimilarity calculatePerceptualSimilarity).
Local Abbreviation deviationsOf :=
  (detectDeviations Buffer toFixed1 detectColorChanges detectShapeChanges
     detectTextureChanges detectSizeChanges).
Local Abbreviation qualityOf := (performQualityChecks Buffer metadata stats).

Lemma calculateSimilarity_range (originalJewelry extractedJewelry : Buffer) :
  0 <= similarityOf originalJewelry extractedJewelry
  /\ similarityOf originalJewelry extractedJewelry <= 1.
Proof.
  unfold calculateSimilarity.
  destruct (normalizeForComparison originalJewelry) as [o |]; cbn [bind]; [| split; lra].
  destruct (normalizeForComparison extractedJewelry) as [e |]; cbn [bind]; [| split; lra].
  destruct (calculateHistogramSimilarity o e); cbn [bind]; [| split; lra].
  destruct (calculateStructuralSimilarity o e); cbn [bind]; [| split; lra].
  destruct (calculatePerceptualSimilarity o e); cbn [bind]; [| split; lra].
  apply clamped_between. lra.
Qed.

(** X6: the similarity that [validateJewelryIntegrity] reports is a number
    between 0 and 1 on every path, so with a negative tolerance no result
    is ever valid. *)
Theorem validation_similarity_in_unit_interval
    (originalJewelry compositeResult : Buffer) (tolerance : Q) :
  exists result : ValidationResult,
    validate originalJewelry compositeResult tolerance = Ok result
    /\ 0 <= similarity result /\ similarity result <= 1
    /\ (tolerance < 0 -> isValid result = false).
Proof.
  unfold validateJewelryIntegrity.
  destruct (fst (extractFrom compositeResult)) as [extractedJewelry | message];
    cbn [bind tryCatch]; eexists; (split; [reflexivity |]); cbn [similarity isValid].
  - destruct (calculateSimilarity_range originalJewelry extractedJewelry) as [H0 H1].
    split; [exact H0 |]. split; [exact H1 |]. intros Hneg.
    apply andb_false_iff. left.
    destruct (Qle_bool (1 - tolerance) (similarityOf originalJewelry extractedJewelry))
      eqn:E; [| reflexivity].
    apply Qle_bool_iff in E. lra.
  - split; [lra |]. split; [lra | reflexivity].
Qed.

Lemma runChecks_nil (checks : list (string * Result Q)) (tolerance : Q) :
  forall deviations : list string,
    runChecks toFixed1 checks tolerance deviations = []
    <-> deviations = []
        /\ Forall (fun check => exists d, snd check = Ok d /\ d <= tolerance) checks.
Proof.
  induction checks as [| [label [d | message]] rest IH]; intros deviations;
    cbn [runChecks].
  - split; [intros ->; split; [reflexivity | constructor] | now intros [-> _]].
  - destruct (Qgtb d tolerance) eqn:E.
    + apply Qgtb_gt in E. rewrite IH. split.
      * intros [Hnil _]. now apply app_eq_nil in Hnil as [_ Hnil].
      * intros [_ Hall]. inversion Hall as [| ? ? [d' [Hd' Hle]] _]; subst.
        cbn [snd] in Hd'. inversion Hd'; subst. lra.
    + apply Qgtb_le in E. rewrite IH. split.
      * intros [-> Hall]. split; [reflexivity |]. constructor; [| exact Hall].
        exists d. now split.
      * intros [-> Hall]. split; [reflexivity |]. now inversion Hall.
  - split.
    + intros Hnil. now apply app_eq_nil in Hnil as [_ Hnil].
    + intros [_ Hall]. inversion Hall as [| ? ? [d' [Hd' _]] _]; subst. discriminate.
Qed.

Lemma runChecks_length (checks : list (string * Result Q)) (tolerance : Q) :
  forall deviations : list string,
    (length (runChecks toFixed1 checks tolerance deviations)
     <= length deviations + length checks)%nat.
Proof.
  induction checks as [| [label [d | message]] rest IH]; intros deviations;
    cbn [runChecks length].
  - lia.
  - destruct (Qgtb d tolerance).
    + specialize (IH (deviations ++ [String.append label
                        (String.append " deviation detected: "
                           (String.append (toFixed1 (d * 100)) "%"))])).
      rewrite length_app in IH. cbn [length] in IH. lia.
    + specialize (IH deviations). lia.
  - rewrite length_app. cbn [length]. lia.
Qed.

Lemma detectDeviations_nil_iff (originalJewelry extractedJewelry : Buffer) (tolerance : Q) :
  deviationsOf originalJewelry extractedJewelry tolerance = []
  <-> exists color shape texture size,
        detectColorChanges originalJewelry extractedJewelry = Ok color
        /\ detectShapeChanges originalJewelry extractedJewelry = Ok shape
        /\ detectTextureChanges originalJewelry extractedJewelry = Ok texture
        /\ detectSizeChanges originalJewelry extractedJewelry = Ok size
        /\ color <= tolerance /\ shape <= tolerance
        /\ texture <= tolerance /\ size <= tolerance.
Proof.
  unfold detectDeviations. rewrite runChecks_nil. split.
  - intros [_ Hall].
    inversion Hall as [| ? ? [color [Hc Hcl]] Hall1]; subst.
    inversion Hall1 as [| ? ? [shape [Hs Hsl]] Hall2]; subst.
    inversion Hall2 as [| ? ? [texture [Ht Htl]] Hall3]; subst.
    inversion Hall3 as [| ? ? [size [Hz Hzl]] _]; subst.
    cbn [snd] in *. exists color, shape, texture, size. repeat split; assumption.
  - intros (color & shape & texture & size & Hc & Hs & Ht & Hz & Hcl & Hsl & Htl & Hzl).
    split; [reflexivity |].
    repeat constructor; cbn [snd]; eexists; split; eassumption.
Qed.

(** X7: [detectDeviations] reports nothing exactly when all four
    measurements (colour, shape, texture, size) succeed and none exceeds the
    tolerance; it never reports more than four entries. *)
Theorem detectDeviations_none_iff_all_within_tolerance
    (originalJewelry extractedJewelry : Buffer) (tolerance : Q) :
  (deviationsOf originalJewelry extractedJewelry tolerance = []
   <-> exists color shape texture size,
         detectColorChanges originalJewelry extractedJewelry = Ok color
         /\ detectShapeChanges originalJewelry extractedJewelry = Ok shape
         /\ detectTextureChanges originalJewelry extractedJewelry = Ok texture
         /\ detectSizeChanges originalJewelry extractedJewelry = Ok size
         /\ color <= tolerance /\ shape <= tolerance
         /\ texture <= tolerance /\ size <= tolerance)
  /\ (length (deviationsOf originalJewelry extractedJewelry tolerance) <= 4)%nat.
Proof.
  split; [apply detectDeviations_nil_iff |].
  unfold detectDeviations. etransitivity; [apply runChecks_length |]. cbn [length]. lia.
Qed.

Lemma performQualityChecks_nil_iff (extractedJewelry : Buffer) :
  qualityOf extractedJewelry = []
  <-> exists channels w h,
        stats extractedJewelry = Ok channels
        /\ metadata extractedJewelry = Ok (w, h)
        /\ (32 <= w)%N /\ (32 <= h)%N
        /\ (channels = []
            \/ (20 <= average (map stdev channels)
                /\ 30 <= average (map mean channels)
                /\ average (map mean channels) <= 225)).
Proof.
  unfold performQualityChecks.
  destruct (stats extractedJewelry) as [channels | message].
  2:{ split; [discriminate | intros (? & ? & ? & H & _); discriminate]. }
  destruct (metadata extractedJewelry) as [[w h] | message].
  2:{ split.
      - intros H. apply app_eq_nil in H as [_ H]. now apply app_eq_nil in H as [_ H].
      - intros (? & ? & ? & _ & H & _). discriminate. }
  assert (Hsize : (if (w =? 0)%N || (h =? 0)%N || (w <? 32)%N || (h <? 32)%N
                   then ["Extracted jewelry region too small"%string] else []) = []
                  <-> (32 <= w)%N /\ (32 <= h)%N).
  { destruct ((w =? 0)%N || (h =? 0)%N || (w <? 32)%N || (h <? 32)%N) eqn:E.
    - split; [discriminate |]. intros [Hw Hh].
      rewrite !orb_true_iff in E. rewrite !N.eqb_eq, !N.ltb_lt in E. lia.
    - split; [| reflexivity]. intros _.
      rewrite !orb_false_iff in E. rewrite !N.eqb_neq, !N.ltb_ge in E. lia. }
  destruct channels as [| channel channels].
  - cbn [app]. rewrite Hsize. split.
    + intros [Hw Hh]. exists [], w, h. repeat split; auto.
    + intros (? & w' & h' & _ & Hmeta & Hw & Hh & _). inversion Hmeta; subst. now split.
  - set (all := channel :: channels).
    destruct (Qltb (average (map stdev all)) 20) eqn:Eblur.
    + apply Qltb_lt in Eblur. split; [discriminate |].
      intros (cs & ? & ? & Hstats & _ & _ & _ & [Hnil | [Hsharp _]]);
        inversion Hstats; subst cs; [discriminate | lra].
    + apply Qltb_ge in Eblur. cbn [app].
      destruct (Qltb (average (map mean all)) 30) eqn:Edark.
      * apply Qltb_lt in Edark. split; [discriminate |].
        intros (cs & ? & ? & Hstats & _ & _ & _ & [Hnil | (_ & Hlo & _)]);
          inversion Hstats; subst cs; [discriminate | lra].
      * apply Qltb_ge in Edark.
        destruct (Qgtb (average (map mean all)) 225) eqn:Ebright.
        -- apply Qgtb_gt in Ebright. split; [discriminate |].
           intros (cs & ? & ? & Hstats & _ & _ & _ & [Hnil | (_ & _ & Hhi)]);
             inversion Hstats; subst cs; [discriminate | lra].
        -- apply Qgtb_le in Ebright. cbn [app]. rewrite Hsize. split.
           ++ intros [Hw Hh]. exists all, w, h. repeat split; auto.
           ++ intros (? & w' & h' & _ & Hmeta & Hw & Hh & _).
              inversion Hmeta; subst. now split.
Qed.

(** X8: [performQualityChecks] reports nothing exactly when the channel
    statistics and the size can be read, the picture is at least 32x32, and
    (for a picture with channels) the mean standard deviation is at least
    20 and the mean brightness lies between 30 and 225. *)
Theorem performQualityChecks_none_iff (extractedJewelry : Buffer) :
  qualityOf extractedJewelry = []
  <-> exists channels w h,
        stats extractedJewelry = Ok channels
        /\ metadata extractedJewelry = Ok (w, h)
        /\ (32 <= w)%N /\ (32 <= h)%N
        /\ (channels = []
            \/ (20 <= average (map stdev channels)
                /\ 30 <= average (map mean channels)
                /\ average (map mean channels) <= 225)).
Proof. apply performQualityChecks_nil_iff. Qed.

(** X9: validation is monotone in the tolerance: a composite that is valid
    for one tolerance is valid, with the same similarity, for every larger
    one. *)
Theorem validation_monotone_in_tolerance
    (originalJewelry compositeResult : Buffer) (tolerance tolerance' : Q)
    (result : ValidationResult) :
  tolerance <= tolerance' ->
  validate originalJewelry compositeResult tolerance = Ok result ->
  isValid result = true ->
  exists result' : ValidationResult,
    validate originalJewelry compositeResult tolerance' = Ok result'
    /\ isValid result' = true
    /\ similarity result' = similarity result.
Proof.
  intros Hle. unfold validateJewelryIntegrity.
  destruct (fst (extractFrom compositeResult)) as [extractedJewelry | message];
    cbn [bind tryCatch]; intros Hresult Hvalid; inversion Hresult; subst result;
    cbn [isValid similarity] in *; [| discriminate].
  eexists. split; [reflexivity |]. cbn [isValid similarity]. split; [| reflexivity].
  apply andb_true_iff in Hvalid as [Hsim Hnone].
  apply Qle_bool_iff in Hsim. apply Nat.eqb_eq, length_zero_iff_nil in Hnone.
  apply app_eq_nil in Hnone as [Hdev Hquality].
  apply andb_true_iff. split.
  - apply Qle_bool_iff. lra.
  - apply Nat.eqb_eq, length_zero_iff_nil. rewrite Hquality, app_nil_r.
    apply detectDeviations_nil_iff in Hdev
      as (color & shape & texture & size & Hc & Hs & Ht & Hz & Hcl & Hsl & Htl & Hzl).
    apply detectDeviations_nil_iff. exists color, shape, texture, size.
    repeat split; try assumption; lra.
Qed.

End Acceptance.

Lemma validation_similarity_in_unit_interval_witness :
  exists result : Validator.ValidationResult,
    Validator.validateJewelryIntegrity Fixture.Image Fixture.Image
      Fixture.metadata Fixture.rawPixels Fixture.extract Fixture.stats Fixture.sqrt3
      Fixture.toFixed1 Fixture.metallicEverywhere Fixture.nothingFound Fixture.nothingFound
      (Fixture.derive "normalized") Fixture.alike Fixture.alike Fixture.alike
      Fixture.unchanged Fixture.unchanged Fixture.unchanged Fixture.unchanged
      Fixture.jewelryPhoto Fixture.compositePhoto (-1 # 100)
    = Ok result
    /\ Validator.isValid result = false.
Proof.
  destruct (validation_similarity_in_unit_interval Fixture.Image Fixture.Image
              Fixture.metadata Fixture.rawPixels Fixture.extract Fixture.stats Fixture.sqrt3
              Fixture.toFixed1 Fixture.metallicEverywhere Fixture.nothingFound
              Fixture.nothingFound (Fixture.derive "normalized") Fixture.alike Fixture.alike
              Fixture.alike Fixture.unchanged Fixture.unchanged Fixture.unchanged
              Fixture.unchanged Fixture.jewelryPhoto Fixture.compositePhoto (-1 # 100))
    as [result (Hresult & _ & _ & Hneg)].
  exists result. split; [exact Hresult | apply Hneg; reflexivity].
Defined.

Lemma validation_monotone_in_tolerance_witness :
  exists result' : Validator.ValidationResult,
    Validator.validateJewelryIntegrity Fixture.Image Fixture.Image
      Fixture.metadata Fixture.rawPixels Fixture.extract Fixture.stats Fixture.sqrt3
      Fixture.toFixed1 Fixture.metallicEverywhere Fixture.nothingFound Fixture.nothingFound
      (Fixture.derive "normalized") Fixture.alike Fixture.alike Fixture.alike
      Fixture.unchanged Fixture.unchanged Fixture.unchanged Fixture.unchanged
      Fixture.jewelryPhoto Fixture.compositePhoto (5 # 100)
    = Ok result'
    /\ Validator.isValid result' = true
    /\ Validator.similarity result' = 1.
Proof.
  assert (Hle : (2 # 100) <= (5 # 100)) by (unfold Qle; cbn; lia).
  exact (validation_monotone_in_tolerance Fixture.Image Fixture.Image
           Fixture.metadata Fixture.rawPixels Fixture.extract Fixture.stats Fixture.sqrt3
           Fixture.toFixed1 Fixture.metallicEverywhere Fixture.nothingFound
           Fixture.nothingFound (Fixture.derive "normalized") Fixture.alike Fixture.alike
           Fixture.alike Fixture.unchanged Fixture.unchanged Fixture.unchanged
           Fixture.unchanged Fixture.jewelryPhoto Fixture.compositePhoto
           (2 # 100) (5 # 100)
           (Validator.mkValidationResult true 1 []) Hle eq_refl eq_refl).
Defined.

(** ** Heuristic placement *)

Section HeuristicPlacement.

Import Placement.

Variables Buffer RawImage : Type.
Variable rawImage : Buffer -> Result (RawImage * Z * Z).
Variable largestSkinRegion : RawImage -> option SkinRegion.
Variable detectFingerTips : RawImage -> SkinRegion -> list (Z * Z).

Local Abbreviation estimate :=
  (calculateJewelryPlacement Buffer RawImage rawImage largestSkinRegion detectFingerTips).
Local Abbreviation landmarksOf :=
  (detectBodyLandmarks Buffer RawImage rawImage largestSkinRegion detectFingerTips).
Local Abbreviation estimatePair :=
  (calculateMultiplePlacements Buffer RawImage rawImage largestSkinRegion detectFingerTips).

Lemma calculateRotation_range (jewelryType : option JewelryType)
    (landmarks : BodyLandmarks) (perspective : Perspective) :
  -45 <= calculateRotation jewelryType landmarks perspective
  /\ calculateRotation jewelryType landmarks perspective <= 45.
Proof. unfold calculateRotation. apply clamped_between. lra. Qed.

(** The landmarks the placement needs are always there: a hand for rings
    and bracelets, a neck point for necklaces, two ears for earrings. *)
Lemma landmarks_sufficient (modelImage : Buffer) (jewelryType : JewelryType) :
  exists landmarks,
    landmarksOf modelImage (Some jewelryType) = Ok landmarks
    /\ match jewelryType with
       | ring | bracelet => exists hand more, hands landmarks = Some (hand :: more)
       | necklace => exists neck more, face landmarks = Some (neck :: more)
       | earrings =>
           exists leftEar rightEar more,
             face landmarks = Some (leftEar :: rightEar :: more)
       end.
Proof.
  unfold detectBodyLandmarks, analyzeImageForLandmarks.
  destruct (rawImage modelImage) as [[[data w] h] | message]; cbn [bind tryCatch].
  - destruct jewelryType; cbn [tryCatch]; eexists; (split; [reflexivity |]);
      cbn [hands face];
      unfold detectHandLandmarks, detectNeckLandmarks, detectEarLandmarks.
    + destruct (largestSkinRegion data) as [region |]; [| eauto].
      destruct (detectFingerTips data region) as [| [tipX tipY] tips]; eauto.
    + destruct (detectFaceRegion RawImage largestSkinRegion data w h); eauto.
    + destruct (detectFaceRegion RawImage largestSkinRegion data w h); eauto.
    + destruct (largestSkinRegion data) as [region |]; [| eauto].
      destruct (detectFingerTips data region) as [| [tipX tipY] tips]; eauto.
  - destruct jewelryType; eexists; (split; [reflexivity |]); cbn [estimateLandmarks hands face];
      eauto.
Qed.

Lemma estimate_scale_formula (modelImage : Buffer)
    (jewelryDimensions : JewelryDimensions) (jewelryType : JewelryType) :
  exists placement,
    estimate modelImage jewelryDimensions (Some jewelryType) = Ok placement
    /\ scale placement
       = match jewelryType with
         | ring => calculateRingScale jewelryDimensions
         | necklace => calculateNecklaceScale jewelryDimensions
         | earrings => calculateEarringScale jewelryDimensions
         | bracelet => calculateBraceletScale jewelryDimensions
         end.
Proof.
  unfold calculateJewelryPlacement.
  destruct (landmarks_sufficient modelImage jewelryType) as [landmarks [-> Hlm]].
  cbn [bind]. destruct jewelryType.
  - destruct Hlm as (hand & more & ->). cbn [tryCatch]. eexists. split; reflexivity.
  - destruct Hlm as (neck & more & ->). cbn [tryCatch]. eexists. split; reflexivity.
  - destruct Hlm as (leftEar & rightEar & more & ->). cbn [tryCatch].
    eexists. split; reflexivity.
  - destruct Hlm as (hand & more & ->). cbn [tryCatch]. eexists. split; reflexivity.
Qed.

(** X10: for each of the four jewelry types the scale of the heuristic
    placement is the type's formula of the millimetre dimensions alone
    (width / 18, min(width / 120, 1.5), height / 17, width / 65), whatever
    the photo shows and even when it cannot be decoded; the default scale
    1.0 is never used for them. *)
Theorem placement_scale_from_dimensions_only (modelImage : Buffer)
    (jewelryDimensions : JewelryDimensions) (jewelryType : JewelryType) :
  exists placement,
    estimate modelImage jewelryDimensions (Some jewelryType) = Ok placement
    /\ scale placement
       = match jewelryType with
         | ring => calculateRingScale jewelryDimensions
         | necklace => calculateNecklaceScale jewelryDimensions
         | earrings => calculateEarringScale jewelryDimensions
         | bracelet => calculateBraceletScale jewelryDimensions
         end.
Proof. apply estimate_scale_formula. Qed.

Lemma estimate_rotation_range (modelImage : Buffer)
    (jewelryDimensions : JewelryDimensions) (jewelryType : option JewelryType)
    (placement : PlacementCalculation) :
  estimate modelImage jewelryDimensions jewelryType = Ok placement ->
  -45 <= rotation placement /\ rotation placement <= 45.
Proof.
  unfold calculateJewelryPlacement.
  destruct (detectBodyLandmarks_total Buffer RawImage rawImage largestSkinRegion
              detectFingerTips modelImage jewelryType) as [landmarks ->].
  cbn [bind].
  destruct (match jewelryType, face landmarks, hands landmarks with
            | Some ring, _, Some (hand :: _) => _
            | _, _, _ => _
            end) as [[px py] ps].
  cbn [tryCatch]. intros H. inversion H; subst. cbn [rotation].
  apply calculateRotation_range.
Qed.

Lemma validatePlacement_valid_iff (placement : PlacementCalculation)
    (imageWidth imageHeight : Q) :
  isValid (validatePlacement placement imageWidth imageHeight) = true
  <-> (0 <= x placement /\ x placement <= imageWidth)
      /\ (0 <= y placement /\ y placement <= imageHeight)
      /\ (0.1 <= scale placement /\ scale placement <= 3.0)
      /\ Qabs (rotation placement) <= 45.
Proof.
  unfold validatePlacement, mathAbs. cbn [isValid].
  destruct (Qltb (x placement) 0) eqn:X0; destruct (Qgtb (x placement) imageWidth) eqn:X1;
    destruct (Qltb (y placement) 0) eqn:Y0; destruct (Qgtb (y placement) imageHeight) eqn:Y1;
    destruct (Qltb (scale placement) 0.1) eqn:S0; destruct (Qgtb (scale placement) 3.0) eqn:S1;
    destruct (Qgtb (Qabs (rotation placement)) 45) eqn:R;
    cbn [orb app length Nat.eqb];
    rewrite ?Qltb_lt, ?Qltb_ge, ?Qgtb_gt, ?Qgtb_le in *;
    (split; [try discriminate; intros _; repeat split; assumption
            | try reflexivity; intros ((? & ?) & (? & ?) & (? & ?) & ?); lra]).
Qed.

(** X11: a placement returned by [calculateJewelryPlacement] always has a
    rotation within 45 degrees, so [validatePlacement] never finds its
    rotation too extreme; it accepts the placement exactly when x and y lie
    within the image size and the scale within [0.1, 3.0]. *)
Theorem estimated_placement_valid_iff (modelImage : Buffer)
    (jewelryDimensions : JewelryDimensions) (jewelryType : option JewelryType)
    (placement : PlacementCalculation) (imageWidth imageHeight : Q) :
  estimate modelImage jewelryDimensions jewelryType = Ok placement ->
  ~ In "Rotation angle too extreme"%string
       (issues (validatePlacement placement imageWidth imageHeight))
  /\ (isValid (validatePlacement placement imageWidth imageHeight) = true
      <-> (0 <= x placement /\ x placement <= imageWidth)
          /\ (0 <= y placement /\ y placement <= imageHeight)
          /\ (0.1 <= scale placement /\ scale placement <= 3.0)).
Proof.
  intros Hestimate. apply estimate_rotation_range in Hestimate as [Hlo Hhi].
  assert (Hrot : Qabs (rotation placement) <= 45) by (apply Qabs_Qle_condition; split; lra).
  split.
  - unfold validatePlacement, mathAbs. cbn [issues].
    rewrite (proj2 (Qgtb_le _ _) Hrot).
    destruct (Qltb (x placement) 0 || Qgtb (x placement) imageWidth);
      destruct (Qltb (y placement) 0 || Qgtb (y placement) imageHeight);
      destruct (Qltb (scale placement) 0.1 || Qgtb (scale placement) 3.0);
      cbn [app In]; intros H; repeat destruct H as [H | H]; try discriminate H; exact H.
  - rewrite validatePlacement_valid_iff. tauto.
Qed.

(** X12: [calculateMultiplePlacements] never fails. For every type but
    earrings it returns the one placement of [calculateJewelryPlacement].
    For earrings it returns no placement when fewer than two face landmarks
    are passed in, and otherwise two placements at the fixed points
    (0.35, 0.25) and (0.65, 0.25) with the scale, rotation and perspective
    of [calculateJewelryPlacement], wherever the passed landmarks are. *)
Theorem calculateMultiplePlacements_shape (modelImage : Buffer)
    (jewelryDimensions : JewelryDimensions) (jewelryType : option JewelryType)
    (bodyLandmarks : BodyLandmarks) :
  exists single,
    estimate modelImage jewelryDimensions jewelryType = Ok single
    /\ estimatePair modelImage jewelryDimensions jewelryType bodyLandmarks
       = Ok match jewelryType with
            | Some earrings =>
                match face bodyLandmarks with
                | Some (_ :: _ :: _) =>
                    [ mkPlacement 0.35 0.25 (scale single) (rotation single)
                        (perspective single);
                      mkPlacement 0.65 0.25 (scale single) (rotation single)
                        (perspective single) ]
                | _ => []
                end
            | _ => [single]
            end.
Proof.
  destruct (calculateJewelryPlacement_total Buffer RawImage rawImage largestSkinRegion
              detectFingerTips modelImage jewelryDimensions jewelryType) as [single Hsingle].
  exists single. split; [exact Hsingle |].
  unfold calculateMultiplePlacements. rewrite Hsingle.
  destruct jewelryType as [[] |]; cbn [bind]; try reflexivity.
  destruct (face bodyLandmarks) as [[| leftEar [| rightEar more]] |]; reflexivity.
Qed.

End HeuristicPlacement.

Lemma estimated_placement_valid_iff_witness :
  let placement :=
    Placement.mkPlacement 0.5 (0.35 + 0.15)
      (Placement.calculateNecklaceScale (Placement.mkDimensions 45 20 2))
      (Qmax (-45) (Qmin 45 (0 * 0.5))) Placement.front in
  ~ In "Rotation angle too extreme"%string
       (Placement.issues (Placement.validatePlacement placement 1200 900))
  /\ (Placement.isValid (Placement.validatePlacement placement 1200 900) = true
      <-> (0 <= Placement.x placement /\ Placement.x placement <= 1200)
          /\ (0 <= Placement.y placement /\ Placement.y placement <= 900)
          /\ (0.1 <= Placement.scale placement /\ Placement.scale placement <= 3.0)).
Proof.
  intros placement.
  exact (estimated_placement_valid_iff Fixture.Image Fixture.Image
           Fixture.rawImage Fixture.noSkin Fixture.noFingerTips
           Fixture.modelPhoto (Placement.mkDimensions 45 20 2) (Some necklace)
           placement 1200 900 eq_refl).
Defined.

(** ** Placement proposed by the vision model *)

Section ModelPlacement.

Import AIPositioning.

Lemma clamp_idempotent (lo hi v : Q) :
  Qmax lo (Qmin hi (Qmax lo (Qmin hi v))) == Qmax lo (Qmin hi v).
Proof.
  destruct (Q.min_spec hi v) as [[H1 E1] | [H1 E1]];
    destruct (Q.max_spec lo (Qmin hi v)) as [[H2 E2] | [H2 E2]];
    destruct (Q.min_spec hi (Qmax lo (Qmin hi v))) as [[H3 E3] | [H3 E3]];
    destruct (Q.max_spec lo (Qmin hi (Qmax lo (Qmin hi v)))) as [[H4 E4] | [H4 E4]];
    set (a := Qmin hi v) in *; set (b := Qmax lo a) in *;
    set (c := Qmin hi b) in *; set (d := Qmax lo c) in *;
    clearbody a b c d; lra.
Qed.

Lemma clamp_fixes (lo hi v : Q) : lo <= v -> v <= hi -> Qmax lo (Qmin hi v) == v.
Proof.
  intros Hlo Hhi.
  destruct (Q.min_spec hi v) as [[H1 E1] | [H1 E1]];
    destruct (Q.max_spec lo (Qmin hi v)) as [[H2 E2] | [H2 E2]];
    set (a := Qmin hi v) in *; set (b := Qmax lo a) in *; clearbody a b; lra.
Qed.

(** X13: [validateJewelryPosition] puts the position at least 50 pixels
    inside an image of at least 100x100 and the scale into [0.1, 1.5],
    leaves a placement that already satisfies this unchanged, never touches
    rotation and confidence, and validating twice changes nothing more. *)
Theorem validateJewelryPosition_clamps (result : JewelryPlacementResult)
    (imageWidth imageHeight : Q) :
  let validated := validateJewelryPosition result imageWidth imageHeight in
  (100 <= imageWidth ->
     50 <= position_x validated /\ position_x validated <= imageWidth - 50)
  /\ (100 <= imageHeight ->
        50 <= position_y validated /\ position_y validated <= imageHeight - 50)
  /\ (0.1 <= scale validated /\ scale validated <= 1.5)
  /\ rotation validated = rotation result
  /\ confidence validated = confidence result
  /\ (50 <= position_x result -> position_x result <= imageWidth - 50 ->
      position_x validated == position_x result)
  /\ (50 <= position_y result -> position_y result <= imageHeight - 50 ->
      position_y validated == position_y result)
  /\ (0.1 <= scale result -> scale result <= 1.5 -> scale validated == scale result)
  /\ (let again := validateJewelryPosition validated imageWidth imageHeight in
      position_x again == position_x validated
      /\ position_y again == position_y validated
      /\ scale again == scale validated).
Proof.
  cbv zeta. unfold validateJewelryPosition.
  cbn [position_x position_y scale rotation confidence].
  split; [| split; [| split; [| split; [| split; [| split; [| split; [| split]]]]]]].
  - intros H. apply clamped_between. lra.
  - intros H. apply clamped_between. lra.
  - apply clamped_between. lra.
  - reflexivity.
  - reflexivity.
  - apply clamp_fixes.
  - apply clamp_fixes.
  - apply clamp_fixes.
  - split; [| split]; apply clamp_idempotent.
Qed.


End ModelPlacement.

Lemma validateJewelryPosition_clamps_witness :
  let validated :=
    AIPositioning.validateJewelryPosition
      (AIPositioning.mkResult 5000 (-20) 4 30 0.9) 1200 900 in
  (50 <= AIPositioning.position_x validated
   /\ AIPositioning.position_x validated <= 1200 - 50)
  /\ (50 <= AIPositioning.position_y validated
      /\ AIPositioning.position_y validated <= 900 - 50).
Proof.
  intros validated.
  pose proof (validateJewelryPosition_clamps
                (AIPositioning.mkResult 5000 (-20) 4 30 0.9) 1200 900) as H.
  cbv zeta in H. destruct H as (Hx & Hy & _).
  assert (HW : 100 <= 1200) by (unfold Qle; cbn; lia).
  assert (HH : 100 <= 900) by (unfold Qle; cbn; lia).
  exact (conj (Hx HW) (Hy HH)).
Defined.


(** ** Composition of several pieces and its review *)

Section ReviewArea.

Import Composition.

Lemma mathRound_monotone (a b : Q) : a <= b -> (mathRound a <= mathRound b)%Z.
Proof. intros H. unfold mathRound. apply Qfloor_resp_le. lra. Qed.

Lemma mathRound_inject (z : Z) : mathRound (inject_Z z) = z.
Proof.
  rewrite (mathRound_frac 1 (inject_Z z) z) by (change (inject_Z 1) with 1; lra).
  change (2 * 1)%Z with 2%Z. Z.to_euclidean_division_equations. lia.
Qed.

Lemma mathRound_le_int (q : Q) (z : Z) : q <= inject_Z z -> (mathRound q <= z)%Z.
Proof.
  intros H. rewrite <- (mathRound_inject z). now apply mathRound_monotone.
Qed.

Lemma mathRound_lt_int (q : Q) (z : Z) : q + (1 # 2) < inject_Z z -> (mathRound q < z)%Z.
Proof.
  intros H. unfold mathRound. rewrite Zlt_Qlt.
  eapply Qle_lt_trans; [apply Qfloor_le | exact H].
Qed.

Lemma placement_axis (position : Q) (extent : Z) :
  let start := Z.max 0 (mathRound (position - 200 / 2)) in
  let size := Z.min 200 (extent - start) in
  (0 <= start /\ start + size <= extent /\ size <= 200)%Z
  /\ (position <= inject_Z extent -> (1 <= extent)%Z -> (1 <= size)%Z)
  /\ (position < 100.5 -> start = 0%Z).
Proof.
  cbv zeta.
  assert (E : position - 200 / 2 == position - 100)
    by (unfold Qdiv; change (/ 2) with (1 # 2); lra).
  assert (Er : mathRound (position - 200 / 2) = mathRound (position - 100))
    by (unfold mathRound; apply Qfloor_comp; rewrite E; reflexivity).
  rewrite Er.
  split; [lia | split].
  - intros Hin Hpos.
    assert (mathRound (position - 100) <= extent - 100)%Z.
    { apply mathRound_le_int. unfold Zminus. rewrite inject_Z_plus.
      change (inject_Z (- (100))) with (-100). lra. }
    lia.
  - intros Hsmall.
    assert (mathRound (position - 100) < 1)%Z.
    { apply mathRound_lt_int. change (inject_Z 1) with 1. lra. }
    lia.
Qed.

(** X16: the rectangle that [extractPlacementArea] cuts out for review lies
    inside the image and is at most 200x200; it is not empty when the
    placement point lies within the image; and for a placement whose
    coordinates are below 100.5 (as the fractions returned by
    [calculateJewelryPlacement] are) it starts at the top-left corner of
    the image. *)
Theorem placementAreaRect_inside (placement : Placement.PlacementCalculation)
    (width height : Z) :
  let rect := placementAreaRect placement width height in
  Validator.insideImage rect width height
  /\ (Validator.rectWidth rect <= 200 /\ Validator.rectHeight rect <= 200)%Z
  /\ (Placement.x placement <= inject_Z width -> (1 <= width)%Z ->
      (1 <= Validator.rectWidth rect)%Z)
  /\ (Placement.y placement <= inject_Z height -> (1 <= height)%Z ->
      (1 <= Validator.rectHeight rect)%Z)
  /\ (Placement.x placement < 100.5 -> Placement.y placement < 100.5 ->
      Validator.left rect = 0%Z /\ Validator.top rect = 0%Z).
Proof.
  cbv zeta. unfold placementAreaRect, Validator.insideImage.
  cbn [Validator.left Validator.top Validator.rectWidth Validator.rectHeight].
  destruct (placement_axis (Placement.x placement) width) as ((Hx0 & Hx1 & Hx2) & Hx3 & Hx4).
  destruct (placement_axis (Placement.y placement) height) as ((Hy0 & Hy1 & Hy2) & Hy3 & Hy4).
  cbv zeta in Hx0, Hx1, Hx2, Hx3, Hx4, Hy0, Hy1, Hy2, Hy3, Hy4. repeat split; auto.
Qed.

Lemma quality_passes (edgeStrength : Q) :
  Qgtb (Qmin 1 edgeStrength) 0.3 = false
  /\ Qgtb (Qmax 0 (1 - inject_Z (Z.of_nat 0) * 0.2 - Qmin 1 edgeStrength)) 0.7 = true
  <-> edgeStrength < 0.3.
Proof.
  rewrite Qgtb_le, Qgtb_gt. change (inject_Z (Z.of_nat 0)) with 0.
  destruct (Q.min_spec 1 edgeStrength) as [[H1 E1] | [H1 E1]];
    destruct (Q.max_spec 0 (1 - 0 * 0.2 - Qmin 1 edgeStrength)) as [[H2 E2] | [H2 E2]];
    revert H1 E1 H2 E2;
    generalize (Qmax 0 (1 - 0 * 0.2 - Qmin 1 edgeStrength));
    generalize (Qmin 1 edgeStrength); intros a q H1 E1 H2 E2;
    (split; [intros [Ha Hq] | intros H; split]; lra).
Qed.

End ReviewArea.

Section CompositionReview.

Import Composition.

Variable Buffer : Type.
Variable metadata : Buffer -> Result (N * N).
Variable resize : Buffer -> Z -> Z -> Result Buffer.
Variable compositeOver : Buffer -> Buffer -> Q -> Q -> Result Buffer.
Variable sharpExtract : Buffer -> Validator.Rect -> Result Buffer.
Variable edgeDetect : Buffer -> Result Buffer.
Variable stats : Buffer -> Result (list Validator.ChannelStats).

Local Abbreviation compositeOne :=
  (compositeJewelryOnModel Buffer Placement.PlacementCalculation metadata resize
     compositeOver).
Local Abbreviation compositeAll :=
  (compositeMultipleJewelry Buffer metadata resize compositeOver).
Local Abbreviation areaOf := (extractPlacementArea Buffer metadata sharpExtract).
Local Abbreviation artifactsOf := (detectArtifacts Buffer edgeDetect stats).
Local Abbreviation review :=
  (validateComposition Buffer metadata sharpExtract edgeDetect stats).

Lemma compositeJewelryOnModel_total (modelImage : Buffer)
    (segmentedJewelry : JewelrySegmentation Buffer)
    (placement : Placement.PlacementCalculation) (shadowSettings : option ShadowConfig)
    (positionOffset : option (Q * Q)) (jewelryType : option JewelryType) :
  exists output,
    compositeOne modelImage segmentedJewelry placement shadowSettings positionOffset
      jewelryType = Ok output.
Proof.
  unfold compositeJewelryOnModel.
  destruct (bind (metadata modelImage) _) as [output | message]; cbn [tryCatch]; eauto.
Qed.

(** X15: [compositeMultipleJewelry] never fails, returns the model image
    itself for an empty list of placements, and its result depends on how
    many placements there are but not on what they or the shadow settings
    say: two lists of the same length give the same image. *)
Theorem compositeMultipleJewelry_ignores_placements
    (segmentedJewelry : JewelrySegmentation Buffer)
    (placements placements' : list Placement.PlacementCalculation)
    (shadowSettings shadowSettings' : option ShadowConfig) (modelImage : Buffer) :
  length placements = length placements' ->
  (exists output, compositeAll modelImage segmentedJewelry placements shadowSettings = Ok output)
  /\ compositeAll modelImage segmentedJewelry [] shadowSettings = Ok modelImage
  /\ compositeAll modelImage segmentedJewelry placements shadowSettings
     = compositeAll modelImage segmentedJewelry placements' shadowSettings'.
Proof.
  intros Hlen. split; [| split; [reflexivity |]].
  - clear Hlen placements'. revert modelImage.
    induction placements as [| placement rest IH]; intros modelImage;
      cbn [compositeMultipleJewelry]; [eauto |].
    destruct (compositeJewelryOnModel_total modelImage segmentedJewelry placement
                shadowSettings None None) as [output ->].
    cbn [bind]. apply IH.
  - revert placements' Hlen modelImage.
    induction placements as [| placement rest IH]; intros [| placement' rest'] Hlen modelImage;
      try discriminate Hlen; cbn [compositeMultipleJewelry]; [reflexivity |].
    change (compositeOne modelImage segmentedJewelry placement shadowSettings None None)
      with (compositeOne modelImage segmentedJewelry placement' shadowSettings' None None).
    destruct (compositeOne modelImage segmentedJewelry placement' shadowSettings' None None)
      as [output | message]; cbn [bind]; [| reflexivity].
    apply IH. now inversion Hlen.
Qed.

(** X17: [validateComposition] accepts a composite exactly when both
    images can be read and have the same size, the review area can be cut
    out and analysed, and the edge strength of that area (standard
    deviation / 255) is below 0.3. At exactly 0.3 the composite is rejected
    although no issue is listed. *)
Theorem validateComposition_valid_iff (originalModel compositeResult : Buffer)
    (placement : Placement.PlacementCalculation) :
  (isValid (review originalModel compositeResult placement) = true
   <-> exists size placementArea edges channel others,
         metadata originalModel = Ok size
         /\ metadata compositeResult = Ok size
         /\ areaOf compositeResult placement = Ok placementArea
         /\ edgeDetect placementArea = Ok edges
         /\ stats edges = Ok (channel :: others)
         /\ Validator.stdev channel / 255 < 0.3)
  /\ (forall size placementArea edges channel others,
         metadata originalModel = Ok size ->
         metadata compositeResult = Ok size ->
         areaOf compositeResult placement = Ok placementArea ->
         edgeDetect placementArea = Ok edges ->
         stats edges = Ok (channel :: others) ->
         Validator.stdev channel / 255 == 0.3 ->
         isValid (review originalModel compositeResult placement) = false
         /\ issues (review originalModel compositeResult placement) = []).
Proof.
  unfold validateComposition, detectArtifacts. split.
  - destruct (metadata originalModel) as [[ow oh] | message]; cbn [bind].
    2:{ split; [discriminate | intros (? & ? & ? & ? & ? & H & _); discriminate]. }
    destruct (metadata compositeResult) as [[cw ch] | message]; cbn [bind].
    2:{ split; [discriminate | intros (? & ? & ? & ? & ? & _ & H & _); discriminate]. }
    destruct (areaOf compositeResult placement) as [placementArea | message]; cbn [bind].
    2:{ split; [discriminate | intros (? & ? & ? & ? & ? & _ & _ & H & _); discriminate]. }
    destruct (edgeDetect placementArea) as [edges | message] eqn:Eedges; cbn [bind].
    2:{ split; [discriminate |].
        intros (? & area & ? & ? & ? & _ & _ & Harea & H & _).
        inversion Harea; subst area. rewrite Eedges in H. discriminate. }
    destruct (stats edges) as [[| channel others] | message] eqn:Estats; cbn [bind].
    1,3: split; [discriminate |];
         intros (? & area & edges' & ? & ? & _ & _ & Harea & Hedges & H & _);
         inversion Harea; subst area; rewrite Eedges in Hedges;
         inversion Hedges; subst edges'; rewrite Estats in H; discriminate.
    destruct (negb (ow =? cw)%N || negb (oh =? ch)%N) eqn:Esize.
    + split.
      * cbn [isValid]. destruct (Qgtb _ 0.3); cbn [app length Nat.eqb andb]; discriminate.
      * intros (size & ? & ? & ? & ? & Ho & Hc & _). rewrite <- Ho in Hc.
        inversion Hc; subst. rewrite !N.eqb_refl in Esize. discriminate.
    + apply orb_false_iff in Esize as [Ew Eh].
      apply negb_false_iff, N.eqb_eq in Ew, Eh. subst cw ch.
      pose proof (quality_passes (Validator.stdev channel / 255)) as Hq.
      destruct (Qgtb (Qmin 1 (Validator.stdev channel / 255)) 0.3) eqn:Eart;
        cbn [isValid app length Nat.eqb andb].
      * split; [discriminate |].
        intros (? & area & edges' & channel' & ? & _ & _ & Harea & Hedges & Hstats & Hlow).
        inversion Harea; subst area. rewrite Eedges in Hedges.
        inversion Hedges; subst edges'. rewrite Estats in Hstats.
        inversion Hstats; subst. apply Hq in Hlow as [Hlow _]. discriminate.
      * split.
        -- intros Hvalid. exists (ow, oh), placementArea, edges, channel, others.
           repeat split; try reflexivity; try assumption. apply Hq. now split.
        -- intros (? & area & edges' & channel' & ? & _ & _ & Harea & Hedges & Hstats & Hlow).
           inversion Harea; subst area. rewrite Eedges in Hedges.
           inversion Hedges; subst edges'. rewrite Estats in Hstats.
           inversion Hstats; subst. now apply Hq in Hlow as [_ Hlow].
  - intros [w h] placementArea edges channel others -> -> -> Hedges Hstats Hedge.
    cbn [bind]. rewrite Hedges. cbn [bind]. rewrite Hstats. cbn [bind].
    rewrite !N.eqb_refl. cbn [negb orb].
    pose proof (quality_passes (Validator.stdev channel / 255)) as Hq.
    assert (Hno : Qgtb (Qmin 1 (Validator.stdev channel / 255)) 0.3 = false).
    { apply Qgtb_le. apply Q.min_le_iff. right. lra. }
    rewrite Hno. cbn [isValid issues length Nat.eqb andb]. split; [| reflexivity].
    destruct (Qgtb (Qmax 0 _) 0.7) eqn:E; [| reflexivity].
    assert (Hlow : Validator.stdev channel / 255 < 0.3) by (apply Hq; now split).
    lra.
Qed.

End CompositionReview.

Lemma compositeMultipleJewelry_ignores_placements_witness :
  let segmented :=
    Composition.mkSegmentation Fixture.Image None (Some Fixture.jewelryPhoto)
      (Composition.mkBox 0 0 100 100) (Some Fixture.jewelryPhoto) in
  Composition.compositeMultipleJewelry Fixture.Image
    Fixture.metadata Fixture.resize Fixture.compositeOver Fixture.modelPhoto segmented
    [ Placement.mkPlacement 0.35 0.25 1 0 Placement.front;
      Placement.mkPlacement 0.65 0.25 1 0 Placement.front ] None
  = Composition.compositeMultipleJewelry Fixture.Image
      Fixture.metadata Fixture.resize Fixture.compositeOver Fixture.modelPhoto segmented
      [ Placement.mkPlacement 0.5 0.5 2 30 Placement.side;
        Placement.mkPlacement 0.5 0.5 2 30 Placement.side ] None.
Proof.
  intros segmented.
  exact (proj2 (proj2 (compositeMultipleJewelry_ignores_placements Fixture.Image
                         Fixture.metadata Fixture.resize Fixture.compositeOver segmented
                         [ Placement.mkPlacement 0.35 0.25 1 0 Placement.front;
                           Placement.mkPlacement 0.65 0.25 1 0 Placement.front ]
                         [ Placement.mkPlacement 0.5 0.5 2 30 Placement.side;
                           Placement.mkPlacement 0.5 0.5 2 30 Placement.side ]
                         None None Fixture.modelPhoto eq_refl))).
Defined.

Lemma placementAreaRect_inside_witness :
  let rect :=
    Composition.placementAreaRect (Placement.mkPlacement 0.5 0.5 1 0 Placement.front)
      1200 900 in
  (1 <= Validator.rectWidth rect)%Z
  /\ Validator.left rect = 0%Z /\ Validator.top rect = 0%Z.
Proof.
  intros rect.
  pose proof (placementAreaRect_inside (Placement.mkPlacement 0.5 0.5 1 0 Placement.front)
                1200 900) as H.
  cbv zeta in H. destruct H as (_ & _ & Hwidth & _ & Hcorner).
  split.
  - apply Hwidth; [unfold Qle; cbn; lia | lia].
  - apply Hcorner; reflexivity.
Defined.

Lemma validateComposition_valid_iff_witness :
  let placement := Placement.mkPlacement 0.5 0.5 1 0 Placement.front in
  Composition.isValid
    (Composition.validateComposition Fixture.Image Fixture.metadata Fixture.extract
       (Fixture.derive "edges") Fixture.edgeStats Fixture.modelPhoto Fixture.modelPhoto
       placement) = false
  /\ Composition.issues
       (Composition.validateComposition Fixture.Image Fixture.metadata Fixture.extract
          (Fixture.derive "edges") Fixture.edgeStats Fixture.modelPhoto Fixture.modelPhoto
          placement) = [].
Proof.
  intros placement.
  apply (proj2 (validateComposition_valid_iff Fixture.Image Fixture.metadata Fixture.extract
                  (Fixture.derive "edges") Fixture.edgeStats Fixture.modelPhoto
                  Fixture.modelPhoto placement)
           (1200%N, 900%N) (Fixture.Picture "extract" 200 200)
           (Fixture.Picture "edges" 200 200)
           {| Validator.mean := 40; Validator.stdev := 76.5 |} []);
    reflexivity.
Defined.

(** ** Bounding box of a mask *)

Section MaskScan.

Import Segmentation.

Lemma fold_Zmin (values : list Z) :
  forall start : Z,
    (fold_left Z.min values start <= start)%Z
    /\ (forall v, In v values -> (fold_left Z.min values start <= v)%Z)
    /\ (fold_left Z.min values start = start \/ In (fold_left Z.min values start) values).
Proof.
  induction values as [| a values IH]; intros start; cbn [fold_left].
  - split; [lia | split; [intros v [] | now left]].
  - destruct (IH (Z.min start a)) as (Hle & Hall & Hin). split; [lia | split].
    + intros v [<- | Hv]; [lia | now apply Hall].
    + destruct Hin as [Heq | Hin]; [| right; now right].
      destruct (Z.min_spec start a) as [[_ E] | [_ E]]; rewrite E in Heq |- *.
      * now left.
      * right. left. now rewrite Heq.
Qed.

Lemma fold_Zmax (values : list Z) :
  forall start : Z,
    (start <= fold_left Z.max values start)%Z
    /\ (forall v, In v values -> (v <= fold_left Z.max values start)%Z)
    /\ (fold_left Z.max values start = start \/ In (fold_left Z.max values start) values).
Proof.
  induction values as [| a values IH]; intros start; cbn [fold_left].
  - split; [lia | split; [intros v [] | now left]].
  - destruct (IH (Z.max start a)) as (Hle & Hall & Hin). split; [lia | split].
    + intros v [<- | Hv]; [lia | now apply Hall].
    + destruct Hin as [Heq | Hin]; [| right; now right].
      destruct (Z.max_spec start a) as [[_ E] | [_ E]]; rewrite E in Heq |- *.
      * right. left. now rewrite Heq.
      * now left.
Qed.

Lemma scanPixel_step (mask : list Z) (width : nat) (scan : Scan) (position : nat * nat) :
  scanPixel mask width scan position
  = if brightAt mask width position
    then {| minX := Z.min (minX scan) (Z.of_nat (fst position));
            maxX := Z.max (maxX scan) (Z.of_nat (fst position));
            minY := Z.min (minY scan) (Z.of_nat (snd position));
            maxY := Z.max (maxY scan) (Z.of_nat (snd position));
            hasPixels := true |}
    else scan.
Proof.
  destruct position as [px py]. unfold scanPixel, brightAt. cbn [fst snd].
  destruct (mask !! (py * width + px)%nat) as [v |]; [| reflexivity].
  destruct (v >? 128)%Z; reflexivity.
Qed.

(** The scan computes the four extremes of the marked positions. *)
Lemma scan_fields (mask : list Z) (width : nat) (visited : list (nat * nat)) :
  forall scan : Scan,
    let marked := List.filter (brightAt mask width) visited in
    let final := fold_left (scanPixel mask width) visited scan in
    minX final = fold_left Z.min (map (fun p => Z.of_nat (fst p)) marked) (minX scan)
    /\ maxX final = fold_left Z.max (map (fun p => Z.of_nat (fst p)) marked) (maxX scan)
    /\ minY final = fold_left Z.min (map (fun p => Z.of_nat (snd p)) marked) (minY scan)
    /\ maxY final = fold_left Z.max (map (fun p => Z.of_nat (snd p)) marked) (maxY scan)
    /\ hasPixels final = hasPixels scan || negb (length marked =? 0)%nat.
Proof.
  induction visited as [| position visited IH]; intros scan; cbn [fold_left List.filter].
  - cbn. rewrite orb_false_r. repeat split; reflexivity.
  - rewrite scanPixel_step. destruct (brightAt mask width position).
    + destruct (IH {| minX := Z.min (minX scan) (Z.of_nat (fst position));
                      maxX := Z.max (maxX scan) (Z.of_nat (fst position));
                      minY := Z.min (minY scan) (Z.of_nat (snd position));
                      maxY := Z.max (maxY scan) (Z.of_nat (snd position));
                      hasPixels := true |}) as (H1 & H2 & H3 & H4 & H5).
      cbv zeta in H1, H2, H3, H4, H5. cbn [minX maxX minY maxY hasPixels] in H1, H2, H3, H4, H5.
      cbn [map fold_left length Nat.eqb negb]. rewrite orb_true_r.
      repeat split; assumption.
    + apply IH.
Qed.

Lemma pixelPositions_In (width height px py : nat) :
  In (px, py) (pixelPositions width height) <-> (px < width)%nat /\ (py < height)%nat.
Proof.
  unfold pixelPositions. rewrite in_flat_map. split.
  - intros [y [Hy Hin]]. apply in_map_iff in Hin as [x [E Hx]].
    inversion E; subst. apply in_seq in Hy, Hx. lia.
  - intros [Hx Hy]. exists py. split; [apply in_seq; lia |].
    apply in_map_iff. exists px. split; [reflexivity | apply in_seq; lia].
Qed.

Lemma brightAt_bright (mask : list Z) (width px py : nat) :
  brightAt mask width (px, py) = true <-> bright mask width px py.
Proof.
  unfold brightAt, bright. cbn [fst snd].
  destruct (mask !! (py * width + px)%nat) as [v |].
  - rewrite Z.gtb_ltb, Z.ltb_lt. split.
    + intros H. now exists v.
    + intros [v' [E H]]. now inversion E; subst.
  - split; [discriminate | intros [v' [E _]]; discriminate].
Qed.

(** X18: [calculateMaskBoundingBox] returns no box exactly when no pixel of
    the image is marked (value above 128). Otherwise the box lies inside
    the image, contains every marked pixel, and is tight: its first and
    last column and its first and last row each hold a marked pixel. *)
Theorem calculateMaskBoundingBox_tight (mask : list Z) (width height : nat) :
  match calculateMaskBoundingBox mask width height with
  | None =>
      forall px py, (px < width)%nat -> (py < height)%nat -> ~ bright mask width px py
  | Some box =>
      (forall px py,
          (px < width)%nat -> (py < height)%nat -> bright mask width px py ->
          (boxX box <= Z.of_nat px < boxX box + boxWidth box
           /\ boxY box <= Z.of_nat py < boxY box + boxHeight box)%Z)
      /\ (0 <= boxX box /\ 0 <= boxY box
          /\ boxX box + boxWidth box <= Z.of_nat width
          /\ boxY box + boxHeight box <= Z.of_nat height)%Z
      /\ (exists px py, (px < width)%nat /\ (py < height)%nat /\ bright mask width px py
                        /\ Z.of_nat px = boxX box)
      /\ (exists px py, (px < width)%nat /\ (py < height)%nat /\ bright mask width px py
                        /\ Z.of_nat px = (boxX box + boxWidth box - 1)%Z)
      /\ (exists px py, (px < width)%nat /\ (py < height)%nat /\ bright mask width px py
                        /\ Z.of_nat py = boxY box)
      /\ (exists px py, (px < width)%nat /\ (py < height)%nat /\ bright mask width px py
                        /\ Z.of_nat py = (boxY box + boxHeight box - 1)%Z)
  end.
Proof.
  unfold calculateMaskBoundingBox.
  destruct (scan_fields mask width (pixelPositions width height)
              {| minX := Z.of_nat width; maxX := 0; minY := Z.of_nat height; maxY := 0;
                 hasPixels := false |}) as (HminX & HmaxX & HminY & HmaxY & Hhas).
  cbv zeta in HminX, HmaxX, HminY, HmaxY, Hhas.
  cbn [minX maxX minY maxY hasPixels orb] in HminX, HmaxX, HminY, HmaxY, Hhas.
  set (final := fold_left (scanPixel mask width) (pixelPositions width height) _) in *.
  set (marked := List.filter (brightAt mask width) (pixelPositions width height)) in *.
  assert (Hmarked : forall px py,
             In (px, py) marked
             <-> (px < width)%nat /\ (py < height)%nat /\ bright mask width px py).
  { intros px py. unfold marked. rewrite filter_In, pixelPositions_In, brightAt_bright.
    tauto. }
  destruct (fold_Zmin (map (fun p => Z.of_nat (fst p)) marked) (Z.of_nat width))
    as (Hx1 & Hx2 & Hx3).
  destruct (fold_Zmax (map (fun p => Z.of_nat (fst p)) marked) 0%Z) as (Hx4 & Hx5 & Hx6).
  destruct (fold_Zmin (map (fun p => Z.of_nat (snd p)) marked) (Z.of_nat height))
    as (Hy1 & Hy2 & Hy3).
  destruct (fold_Zmax (map (fun p => Z.of_nat (snd p)) marked) 0%Z) as (Hy4 & Hy5 & Hy6).
  rewrite <- HminX in Hx1, Hx2, Hx3. rewrite <- HmaxX in Hx4, Hx5, Hx6.
  rewrite <- HminY in Hy1, Hy2, Hy3. rewrite <- HmaxY in Hy4, Hy5, Hy6.
  clear HminX HmaxX HminY HmaxY.
  destruct (hasPixels final).
  - destruct marked as [| [mx my] others] eqn:E; [discriminate Hhas |].
    assert (Hfirst : (mx < width)%nat /\ (my < height)%nat /\ bright mask width mx my)
      by (apply Hmarked; now left).
    assert (Hhead : In (mx, my) ((mx, my) :: others)) by now left.
    pose proof (Hx2 _ (in_map (fun p => Z.of_nat (fst p)) _ _ Hhead)) as Hx2'.
    pose proof (Hx5 _ (in_map (fun p => Z.of_nat (fst p)) _ _ Hhead)) as Hx5'.
    pose proof (Hy2 _ (in_map (fun p => Z.of_nat (snd p)) _ _ Hhead)) as Hy2'.
    pose proof (Hy5 _ (in_map (fun p => Z.of_nat (snd p)) _ _ Hhead)) as Hy5'.
    cbn [fst snd] in Hx2', Hx5', Hy2', Hy5'.
    assert (Hin : forall (f : nat * nat -> nat) (v : Z),
               In v (map (fun p => Z.of_nat (f p)) ((mx, my) :: others)) ->
               exists px py, (px < width)%nat /\ (py < height)%nat
                             /\ bright mask width px py /\ Z.of_nat (f (px, py)) = v).
    { intros f v Hv. apply in_map_iff in Hv as [[px py] [Ev Hv]].
      exists px, py. apply Hmarked in Hv. tauto. }
    cbn [boxX boxY boxWidth boxHeight].
    split; [| split; [| split; [| split; [| split]]]].
    + intros px py Hpx Hpy Hb.
      assert (Hp : In (px, py) ((mx, my) :: others)) by (apply Hmarked; tauto).
      pose proof (Hx2 _ (in_map (fun p => Z.of_nat (fst p)) _ _ Hp)).
      pose proof (Hx5 _ (in_map (fun p => Z.of_nat (fst p)) _ _ Hp)).
      pose proof (Hy2 _ (in_map (fun p => Z.of_nat (snd p)) _ _ Hp)).
      pose proof (Hy5 _ (in_map (fun p => Z.of_nat (snd p)) _ _ Hp)).
      cbn [fst snd] in *. lia.
    + assert (maxX final < Z.of_nat width)%Z.
      { destruct Hx6 as [-> | Hx6]; [lia |].
        apply (Hin fst) in Hx6 as (px & py & Hpx & _ & _ & <-). cbn [fst]. lia. }
      assert (maxY final < Z.of_nat height)%Z.
      { destruct Hy6 as [-> | Hy6]; [lia |].
        apply (Hin snd) in Hy6 as (px & py & _ & Hpy & _ & <-). cbn [snd]. lia. }
      assert (0 <= minX final)%Z.
      { destruct Hx3 as [-> | Hx3]; [lia |].
        apply (Hin fst) in Hx3 as (px & py & _ & _ & _ & <-). lia. }
      assert (0 <= minY final)%Z.
      { destruct Hy3 as [-> | Hy3]; [lia |].
        apply (Hin snd) in Hy3 as (px & py & _ & _ & _ & <-). lia. }
      lia.
    + destruct Hx3 as [Hx3 | Hx3]; [lia |].
      apply (Hin fst) in Hx3 as (px & py & Hpx & Hpy & Hb & Hv). exists px, py. tauto.
    + destruct Hx6 as [Hx6 | Hx6].
      * exists mx, my. repeat split; try tauto. lia.
      * apply (Hin fst) in Hx6 as (px & py & Hpx & Hpy & Hb & Hv). exists px, py.
        cbn [fst] in Hv. repeat split; try assumption. lia.
    + destruct Hy3 as [Hy3 | Hy3]; [lia |].
      apply (Hin snd) in Hy3 as (px & py & Hpx & Hpy & Hb & Hv). exists px, py. tauto.
    + destruct Hy6 as [Hy6 | Hy6].
      * exists mx, my. repeat split; try tauto. lia.
      * apply (Hin snd) in Hy6 as (px & py & Hpx & Hpy & Hb & Hv). exists px, py.
        cbn [snd] in Hv. repeat split; try assumption. lia.
  - intros px py Hpx Hpy Hb.
    assert (Hp : In (px, py) marked) by (apply Hmarked; tauto).
    destruct marked; [destruct Hp | discriminate Hhas].
Qed.

End MaskScan.

(** ** Dimensions estimated from the segmentation *)

Section DetectedDimensions.

Import Segmentation.

Variables Buffer RawImage : Type.
Variable rawImage : Buffer -> Result (RawImage * Z * Z).
Variable largestSkinRegion : RawImage -> option Placement.SkinRegion.
Variable detectFingerTips : RawImage -> Placement.SkinRegion -> list (Z * Z).

Local Abbreviation estimate :=
  (Placement.calculateJewelryPlacement Buffer RawImage rawImage largestSkinRegion
     detectFingerTips).

Lemma detectJewelryDimensions_ranges (boundingBox : BoundingBox) (jewelryType : JewelryType) :
  let dimensions := detectJewelryDimensions boundingBox (Some jewelryType) in
  match jewelryType with
  | ring =>
      (15 <= Placement.width dimensions /\ Placement.width dimensions <= 25)
      /\ (3 <= Placement.height dimensions /\ Placement.height dimensions <= 8)
      /\ (2 <= Placement.depth dimensions /\ Placement.depth dimensions <= 6)
  | necklace =>
      (12.7 <= Placement.width dimensions /\ Placement.width dimensions <= 50.8)
      /\ (7.6 <= Placement.height dimensions /\ Placement.height dimensions <= 38.1)
      /\ (2 <= Placement.depth dimensions /\ Placement.depth dimensions <= 8)
  | earrings =>
      (3 <= Placement.width dimensions /\ Placement.width dimensions <= 25)
      /\ (5 <= Placement.height dimensions /\ Placement.height dimensions <= 35)
      /\ (2 <= Placement.depth dimensions /\ Placement.depth dimensions <= 8)
  | bracelet =>
      (Placement.width dimensions == 170)
      /\ (5 <= Placement.height dimensions /\ Placement.height dimensions <= 20)
      /\ (2 <= Placement.depth dimensions /\ Placement.depth dimensions <= 8)
  end.
Proof.
  cbv zeta. unfold detectJewelryDimensions.
  set (aspectRatio := inject_Z (boxWidth boundingBox) / inject_Z (boxHeight boundingBox)).
  destruct jewelryType; cbn [Placement.width Placement.height Placement.depth].
  - destruct (Qgtb aspectRatio 1.2);
      (split; [| split]); apply clamped_between; lra.
  - assert (Hw : forall v, 0.5 <= Qmax 0.5 (Qmin 2.0 v) /\ Qmax 0.5 (Qmin 2.0 v) <= 2.0)
      by (intros v; apply clamped_between; lra).
    assert (Hh : forall v, 0.3 <= Qmax 0.3 (Qmin 1.5 v) /\ Qmax 0.3 (Qmin 1.5 v) <= 1.5)
      by (intros v; apply clamped_between; lra).
    destruct (Qgtb aspectRatio 1.5).
    + pose proof (Hw (1.2 * aspectRatio)) as [Hw1 Hw2].
      pose proof (Hh (Qmax 0.5 (Qmin 2.0 (1.2 * aspectRatio)) / aspectRatio)) as [Hh1 Hh2].
      revert Hw1 Hw2 Hh1 Hh2.
      generalize (Qmax 0.3 (Qmin 1.5 (Qmax 0.5 (Qmin 2.0 (1.2 * aspectRatio)) / aspectRatio))).
      generalize (Qmax 0.5 (Qmin 2.0 (1.2 * aspectRatio))).
      intros pw ph Hw1 Hw2 Hh1 Hh2.
      split; [split; lra | split; [split; lra |]]. apply clamped_between. lra.
    + pose proof (Hw 1.2) as [Hw1 Hw2].
      pose proof (Hh (Qmax 0.5 (Qmin 2.0 1.2) / aspectRatio)) as [Hh1 Hh2].
      revert Hw1 Hw2 Hh1 Hh2.
      generalize (Qmax 0.3 (Qmin 1.5 (Qmax 0.5 (Qmin 2.0 1.2) / aspectRatio))).
      generalize (Qmax 0.5 (Qmin 2.0 1.2)).
      intros pw ph Hw1 Hw2 Hh1 Hh2.
      split; [split; lra | split; [split; lra |]]. apply clamped_between. lra.
  - split; [apply clamped_between; lra | split; [| apply clamped_between; lra]].
    destruct (Qltb aspectRatio 0.8).
    + destruct (clamped_between 10 35 (25 / aspectRatio)) as [H1 H2]; [lra |].
      split; lra.
    + destruct (clamped_between 5 25 20) as [H1 H2]; [lra |]. split; lra.
  - split; [reflexivity | split; apply clamped_between; lra].
Qed.

(** X19: for a bounding box with positive sides the dimensions estimated
    by [detectJewelryDimensions] stay in the ranges of the type (ring:
    width 15-25 mm, height 3-8, depth 2-6; necklace: width 12.7-50.8,
    height 7.6-38.1, depth 2-8; earrings: width 3-25, height 5-35, depth
    2-8; bracelet: width 170, height 5-20, depth 2-8), and the heuristic
    placement computed from them always has a scale within [0.1, 3.0], the
    range that [validatePlacement] accepts. The necklace height is the
    pendant height of 0.3 to 1.5 inches times 25.4; its lower bound is
    stated as 7.6 because the source's product of doubles for 0.3 inches
    is just below 7.62. *)
Theorem detected_dimensions_give_accepted_scale (modelImage : Buffer)
    (boundingBox : BoundingBox) (jewelryType : JewelryType) :
  (0 < boxWidth boundingBox)%Z -> (0 < boxHeight boundingBox)%Z ->
  let dimensions := detectJewelryDimensions boundingBox (Some jewelryType) in
  match jewelryType with
  | ring =>
      (15 <= Placement.width dimensions /\ Placement.width dimensions <= 25)
      /\ (3 <= Placement.height dimensions /\ Placement.height dimensions <= 8)
      /\ (2 <= Placement.depth dimensions /\ Placement.depth dimensions <= 6)
  | necklace =>
      (12.7 <= Placement.width dimensions /\ Placement.width dimensions <= 50.8)
      /\ (7.6 <= Placement.height dimensions /\ Placement.height dimensions <= 38.1)
      /\ (2 <= Placement.depth dimensions /\ Placement.depth dimensions <= 8)
  | earrings =>
      (3 <= Placement.width dimensions /\ Placement.width dimensions <= 25)
      /\ (5 <= Placement.height dimensions /\ Placement.height dimensions <= 35)
      /\ (2 <= Placement.depth dimensions /\ Placement.depth dimensions <= 8)
  | bracelet =>
      (Placement.width dimensions == 170)
      /\ (5 <= Placement.height dimensions /\ Placement.height dimensions <= 20)
      /\ (2 <= Placement.depth dimensions /\ Placement.depth dimensions <= 8)
  end
  /\ exists placement,
       estimate modelImage dimensions (Some jewelryType) = Ok placement
       /\ 0.1 <= Placement.scale placement /\ Placement.scale placement <= 3.0.
Proof.
  intros _ _. cbv zeta.
  pose proof (detectJewelryDimensions_ranges boundingBox jewelryType) as Hranges.
  cbv zeta in Hranges. split; [exact Hranges |].
  destruct (estimate_scale_formula Buffer RawImage rawImage largestSkinRegion
              detectFingerTips modelImage
              (detectJewelryDimensions boundingBox (Some jewelryType)) jewelryType)
    as [placement [Hplacement Hscale]].
  exists placement. split; [exact Hplacement |]. rewrite Hscale.
  revert Hranges.
  generalize (detectJewelryDimensions boundingBox (Some jewelryType)).
  intros dimensions Hranges. destruct jewelryType.
  - destruct Hranges as ((H1 & H2) & _). unfold Placement.calculateRingScale, Qdiv.
    change (/ 18) with (1 # 18). split; lra.
  - destruct Hranges as ((H1 & H2) & _). unfold Placement.calculateNecklaceScale, Qdiv.
    change (/ 120) with (1 # 120).
    destruct (Q.min_spec (Placement.width dimensions * (1 # 120)) 1.5) as [[H3 E] | [H3 E]];
      revert E; generalize (Qmin (Placement.width dimensions * (1 # 120)) 1.5);
      intros q E; split; lra.
  - destruct Hranges as (_ & (H1 & H2) & _). unfold Placement.calculateEarringScale, Qdiv.
    change (/ 17) with (1 # 17). split; lra.
  - destruct Hranges as (H1 & _). unfold Placement.calculateBraceletScale, Qdiv.
    change (/ 65) with (1 # 65). split; lra.
Qed.

End DetectedDimensions.

Lemma detected_dimensions_give_accepted_scale_witness :
  exists placement,
    Placement.calculateJewelryPlacement Fixture.Image Fixture.Image
      Fixture.rawImage Fixture.noSkin Fixture.noFingerTips Fixture.modelPhoto
      (Segmentation.detectJewelryDimensions (Segmentation.mkBox 10 10 80 40) (Some ring))
      (Some ring)
    = Ok placement
    /\ 0.1 <= Placement.scale placement /\ Placement.scale placement <= 3.0.
Proof.
  assert (Hw : (0 < 80)%Z) by lia. assert (Hh : (0 < 40)%Z) by lia.
  exact (proj2 (detected_dimensions_give_accepted_scale Fixture.Image Fixture.Image
                  Fixture.rawImage Fixture.noSkin Fixture.noFingerTips Fixture.modelPhoto
                  (Segmentation.mkBox 10 10 80 40) ring Hw Hh)).
Defined.

(** ** Pixel rules of the background remover *)

Section PixelRules.

Import Segmentation.

Lemma white_is_jewelry_color (r g b maskValue : Z) :
  isByte r -> isByte g -> isByte b ->
  isWhiteBackground r g b = true -> isJewelryColor r g b maskValue = true.
Proof.
  unfold isByte, isWhiteBackground, isJewelryColor. intros Hr Hg Hb Hwhite.
  assert (Hsilver : ((Z.abs (r - g) <? 30) && (Z.abs (g - b) <? 30) && (r >? 120))%Z = true).
  { rewrite !andb_true_iff, !Z.ltb_lt, Z.gtb_ltb, Z.ltb_lt.
    apply orb_true_iff in Hwhite as [Hwhite | Hwhite];
      rewrite !andb_true_iff in Hwhite;
      rewrite ?Z.ltb_lt, ?Z.gtb_ltb in Hwhite; rewrite ?Z.ltb_lt in Hwhite; lia. }
  rewrite Hsilver. now rewrite orb_true_r.
Qed.

(** X20: in the pixel-rule background remover a pixel the mask does not
    mark (value at most 128) becomes fully transparent, and the written
    alpha is always a byte. The white-background test never removes an
    opaque pixel inside the mask: every white or light-grey pixel also
    counts as silver-coloured jewelry, so it is kept with alpha
    min(255, mask + 30). A pixel that was transparent in the source becomes
    visible again when the mask value is above 220 and it is not white. *)
Theorem white_background_kept_inside_mask (r g b originalAlpha maskValue : Z) :
  isByte r -> isByte g -> isByte b -> isByte maskValue ->
  ((maskValue <= 128)%Z -> finalAlpha r g b originalAlpha maskValue = 0%Z)
  /\ (0 <= finalAlpha r g b originalAlpha maskValue <= 255)%Z
  /\ ((128 < maskValue)%Z -> (128 <= originalAlpha)%Z ->
      isWhiteBackground r g b = true ->
      finalAlpha r g b originalAlpha maskValue = Z.min 255 (maskValue + 30))
  /\ ((220 < maskValue)%Z -> (originalAlpha < 128)%Z ->
      isWhiteBackground r g b = false ->
      finalAlpha r g b originalAlpha maskValue = mathRound (inject_Z maskValue * 0.9)
      /\ (199 <= finalAlpha r g b originalAlpha maskValue)%Z).
Proof.
  intros Hr Hg Hb Hm. unfold finalAlpha.
  assert (Hscaled : (0 <= mathRound (inject_Z maskValue * 0.9) <= 255)%Z).
  { unfold isByte in Hm. destruct Hm as [Hm0 Hm1].
    rewrite Zle_Qle in Hm0, Hm1. change (inject_Z 0) with 0 in Hm0.
    change (inject_Z 255) with 255 in Hm1.
    split; [apply mathRound_nonneg; lra |].
    apply mathRound_le_int. change (inject_Z 255) with 255. lra. }
  split; [| split; [| split]].
  - intros Hlow. destruct (maskValue >? 128)%Z eqn:E; [| reflexivity].
    rewrite Z.gtb_ltb, Z.ltb_lt in E. lia.
  - unfold isByte in Hm.
    destruct (maskValue >? 128)%Z; cbv iota; [| change (mathRound 0) with 0%Z; lia].
    destruct (isJewelryColor r g b maskValue && negb (originalAlpha <? 128)%Z); cbv iota.
    + rewrite mathRound_inject. lia.
    + destruct (negb (isWhiteBackground r g b) && negb (originalAlpha <? 128)%Z
                && (maskValue >? 180)%Z); cbv iota.
      * rewrite mathRound_inject. lia.
      * destruct ((maskValue >? 220)%Z && negb (isWhiteBackground r g b)); cbv iota;
          [exact Hscaled | change (mathRound 0) with 0%Z; lia].
  - intros Hmask Hopaque Hwhite.
    rewrite (proj2 (Z.gtb_lt _ _) Hmask).
    rewrite (white_is_jewelry_color r g b maskValue Hr Hg Hb Hwhite).
    rewrite (proj2 (Z.ltb_ge _ _) Hopaque). cbn [negb andb].
    apply mathRound_inject.
  - intros Hmask Htransparent Hwhite.
    assert (Hmask' : (128 < maskValue)%Z) by lia.
    rewrite (proj2 (Z.gtb_lt _ _) Hmask'), (proj2 (Z.gtb_lt _ _) Hmask).
    rewrite (proj2 (Z.ltb_lt _ _) Htransparent), Hwhite.
    cbn [negb andb]. rewrite !andb_false_r. cbn [andb].
    split; [reflexivity |].
    apply Z.lt_succ_r. rewrite Zlt_Qlt. unfold Z.succ. rewrite inject_Z_plus.
    destruct (mathRound_near (inject_Z maskValue * 0.9)) as [Hnear _].
    assert (Hq : 221 <= inject_Z maskValue)
      by (change 221 with (inject_Z 221); rewrite <- Zle_Qle; lia).
    change (inject_Z 199) with 199. change (inject_Z 1) with 1.
    revert Hnear. generalize (inject_Z (mathRound (inject_Z maskValue * 0.9))).
    intros rounded Hnear. lra.
Qed.

End PixelRules.

Lemma white_background_kept_inside_mask_witness :
  Segmentation.finalAlpha 250 250 250 255 200 = Z.min 255 (200 + 30).
Proof.
  assert (H : Segmentation.isByte 250) by (unfold Segmentation.isByte; lia).
  assert (Hm : Segmentation.isByte 200) by (unfold Segmentation.isByte; lia).
  apply (proj1 (proj2 (proj2 (white_background_kept_inside_mask 250 250 250 255 200
                                H H H Hm)))); [lia | lia | reflexivity].
Defined.

(** ** Generation of the model image *)

Section ModelGenerationProperties.

Import ModelGeneration.

Variable Buffer : Type.
Variable buildModelPrompt : ModelGenerationParams -> string.
Variable callModelService : ModelService -> string -> nat -> Result Buffer.
Variable jewelryCheck : nat -> Buffer -> CheckOutcome.

Local Abbreviation generate :=
  (generateBaseModel Buffer buildModelPrompt callModelService jewelryCheck).
Local Abbreviation outcomeOf :=
  (attemptOutcome Buffer buildModelPrompt callModelService jewelryCheck).

(** X21: [generateBaseModel] makes at most three attempts and always ends
    by one of them: the error after the loop ("maximum retries exceeded")
    is never raised. An image it returns was produced by one of the three
    attempts and passed the jewelry check, unless it is the image of the
    third attempt, which is returned even when the check finds jewelry.
    It fails exactly with the error of the third attempt. An attempt whose
    check request fails or has no content counts as free of jewelry. *)
Theorem generateBaseModel_attempts (params : ModelGenerationParams) :
  generate params <> Throw "Model generation failed: maximum retries exceeded"
  /\ (forall modelImage,
         generate params = Ok modelImage ->
         exists attempt validation,
           (1 <= attempt <= 3)%nat
           /\ outcomeOf params attempt = Ok (modelImage, validation)
           /\ ((attempt < 3)%nat -> showsJewelry validation = false))
  /\ (forall message,
         generate params = Throw message ->
         exists reason,
           outcomeOf params 3 = Throw reason
           /\ message = String.append "Model generation failed after 3 attempts: " reason)
  /\ (forall modelImage validation,
         outcomeOf params 1 = Ok (modelImage, validation) ->
         showsJewelry validation = false ->
         generate params = Ok modelImage)
  /\ (forall modelImage validation,
         outcomeOf params 3 = Ok (modelImage, validation) ->
         exists returned, generate params = Ok returned)
  /\ (forall outcome,
         (outcome = NoContent \/ exists message, outcome = CheckThrew message) ->
         exists validation,
           validateModelHasNoJewelry outcome = Ok validation
           /\ showsJewelry validation = false).
Proof.
  unfold generateBaseModel, maxRetries. cbn [attemptsFrom Nat.ltb Nat.leb].
  destruct (outcomeOf params 1) as [[image1 check1] | message1] eqn:E1;
    [destruct (showsJewelry check1) eqn:S1 |];
    (destruct (outcomeOf params 2) as [[image2 check2] | message2] eqn:E2;
       [destruct (showsJewelry check2) eqn:S2 |]);
    (destruct (outcomeOf params 3) as [[image3 check3] | message3] eqn:E3;
       [destruct (showsJewelry check3) eqn:S3 |]);
    (split; [discriminate |]);
    (split;
       [ intros modelImage Hresult; inversion Hresult; subst;
         first [ exists 1%nat, check1; split; [lia | split; [assumption | intros _; assumption]]
               | exists 2%nat, check2; split; [lia | split; [assumption | intros _; assumption]]
               | exists 3%nat, check3; split; [lia | split; [assumption | intros Hlt; lia]] ]
       |]);
    (split;
       [ intros message Hresult; inversion Hresult; subst;
         exists message3; split; reflexivity
       |]);
    (split;
       [ intros modelImage validation Hfirst Hfree; inversion Hfirst; subst;
         first [ reflexivity | congruence ]
       |]);
    (split;
       [ intros modelImage validation Hthird; first [ discriminate Hthird | eauto ]
       |]);
    (intros outcome [-> | [message ->]]; eexists; split; reflexivity).
Qed.

End ModelGenerationProperties.

Lemma generateBaseModel_attempts_witness :
  exists attempt validation,
    (1 <= attempt <= 3)%nat
    /\ ModelGeneration.attemptOutcome Fixture.Image Fixture.buildModelPrompt
         Fixture.callModelService Fixture.jewelryCheck
         (ModelGeneration.mkParams ModelGeneration.neckVisible "adult_female"
            ModelGeneration.studio ModelGeneration.neutral) attempt
       = Ok (Fixture.Picture "model" 1200 900, validation)
    /\ ((attempt < 3)%nat -> ModelGeneration.showsJewelry validation = false).
Proof.
  exact (proj1 (proj2 (generateBaseModel_attempts Fixture.Image Fixture.buildModelPrompt
                         Fixture.callModelService Fixture.jewelryCheck
                         (ModelGeneration.mkParams ModelGeneration.neckVisible "adult_female"
                            ModelGeneration.studio ModelGeneration.neutral)))
           (Fixture.Picture "model" 1200 900) eq_refl).
Defined.

(** ** The try-on service *)

Section ServiceProperties.

Import TryOnService.

Variables Buffer Pixels RawImage : Type.
Variable metadata : Buffer -> Result (N * N).
Variable rawPixels : Buffer -> Result Pixels.
Variable sharpExtract : Buffer -> Validator.Rect -> Result Buffer.
Variable stats : Buffer -> Result (list Validator.ChannelStats).
Variable mathSqrt : Q -> Q.
Variable toFixed1 : Q -> string.
Variables analyzeMetallicProperties calculateEdgeStrength analyzeJewelryColors
  : Pixels -> Z -> Z -> Q.
Variable normalizeForComparison : Buffer -> Result Buffer.
Variables calculateHistogramSimilarity calculateStructuralSimilarity
  calculatePerceptualSimilarity : Buffer -> Buffer -> Result Q.
Variables detectColorChanges detectShapeChanges detectTextureChanges detectSizeChanges
  : Buffer -> Buffer -> Result Q.
Variable rawImage : Buffer -> Result (RawImage * Z * Z).
Variable largestSkinRegion : RawImage -> option Placement.SkinRegion.
Variable detectFingerTips : RawImage -> Placement.SkinRegion -> list (Z * Z).
Variable resize : Buffer -> Z -> Z -> Result Buffer.
Variable compositeOver : Buffer -> Buffer -> Q -> Q -> Result Buffer.
Variable toPng : Buffer -> Result Buffer.
Variable removeJewelryBackground : Buffer -> Result (Buffer * Q).
Variable generateBaseModel : ModelGeneration.ModelGenerationParams -> Result Buffer.

Local Abbreviation tryOn :=
  (processVirtualTryOn Buffer Pixels RawImage metadata rawPixels sharpExtract stats
     mathSqrt toFixed1 analyzeMetallicProperties calculateEdgeStrength analyzeJewelryColors
     normalizeForComparison calculateHistogramSimilarity calculateStructuralSimilarity
     calculatePerceptualSimilarity detectColorChanges detectShapeChanges
     detectTextureChanges detectSizeChanges rawImage largestSkinRegion detectFingerTips
     resize compositeOver toPng removeJewelryBackground generateBaseModel).
Local Abbreviation modelOf := (modelFor Buffer generateBaseModel).
Local Abbreviation estimate :=
  (Placement.calculateJewelryPlacement Buffer RawImage rawImage largestSkinRegion
     detectFingerTips).
Local Abbreviation compositeOne :=
  (Composition.compositeJewelryOnModel Buffer Placement.PlacementCalculation metadata
     resize compositeOver).
Local Abbreviation validate :=
  (Validator.validateJewelryIntegrity Buffer Pixels metadata rawPixels sharpExtract stats
     mathSqrt toFixed1 analyzeMetallicProperties calculateEdgeStrength analyzeJewelryColors
     normalizeForComparison calculateHistogramSimilarity calculateStructuralSimilarity
     calculatePerceptualSimilarity detectColorChanges detectShapeChanges
     detectTextureChanges detectSizeChanges).

Lemma validate_total (originalJewelry compositeResult : Buffer) (tolerance : Q) :
  exists validation,
    validate originalJewelry compositeResult tolerance = Ok validation
    /\ 0 <= Validator.similarity validation /\ Validator.similarity validation <= 1.
Proof.
  unfold Validator.validateJewelryIntegrity.
  destruct (fst (Validator.extractJewelryFromComposite _ _ _ _ _ _ _ _ _ compositeResult))
    as [extractedJewelry | message]; cbn [bind tryCatch];
    eexists; (split; [reflexivity |]); cbn [Validator.similarity].
  - apply calculateSimilarity_range.
  - split; lra.
Qed.

Lemma cleanBoundingBox_reads (cleanJewelryBuffer : Buffer) :
  match metadata cleanJewelryBuffer with
  | Ok _ => exists box, cleanBoundingBox Buffer metadata cleanJewelryBuffer = Ok box
  | Throw message => cleanBoundingBox Buffer metadata cleanJewelryBuffer = Throw message
  end.
Proof.
  unfold cleanBoundingBox.
  destruct (metadata cleanJewelryBuffer) as [[w h] | message]; cbn [bind]; eauto.
Qed.

(** X22: without a progress callback [processVirtualTryOn] fails only with
    the error of the background removal, of the model generation (when no
    custom model is given), of reading the size of the cleaned jewelry, or
    of the final PNG encoding. Placement, composition and validation never
    abort it, and the verdict of the validation is not consulted: the
    composite is encoded and returned whether or not it is valid, with all
    six processing steps and the validation's similarity, a number between
    0 and 1, as confidence. *)
Theorem processVirtualTryOn_outcome (request : VirtualTryOnServiceRequest Buffer) :
  onProgress Buffer request = None ->
  match removeJewelryBackground (jewelryImageBuffer Buffer request) with
  | Throw message => tryOn request = Throw message
  | Ok (cleanJewelryBuffer, _) =>
      match modelOf request with
      | Throw message => tryOn request = Throw message
      | Ok modelBuffer =>
          match metadata cleanJewelryBuffer with
          | Throw message => tryOn request = Throw message
          | Ok _ =>
              exists placement box compositeResult validation,
                estimate modelBuffer (dimensions Buffer request) (jewelryType Buffer request)
                = Ok placement
                /\ compositeOne modelBuffer
                     (Composition.mkSegmentation Buffer None
                        (Some (jewelryImageBuffer Buffer request)) box
                        (Some cleanJewelryBuffer))
                     placement (Some serviceShadow) (positionOffset Buffer request)
                     (jewelryType Buffer request)
                   = Ok compositeResult
                /\ validate (jewelryImageBuffer Buffer request) compositeResult 0.02
                   = Ok validation
                /\ 0 <= Validator.similarity validation
                /\ Validator.similarity validation <= 1
                /\ tryOn request
                   = bind (toPng compositeResult) (fun optimizedBuffer =>
                       Ok {| imageBuffer := optimizedBuffer;
                             modelImageBuffer :=
                               if returnSeparateImages Buffer request
                               then Some modelBuffer else None;
                             segmentedJewelryBuffer :=
                               if returnSeparateImages Buffer request
                               then Some cleanJewelryBuffer else None;
                             processingSteps := allSteps;
                             jewelryDimensions := dimensions Buffer request;
                             confidence := Validator.similarity validation |})
          end
      end
  end.
Proof.
  intros Hprogress. unfold processVirtualTryOn, reportProgress. rewrite Hprogress.
  cbn [bind].
  destruct (removeJewelryBackground (jewelryImageBuffer Buffer request))
    as [[cleanJewelryBuffer confidence] | message]; cbn [bind]; [| reflexivity].
  destruct (modelOf request) as [modelBuffer | message]; cbn [bind]; [| reflexivity].
  destruct (calculateJewelryPlacement_total Buffer RawImage rawImage largestSkinRegion
              detectFingerTips modelBuffer (dimensions Buffer request)
              (jewelryType Buffer request)) as [placement Hplacement].
  rewrite Hplacement. cbn [bind].
  pose proof (cleanBoundingBox_reads cleanJewelryBuffer) as Hbox.
  destruct (metadata cleanJewelryBuffer) as [size | message].
  2:{ rewrite Hbox. reflexivity. }
  destruct Hbox as [box Hbox]. rewrite Hbox. cbn [bind].
  destruct (compositeJewelryOnModel_total Buffer metadata resize compositeOver modelBuffer
              (Composition.mkSegmentation Buffer None
                 (Some (jewelryImageBuffer Buffer request)) box (Some cleanJewelryBuffer))
              placement (Some serviceShadow) (positionOffset Buffer request)
              (jewelryType Buffer request)) as [compositeResult Hcomposite].
  rewrite Hcomposite. cbn [bind].
  destruct (validate_total (jewelryImageBuffer Buffer request) compositeResult 0.02)
    as [validation (Hvalidation & Hlo & Hhi)].
  rewrite Hvalidation. cbn [bind].
  exists placement, box, compositeResult, validation.
  repeat split; assumption || reflexivity.
Qed.

(** X23: the millimetre dimensions of the request have no influence on the
    picture: two requests that differ in their dimensions only succeed or
    fail alike, and return the same images, steps and confidence; the
    dimensions are only passed back in the result. *)
Theorem processVirtualTryOn_ignores_dimensions
    (request : VirtualTryOnServiceRequest Buffer)
    (otherDimensions : Placement.JewelryDimensions) :
  let other :=
    mkRequest Buffer (jewelryImageBuffer Buffer request) (jewelryType Buffer request)
      otherDimensions (demographics Buffer request) (customModelBuffer Buffer request)
      (positionOffset Buffer request) (returnSeparateImages Buffer request)
      (onProgress Buffer request) in
  tryOn other
  = bind (tryOn request) (fun result =>
      Ok {| imageBuffer := imageBuffer Buffer result;
            modelImageBuffer := modelImageBuffer Buffer result;
            segmentedJewelryBuffer := segmentedJewelryBuffer Buffer result;
            processingSteps := processingSteps Buffer result;
            jewelryDimensions := otherDimensions;
            confidence := confidence Buffer result |}).
Proof.
  cbv zeta. unfold processVirtualTryOn, reportProgress, modelFor.
  cbn [jewelryImageBuffer jewelryType dimensions demographics customModelBuffer
       positionOffset returnSeparateImages onProgress].
  destruct (match onProgress Buffer request with
            | Some callback => callback 20%Z
            | None => Ok tt
            end); cbn [bind]; [| reflexivity].
  destruct (removeJewelryBackground (jewelryImageBuffer Buffer request))
    as [[cleanJewelryBuffer c] | message]; cbn [bind]; [| reflexivity].
  destruct (match onProgress Buffer request with
            | Some callback => callback 40%Z
            | None => Ok tt
            end); cbn [bind]; [| reflexivity].
  destruct (match customModelBuffer Buffer request with
            | Some customModel => Ok customModel
            | None => generateBaseModel _
            end) as [modelBuffer | message]; cbn [bind]; [| reflexivity].
  destruct (match onProgress Buffer request with
            | Some callback => callback 60%Z
            | None => Ok tt
            end); cbn [bind]; [| reflexivity].
  destruct (calculateJewelryPlacement_total Buffer RawImage rawImage largestSkinRegion
              detectFingerTips modelBuffer (dimensions Buffer request)
              (jewelryType Buffer request)) as [placement ->].
  destruct (calculateJewelryPlacement_total Buffer RawImage rawImage largestSkinRegion
              detectFingerTips modelBuffer otherDimensions
              (jewelryType Buffer request)) as [placement' ->].
  cbn [bind].
  destruct (match onProgress Buffer request with
            | Some callback => callback 80%Z
            | None => Ok tt
            end); cbn [bind]; [| reflexivity].
  destruct (cleanBoundingBox Buffer metadata cleanJewelryBuffer) as [box | message];
    cbn [bind]; [| reflexivity].
  change (compositeOne modelBuffer
            (Composition.mkSegmentation Buffer None
               (Some (jewelryImageBuffer Buffer request)) box (Some cleanJewelryBuffer))
            placement' (Some serviceShadow) (positionOffset Buffer request)
            (jewelryType Buffer request))
    with (compositeOne modelBuffer
            (Composition.mkSegmentation Buffer None
               (Some (jewelryImageBuffer Buffer request)) box (Some cleanJewelryBuffer))
            placement (Some serviceShadow) (positionOffset Buffer request)
            (jewelryType Buffer request)).
  destruct (compositeOne modelBuffer _ placement _ _ _) as [compositeResult | message];
    cbn [bind]; [| reflexivity].
  destruct (match onProgress Buffer request with
            | Some callback => callback 90%Z
            | None => Ok tt
            end); cbn [bind]; [| reflexivity].
  destruct (validate (jewelryImageBuffer Buffer request) compositeResult 0.02)
    as [validation | message]; cbn [bind]; [| reflexivity].
  destruct (match onProgress Buffer request with
            | Some callback => callback 100%Z
            | None => Ok tt
            end); cbn [bind]; [| reflexivity].
  destruct (toPng compositeResult) as [optimizedBuffer | message]; cbn [bind]; reflexivity.
Qed.

End ServiceProperties.

Lemma processVirtualTryOn_outcome_witness :
  let request :=
    TryOnService.mkRequest Fixture.Image Fixture.jewelryPhoto (Some necklace)
      (Placement.mkDimensions 45 20 2) None (Some Fixture.modelPhoto) None true None in
  exists compositeResult validation,
    Validator.validateJewelryIntegrity Fixture.Image Fixture.Image
      Fixture.metadata Fixture.rawPixels Fixture.extract Fixture.stats Fixture.sqrt3
      Fixture.toFixed1 Fixture.nothingFound Fixture.nothingFound Fixture.nothingFound
      (Fixture.derive "normalized") Fixture.alike Fixture.alike Fixture.alike
      Fixture.unchanged Fixture.unchanged Fixture.unchanged Fixture.unchanged
      Fixture.jewelryPhoto compositeResult 0.02
    = Ok validation
    /\ TryOnService.processVirtualTryOn Fixture.Image Fixture.Image Fixture.Image
         Fixture.metadata Fixture.rawPixels Fixture.extract Fixture.stats Fixture.sqrt3
         Fixture.toFixed1 Fixture.nothingFound Fixture.nothingFound Fixture.nothingFound
         (Fixture.derive "normalized") Fixture.alike Fixture.alike Fixture.alike
         Fixture.unchanged Fixture.unchanged Fixture.unchanged Fixture.unchanged
         Fixture.rawImage Fixture.noSkin Fixture.noFingerTips Fixture.resize
         Fixture.compositeOver (Fixture.derive "png") Fixture.removeJewelryBackground
         (fun _ => Ok Fixture.modelPhoto) request
       = bind (Fixture.derive "png" compositeResult) (fun optimizedBuffer =>
           Ok (TryOnService.mkServiceResult Fixture.Image optimizedBuffer
                 (Some Fixture.modelPhoto) (Some (Fixture.Picture "clean" 100 100))
                 TryOnService.allSteps (Placement.mkDimensions 45 20 2)
                 (Validator.similarity validation))).
Proof.
  intros request.
  destruct (processVirtualTryOn_outcome Fixture.Image Fixture.Image Fixture.Image
              Fixture.metadata Fixture.rawPixels Fixture.extract Fixture.stats Fixture.sqrt3
              Fixture.toFixed1 Fixture.nothingFound Fixture.nothingFound Fixture.nothingFound
              (Fixture.derive "normalized") Fixture.alike Fixture.alike Fixture.alike
              Fixture.unchanged Fixture.unchanged Fixture.unchanged Fixture.unchanged
              Fixture.rawImage Fixture.noSkin Fixture.noFingerTips Fixture.resize
              Fixture.compositeOver (Fixture.derive "png") Fixture.removeJewelryBackground
              (fun _ => Ok Fixture.modelPhoto) request eq_refl)
    as (placement & box & compositeResult & validation & _ & _ & Hvalidation & _ & _ & Hresult).
  exists compositeResult, validation. split; [exact Hvalidation | exact Hresult].
Defined.

(** ** The parser of the vision model's answer *)

Section VisionParser.

Import VisionPositioning.

Lemma clamp_in_band (canvasHeight y : Q) :
  100 <= canvasHeight ->
  0.35 * canvasHeight <= y -> y <= 0.75 * canvasHeight ->
  0.35 * canvasHeight <= Qmax 50 (Qmin (canvasHeight - 50) y)
  /\ Qmax 50 (Qmin (canvasHeight - 50) y) <= 0.75 * canvasHeight.
Proof.
  intros HH Hlo Hhi.
  destruct (Q.min_spec (canvasHeight - 50) y) as [[H1 E1] | [H1 E1]];
    destruct (Q.max_spec 50 (Qmin (canvasHeight - 50) y)) as [[H2 E2] | [H2 E2]];
    revert H2 E1 E2;
    generalize (Qmax 50 (Qmin (canvasHeight - 50) y));
    generalize (Qmin (canvasHeight - 50) y);
    intros a b H2 E1 E2; split; lra.
Qed.

(** X24: on a canvas at least 100 pixels high, every answer with numeric
    fields places a necklace between 35% and 75% of the canvas height, on
    the JSON path and on the regular-expression path alike. *)
Theorem necklace_stays_in_band (response : VisionResponse)
    (canvasWidth canvasHeight : Q) :
  100 <= canvasHeight -> numericResponse response ->
  exists y,
    position_y (parseVisionResponse response canvasWidth canvasHeight (Some necklace))
    = Fin y
    /\ 0.35 * canvasHeight <= y /\ y <= 0.75 * canvasHeight.
Proof.
  intros HH Hnum.
  destruct response as [parsed | xMatch yMatch scaleMatch]; unfold parseVisionResponse.
  - destruct Hnum as (_ & Hy & _ & Hc). unfold jsonY, jsonConfidence.
    destruct (orElse_numeric _ (canvasHeight / 2) Hy) as [y0 ->].
    destruct (orElse_numeric _ 0.7 Hc) as [c0 ->].
    rewrite !clamp_Fin.
    generalize (Qmax 50 (Qmin (canvasHeight - 50) y0)).
    generalize (Qmax 0.0 (Qmin 1.0 c0)). intros c y.
    cbn [isNecklace andb jsDiv lift2 jsLt jsGt].
    destruct (Qltb (y / canvasHeight) 0.35) eqn:Hhigh;
      destruct (Qltb 0.75 (y / canvasHeight)) eqn:Hlow;
      cbn [position_y]; eexists; (split; [reflexivity |]);
      try (apply Qltb_ge, div_ge_bound in Hhigh; [| lra]);
      try (apply Qltb_ge, div_le_bound in Hlow; [| lra]);
      split; lra.
  - cbn [isNecklace andb position_y]. rewrite clamp_Fin.
    eexists. split; [reflexivity |].
    apply clamp_in_band; [exact HH | |];
      destruct (Qltb (regexY yMatch canvasHeight / canvasHeight) 0.35) eqn:Hhigh;
      destruct (Qgtb (regexY yMatch canvasHeight / canvasHeight) 0.75) eqn:Hlow;
      cbn [orb];
      try (apply Qltb_ge, div_ge_bound in Hhigh; [| lra]);
      try (apply Qgtb_le, div_le_bound in Hlow; [| lra]);
      lra.
Qed.






End VisionParser.

Lemma necklace_stays_in_band_witness :
  exists y,
    VisionPositioning.position_y
      (VisionPositioning.parseVisionResponse
         (VisionPositioning.NotJson (Some 400%N) (Some 20%N) None) 1000 120 (Some necklace))
    = Fin y
    /\ 0.35 * 120 <= y /\ y <= 0.75 * 120.
Proof.
  assert (HH : 100 <= 120) by (unfold Qle; cbn; lia).
  assert (Hnum : VisionPositioning.numericResponse
                   (VisionPositioning.NotJson (Some 400%N) (Some 20%N) None))
    by (cbn; discriminate).
  exact (necklace_stays_in_band (VisionPositioning.NotJson (Some 400%N) (Some 20%N) None)
           1000 120 HH Hnum).
Defined.


(** ** Comparisons of the original with the extracted jewelry *)

Section ComparisonMetrics.

Import Validator.

Variable Buffer : Type.
Variable metadata : Buffer -> Result (N * N).
Variable greyscaleRaw : Buffer -> Result (list Z).

Lemma squaredError_from (pairs : list (Z * Z)) :
  forall start : Z,
    (0 <= start)%Z ->
    (start <= fold_left (fun mse '(a, b) => (mse + (a - b) * (a - b))%Z) pairs start)%Z
    /\ (fold_left (fun mse '(a, b) => (mse + (a - b) * (a - b))%Z) pairs start = start
        <-> Forall (fun '(a, b) => a = b) pairs).
Proof.
  induction pairs as [| [a b] pairs IH]; intros start Hstart; cbn [fold_left].
  - split; [lia | split; [constructor | reflexivity]].
  - assert (Hsq : (0 <= (a - b) * (a - b))%Z) by apply Z.square_nonneg.
    destruct (IH (start + (a - b) * (a - b))%Z) as [Hle Hiff]; [lia |].
    split; [lia |]. split.
    + intros Heq. assert (Hzero : ((a - b) * (a - b) = 0)%Z) by lia.
      constructor; [apply Z.mul_eq_0 in Hzero; lia |]. apply Hiff. lia.
    + intros Hall. inversion Hall as [| ? ? Hab Hrest]; subst.
      apply Hiff in Hrest. rewrite Hrest. lia.
Qed.

Lemma combine_same (gray1 : list Z) :
  forall gray2 : list Z,
    length gray1 = length gray2 ->
    (Forall (fun '(a, b) => a = b) (combine gray1 gray2) <-> gray1 = gray2).
Proof.
  induction gray1 as [| a gray1 IH]; intros [| b gray2] Hlen; try discriminate Hlen;
    cbn [combine].
  - split; [reflexivity | constructor].
  - split.
    + intros Hall. inversion Hall as [| ? ? Hab Hrest]; subst.
      f_equal. apply IH; [now inversion Hlen | exact Hrest].
    + intros Heq. inversion Heq; subst. constructor; [reflexivity |].
      apply IH; [now inversion Hlen | reflexivity].
Qed.

(** X26: the structural similarity is 0 for grey buffers of different
    length and NaN for two empty ones; otherwise it is a number between 0
    and 1, and it is 1 exactly when the two buffers are identical. *)
Theorem calculateStructuralSimilarity_range (image1 image2 : Buffer) :
  match greyscaleRaw image1, greyscaleRaw image2 with
  | Ok gray1, Ok gray2 =>
      if (length gray1 =? length gray2)%nat
      then match gray1 with
           | [] => calculateStructuralSimilarity Buffer greyscaleRaw image1 image2 = Ok NaN
           | _ :: _ =>
               exists value,
                 calculateStructuralSimilarity Buffer greyscaleRaw image1 image2
                 = Ok (Fin value)
                 /\ 0 <= value /\ value <= 1
                 /\ (value == 1 <-> gray1 = gray2)
           end
      else calculateStructuralSimilarity Buffer greyscaleRaw image1 image2 = Ok (Fin 0)
  | Throw message, _ =>
      calculateStructuralSimilarity Buffer greyscaleRaw image1 image2 = Throw message
  | Ok _, Throw message =>
      calculateStructuralSimilarity Buffer greyscaleRaw image1 image2 = Throw message
  end.
Proof.
  unfold calculateStructuralSimilarity.
  destruct (greyscaleRaw image1) as [gray1 | message]; cbn [bind]; [| reflexivity].
  destruct (greyscaleRaw image2) as [gray2 | message]; cbn [bind]; [| reflexivity].
  destruct (length gray1 =? length gray2)%nat eqn:Hlen; cbn [negb]; [| reflexivity].
  apply Nat.eqb_eq in Hlen.
  destruct gray1 as [| pixel gray1]; [reflexivity |].
  eexists. split; [reflexivity |].
  unfold squaredError.
  destruct (squaredError_from (combine (pixel :: gray1) gray2) 0%Z) as [Hnonneg Hzero];
    [lia |].
  rewrite combine_same in Hzero by exact Hlen.
  set (total := fold_left _ (combine (pixel :: gray1) gray2) 0%Z) in *.
  assert (Hcount : 0 < inject_Z (Z.of_nat (length (pixel :: gray1)))).
  { change 0 with (inject_Z 0). rewrite <- Zlt_Qlt. cbn [length]. lia. }
  assert (Htotal : 0 <= inject_Z total)
    by (change 0 with (inject_Z 0); now rewrite <- Zle_Qle).
  assert (Hmse : 0 <= inject_Z total / inject_Z (Z.of_nat (length (pixel :: gray1)))).
  { apply Qle_shift_div_l; [exact Hcount | lra]. }
  assert (Hmse0 : inject_Z total / inject_Z (Z.of_nat (length (pixel :: gray1))) == 0
                  <-> total = 0%Z).
  { split.
    - intros Heq.
      assert (Hq : inject_Z total == 0).
      { rewrite <- (Qmult_div_r (inject_Z total)
                     (inject_Z (Z.of_nat (length (pixel :: gray1))))) by lra.
        rewrite Heq. ring. }
      change 0 with (inject_Z 0) in Hq. rewrite inject_Z_injective in Hq. exact Hq.
    - intros ->. unfold Qdiv. change (inject_Z 0) with 0. ring. }
  revert Hmse Hmse0.
  generalize (inject_Z total / inject_Z (Z.of_nat (length (pixel :: gray1)))).
  intros mse Hmse Hmse0.
  assert (Hscaled : mse / (255 * 255) == mse * (1 # 65025))
    by (unfold Qdiv; change (/ (255 * 255)) with (1 # 65025); reflexivity).
  destruct (Q.max_spec 0 (1 - mse / (255 * 255))) as [[H1 E1] | [H1 E1]];
    revert H1 E1; generalize (Qmax 0 (1 - mse / (255 * 255))); intros value H1 E1;
    (split; [lra | split; [lra |]]).
  - rewrite <- Hzero, <- Hmse0. split; intros H; lra.
  - rewrite <- Hzero, <- Hmse0. split; intros H; lra.
Qed.

Lemma Qabs_diff_self (a b : Q) : Qabs (a - a) / b == 0.
Proof.
  assert (E : a - a == 0) by ring. rewrite E. change (Qabs 0) with 0.
  unfold Qdiv. ring.
Qed.

Lemma Qabs_div_bound (a b c : Q) : 0 < b -> Qabs a / b <= c -> Qabs a <= c * b.
Proof. intros Hb H. now apply div_le_bound. Qed.

Lemma NtoQ_positive (n : N) : (n =? 0)%N = false -> 0 < NtoQ n.
Proof.
  intros H. apply N.eqb_neq in H. unfold NtoQ. change 0 with (inject_Z 0).
  rewrite <- Zlt_Qlt. lia.
Qed.

Lemma detectSizeChanges_bound (originalJewelry extractedJewelry : Buffer)
    (originalWidth originalHeight extractedWidth extractedHeight : N) (deviation : Q) :
  metadata originalJewelry = Ok (originalWidth, originalHeight) ->
  metadata extractedJewelry = Ok (extractedWidth, extractedHeight) ->
  (0 < originalWidth)%N -> (0 < originalHeight)%N ->
  (0 < extractedWidth)%N -> (0 < extractedHeight)%N ->
  detectSizeChanges Buffer metadata originalJewelry extractedJewelry = Ok deviation ->
  0 <= deviation
  /\ Qabs (NtoQ originalWidth - NtoQ extractedWidth) <= deviation * NtoQ originalWidth
  /\ Qabs (NtoQ originalHeight - NtoQ extractedHeight) <= deviation * NtoQ originalHeight
  /\ (deviation == 0 <-> originalWidth = extractedWidth /\ originalHeight = extractedHeight).
Proof.
  intros Ho He How Hoh Hew Heh. unfold detectSizeChanges. rewrite Ho, He. cbn [bind].
  assert (Eow : (originalWidth =? 0)%N = false) by (apply N.eqb_neq; lia).
  assert (Eoh : (originalHeight =? 0)%N = false) by (apply N.eqb_neq; lia).
  assert (Eew : (extractedWidth =? 0)%N = false) by (apply N.eqb_neq; lia).
  assert (Eeh : (extractedHeight =? 0)%N = false) by (apply N.eqb_neq; lia).
  rewrite Eow, Eoh, Eew, Eeh. cbn [orb]. intros Hdev. injection Hdev as Hd.
  apply NtoQ_positive in Eow, Eoh, Eew, Eeh. unfold mathAbs.
  set (ow := NtoQ originalWidth) in *. set (oh := NtoQ originalHeight) in *.
  set (ew := NtoQ extractedWidth) in *. set (eh := NtoQ extractedHeight) in *.
  assert (Harea : 0 < ow * oh) by (apply Qmult_lt_0_compat; assumption).
  assert (Ha : 0 <= Qabs (ow * oh - ew * eh) / (ow * oh))
    by (apply Qle_shift_div_l; [exact Harea | rewrite Qmult_0_l; apply Qabs_nonneg]).
  assert (Hw : 0 <= Qabs (ow - ew) / ow)
    by (apply Qle_shift_div_l; [exact Eow | rewrite Qmult_0_l; apply Qabs_nonneg]).
  assert (Hh : 0 <= Qabs (oh - eh) / oh)
    by (apply Qle_shift_div_l; [exact Eoh | rewrite Qmult_0_l; apply Qabs_nonneg]).
  pose proof (Q.le_max_l (Qmax (Qabs (ow * oh - ew * eh) / (ow * oh)) (Qabs (ow - ew) / ow))
                (Qabs (oh - eh) / oh)) as M1.
  pose proof (Q.le_max_r (Qmax (Qabs (ow * oh - ew * eh) / (ow * oh)) (Qabs (ow - ew) / ow))
                (Qabs (oh - eh) / oh)) as M2.
  pose proof (Q.le_max_l (Qabs (ow * oh - ew * eh) / (ow * oh)) (Qabs (ow - ew) / ow)) as M3.
  pose proof (Q.le_max_r (Qabs (ow * oh - ew * eh) / (ow * oh)) (Qabs (ow - ew) / ow)) as M4.
  assert (Hwb : Qabs (ow - ew) / ow <= deviation).
  { rewrite <- Hd. eapply Qle_trans; [exact M4 | exact M1]. }
  assert (Hhb : Qabs (oh - eh) / oh <= deviation) by (rewrite <- Hd; exact M2).
  split; [rewrite <- Hd; eapply Qle_trans; [exact Hh | exact M2] |].
  split; [apply Qabs_div_bound; assumption |].
  split; [apply Qabs_div_bound; assumption |].
  split.
  - intros Hzero.
    assert (Hw0 : Qabs (ow - ew) <= 0 * ow) by (apply Qabs_div_bound; [assumption | lra]).
    assert (Hh0 : Qabs (oh - eh) <= 0 * oh) by (apply Qabs_div_bound; [assumption | lra]).
    assert (Ew : ow == ew).
    { pose proof (Qabs_nonneg (ow - ew)). pose proof (Qle_Qabs (ow - ew)).
      pose proof (Qle_Qabs (- (ow - ew))). rewrite Qabs_opp in *. lra. }
    assert (Eh : oh == eh).
    { pose proof (Qabs_nonneg (oh - eh)). pose proof (Qle_Qabs (oh - eh)).
      pose proof (Qle_Qabs (- (oh - eh))). rewrite Qabs_opp in *. lra. }
    unfold ow, ew, oh, eh, NtoQ in Ew, Eh.
    rewrite inject_Z_injective in Ew, Eh. split; lia.
  - intros [Ew Eh]. rewrite <- Hd.
    assert (Z1 : Qabs (ow * oh - ew * eh) / (ow * oh) == 0)
      by (unfold ow, oh, ew, eh; rewrite Ew, Eh; apply Qabs_diff_self).
    assert (Z2 : Qabs (ow - ew) / ow == 0)
      by (unfold ow, ew; rewrite Ew; apply Qabs_diff_self).
    assert (Z3 : Qabs (oh - eh) / oh == 0)
      by (unfold oh, eh; rewrite Eh; apply Qabs_diff_self).
    apply Qle_antisym.
    + apply Q.max_lub; [apply Q.max_lub |]; apply Qle_lteq; right; assumption.
    + eapply Qle_trans; [exact Hh | apply Q.le_max_r].
Qed.

End ComparisonMetrics.

(** ** Validation and the size of the extracted region *)

Section SizeAgreement.

Import Validator.

Variables Buffer Pixels : Type.
Variable metadata : Buffer -> Result (N * N).
Variable rawPixels : Buffer -> Result Pixels.
Variable sharpExtract : Buffer -> Rect -> Result Buffer.
Variable stats : Buffer -> Result (list ChannelStats).
Variable mathSqrt : Q -> Q.
Variable toFixed1 : Q -> string.
Variables analyzeMetallicProperties calculateEdgeStrength analyzeJewelryColors
  : Pixels -> Z -> Z -> Q.
Variable normalizeForComparison : Buffer -> Result Buffer.
Variables calculateHistogramSimilarity calculateStructuralSimilarity
  calculatePerceptualSimilarity : Buffer -> Buffer -> Result Q.
Variables detectColorChanges detectShapeChanges detectTextureChanges
  : Buffer -> Buffer -> Result Q.

Local Abbreviation validate :=
  (validateJewelryIntegrity Buffer Pixels metadata rawPixels sharpExtract stats mathSqrt
     toFixed1 analyzeMetallicProperties calculateEdgeStrength analyzeJewelryColors
     normalizeForComparison calculateHistogramSimilarity calculateStructuralSimilarity
     calculatePerceptualSimilarity detectColorChanges detectShapeChanges
     detectTextureChanges (detectSizeChanges Buffer metadata)).
Local Abbreviation extractFrom :=
  (extractJewelryFromComposite Buffer Pixels metadata rawPixels sharpExtract mathSqrt
     analyzeMetallicProperties calculateEdgeStrength analyzeJewelryColors).

(** X27: with the size comparison of the source, a composite is only ever
    found valid when the region extracted from it is at least 32x32 and has
    the width and the height of the original jewelry photo up to the
    tolerance fraction: |original - extracted| <= tolerance * original. *)
Theorem valid_only_with_matching_size
    (originalJewelry compositeResult : Buffer) (tolerance : Q)
    (result : ValidationResult) :
  validate originalJewelry compositeResult tolerance = Ok result ->
  isValid result = true ->
  exists extractedJewelry originalWidth originalHeight extractedWidth extractedHeight,
    fst (extractFrom compositeResult) = Ok extractedJewelry
    /\ metadata originalJewelry = Ok (originalWidth, originalHeight)
    /\ metadata extractedJewelry = Ok (extractedWidth, extractedHeight)
    /\ (32 <= extractedWidth)%N /\ (32 <= extractedHeight)%N
    /\ ((0 < originalWidth)%N -> (0 < originalHeight)%N ->
        Qabs (NtoQ originalWidth - NtoQ extractedWidth) <= tolerance * NtoQ originalWidth
        /\ Qabs (NtoQ originalHeight - NtoQ extractedHeight)
           <= tolerance * NtoQ originalHeight).
Proof.
  unfold validateJewelryIntegrity.
  destruct (fst (extractFrom compositeResult)) as [extractedJewelry | message];
    cbn [bind tryCatch]; intros Hresult Hvalid; inversion Hresult; subst result;
    cbn [isValid] in Hvalid; [| discriminate].
  apply andb_true_iff in Hvalid as [_ Hnone].
  apply Nat.eqb_eq, length_zero_iff_nil, app_eq_nil in Hnone as [Hdev Hquality].
  apply detectDeviations_nil_iff in Hdev
    as (color & shape & texture & size & _ & _ & _ & Hsize & _ & _ & _ & Hle).
  apply performQualityChecks_nil_iff in Hquality
    as (channels & extractedWidth & extractedHeight & _ & Hmeta & Hw & Hh & _).
  destruct (metadata originalJewelry) as [[originalWidth originalHeight] | message] eqn:Ho.
  2:{ unfold detectSizeChanges in Hsize. rewrite Ho in Hsize. discriminate. }
  exists extractedJewelry, originalWidth, originalHeight, extractedWidth, extractedHeight.
  split; [reflexivity |]. split; [reflexivity |]. split; [exact Hmeta |].
  split; [exact Hw |]. split; [exact Hh |].
  intros How Hoh.
  destruct (detectSizeChanges_bound Buffer metadata originalJewelry extractedJewelry
              originalWidth originalHeight extractedWidth extractedHeight size
              Ho Hmeta How Hoh) as (Hnonneg & Hwidth & Hheight & _);
    [lia | lia | exact Hsize |].
  assert (Pw : 0 < NtoQ originalWidth) by (apply NtoQ_positive, N.eqb_neq; lia).
  assert (Ph : 0 < NtoQ originalHeight) by (apply NtoQ_positive, N.eqb_neq; lia).
  split.
  - eapply Qle_trans; [exact Hwidth |]. apply Qmult_le_compat_r; [exact Hle | lra].
  - eapply Qle_trans; [exact Hheight |]. apply Qmult_le_compat_r; [exact Hle | lra].
Qed.

End SizeAgreement.

Lemma valid_only_with_matching_size_witness :
  exists extractedJewelry originalWidth originalHeight extractedWidth extractedHeight,
    fst (Validator.extractJewelryFromComposite Fixture.Image Fixture.Image
           Fixture.metadata Fixture.rawPixels Fixture.extract Fixture.sqrt3
           Fixture.metallicEverywhere Fixture.nothingFound Fixture.nothingFound
           Fixture.compositePhoto)
    = Ok extractedJewelry
    /\ Fixture.metadata Fixture.jewelryPhoto = Ok (originalWidth, originalHeight)
    /\ Fixture.metadata extractedJewelry = Ok (extractedWidth, extractedHeight)
    /\ (32 <= extractedWidth)%N /\ (32 <= extractedHeight)%N
    /\ ((0 < originalWidth)%N -> (0 < originalHeight)%N ->
        Qabs (Validator.NtoQ originalWidth - Validator.NtoQ extractedWidth)
        <= (6 # 10) * Validator.NtoQ originalWidth
        /\ Qabs (Validator.NtoQ originalHeight - Validator.NtoQ extractedHeight)
           <= (6 # 10) * Validator.NtoQ originalHeight).
Proof.
  exact (valid_only_with_matching_size Fixture.Image Fixture.Image
           Fixture.metadata Fixture.rawPixels Fixture.extract Fixture.stats Fixture.sqrt3
           Fixture.toFixed1 Fixture.metallicEverywhere Fixture.nothingFound
           Fixture.nothingFound (Fixture.derive "normalized") Fixture.alike Fixture.alike
           Fixture.alike Fixture.unchanged Fixture.unchanged Fixture.unchanged
           Fixture.jewelryPhoto Fixture.compositePhoto (6 # 10)
           (Validator.mkValidationResult true 1 []) eq_refl eq_refl).
Defined.

(** ** Scores of pixel blocks *)

Section BlockScores.

Import Validator.

Lemma metallicPixelScore_range (pixel : option (Z * Z * Z)) :
  0 <= metallicPixelScore pixel /\ metallicPixelScore pixel <= 1.
Proof.
  destruct pixel as [[[r g] b] |]; cbn [metallicPixelScore]; [| split; lra].
  cbv zeta.
  destruct (Qgtb (inject_Z (r + g + b) / 3) 150);
    destruct (Z.max (Z.max r g) b - Z.min (Z.min r g) b <? 50)%Z;
    destruct ((r >? g)%Z && (g >? b)%Z && (r >? 180)%Z);
    destruct ((Z.abs (r - g) <? 20)%Z && (Z.abs (g - b) <? 20)%Z
              && Qgtb (inject_Z (r + g + b) / 3) 120);
    split; lra.
Qed.

Lemma colorPixelScore_range (colors : list ColorRange) (pixel : option (Z * Z * Z)) :
  0 <= colorPixelScore colors pixel /\ colorPixelScore colors pixel <= 1.
Proof.
  destruct pixel as [[[r g] b] |]; cbn [colorPixelScore]; [| split; lra].
  destruct (existsb _ colors); split; lra.
Qed.

(** The mean of scores between 0 and 1, or 0 when nothing was counted. *)
Lemma block_mean_range (score : Z -> Q) (counted : list Z) :
  (forall pixelIndex, 0 <= score pixelIndex /\ score pixelIndex <= 1) ->
  let mean :=
    if (0 <? length counted)%nat
    then sumOf (map score counted) / inject_Z (Z.of_nat (length counted))
    else 0 in
  0 <= mean /\ mean <= 1.
Proof.
  intros Hscore. cbv zeta. destruct counted as [| first rest].
  - cbn [length Nat.ltb Nat.leb]. split; lra.
  - change (0 <? length (first :: rest))%nat with true. cbv iota.
    rewrite <- (length_map score (first :: rest)). cbn [map].
    apply (average_bounds 0 1 (score first) (map score rest)).
    constructor; [apply Hscore |]. apply Forall_map_iff. apply List.Forall_forall.
    intros pixelIndex _. apply Hscore.
Qed.

Lemma analyzeMetallicProperties_range (rgbData labData : list Z)
    (x y size width height : Z) :
  0 <= analyzeMetallicProperties rgbData labData x y size width height
  /\ analyzeMetallicProperties rgbData labData x y size width height <= 1.
Proof.
  unfold analyzeMetallicProperties.
  apply (block_mean_range (fun pixelIndex => metallicPixelScore (pixelAt rgbData pixelIndex))).
  intros pixelIndex. apply metallicPixelScore_range.
Qed.

Lemma analyzeJewelryColors_range (rgbData : list Z) (x y size width height : Z)
    (colors : list ColorRange) :
  0 <= analyzeJewelryColors rgbData x y size width height colors
  /\ analyzeJewelryColors rgbData x y size width height colors <= 1.
Proof.
  unfold analyzeJewelryColors.
  apply (block_mean_range
           (fun pixelIndex => colorPixelScore colors (pixelAt rgbData pixelIndex))).
  intros pixelIndex. apply colorPixelScore_range.
Qed.

Lemma scanBlocks_confidence (P : Q -> Prop) (score : Z -> Z -> Q) (accept : Q -> bool)
    (conf : Q -> Q) (blockSize step imageWidth imageHeight : Z) :
  (forall bx by_, accept (score bx by_) = true -> P (conf (score bx by_))) ->
  Forall (fun r => P (confidence r))
    (scanBlocks score accept conf blockSize step imageWidth imageHeight).
Proof.
  intros Hconf. apply List.Forall_forall. intros r Hin. unfold scanBlocks in Hin.
  apply in_flat_map in Hin as [by_ [_ Hin]].
  apply in_flat_map in Hin as [bx [_ Hin]].
  destruct (accept (score bx by_)) eqn:E; [| destruct Hin].
  destruct Hin as [<- | []]. cbn [confidence]. now apply Hconf.
Qed.

Variable Buffer : Type.
Variable rawPixels : Buffer -> Result RawImages.
Variable calculateEdgeStrength : RawImages -> Z -> Z -> Q.

(** X28: [analyzeMetallicProperties] and [analyzeJewelryColors] score every
    block between 0 and 1, whatever the buffers hold, and the confidence of
    an edge block is capped at 1; so every region that
    [detectJewelryRegions] reports, merged or not, has a confidence above
    0.3 and at most 1. *)
Theorem detected_confidence_in_range (compositeResult : Buffer) (width height : Z)
    (rgb lab : list Z) (x y size : Z) :
  (0 <= analyzeMetallicProperties rgb lab x y size width height
   /\ analyzeMetallicProperties rgb lab x y size width height <= 1)
  /\ (0 <= analyzeJewelryColors rgb x y size width height jewelryColors
      /\ analyzeJewelryColors rgb x y size width height jewelryColors <= 1)
  /\ Forall (fun r => 0.3 < confidence r /\ confidence r <= 1)
       (detectJewelryRegions Buffer RawImages rawPixels
          (fun images bx by_ =>
             analyzeMetallicProperties (rgbData images) (labData images) bx by_ 32
               width height)
          calculateEdgeStrength
          (fun images bx by_ =>
             analyzeJewelryColors (rgbData images) bx by_ 28 width height jewelryColors)
          compositeResult width height).
Proof.
  split; [apply analyzeMetallicProperties_range |].
  split; [apply analyzeJewelryColors_range |].
  apply List.Forall_forall. intros r Hin.
  apply detected_from_combined in Hin as (images & _ & Hin & Hlow).
  split; [exact Hlow |].
  assert (Hall : Forall (fun r => 0 <= confidence r /\ confidence r <= 1)
                   (combineRegions
                      (detectMetallicRegions RawImages
                         (fun images bx by_ =>
                            analyzeMetallicProperties (rgbData images) (labData images)
                              bx by_ 32 width height) images width height
                       ++ detectHighContrastRegions RawImages calculateEdgeStrength
                            images width height
                       ++ detectJewelryColorRegions RawImages
                            (fun images bx by_ =>
                               analyzeJewelryColors (rgbData images) bx by_ 28 width height
                                 jewelryColors) images width height))).
  { apply combineRegions_Forall.
    - intros first others Hfirst Hothers.
      apply (mergeRegions_confidence 0 1). now constructor.
    - unfold detectMetallicRegions, detectHighContrastRegions, detectJewelryColorRegions.
      repeat (apply Forall_app; split);
        apply (scanBlocks_confidence (fun v => 0 <= v /\ v <= 1)); intros bx by_ Haccept.
      + apply analyzeMetallicProperties_range.
      + apply Qgtb_gt in Haccept. split.
        * apply Q.min_glb; lra.
        * apply Q.le_min_r.
      + apply analyzeJewelryColors_range. }
  rewrite List.Forall_forall in Hall. now apply Hall.
Qed.

End BlockScores.

(** ** The detailed validation report *)

Section ReportProperties.

Import Validator.

Variables Buffer Pixels : Type.
Variable metadata : Buffer -> Result (N * N).
Variable rawPixels : Buffer -> Result Pixels.
Variable sharpExtract : Buffer -> Rect -> Result Buffer.
Variable stats : Buffer -> Result (list ChannelStats).
Variable mathSqrt : Q -> Q.
Variable toFixed1 : Q -> string.
Variables analyzeMetallicProperties calculateEdgeStrength analyzeJewelryColors
  : Pixels -> Z -> Z -> Q.
Variable normalizeForComparison : Buffer -> Result Buffer.
Variables calculateHistogramSimilarity calculateStructuralSimilarity
  calculatePerceptualSimilarity : Buffer -> Buffer -> Result Q.
Variables detectColorChanges detectShapeChanges detectTextureChanges detectSizeChanges
  : Buffer -> Buffer -> Result Q.

Local Abbreviation validate :=
  (validateJewelryIntegrity Buffer Pixels metadata rawPixels sharpExtract stats mathSqrt
     toFixed1 analyzeMetallicProperties calculateEdgeStrength analyzeJewelryColors
     normalizeForComparison calculateHistogramSimilarity calculateStructuralSimilarity
     calculatePerceptualSimilarity detectColorChanges detectShapeChanges
     detectTextureChanges detectSizeChanges).
Local Abbreviation report :=
  (generateValidationReport Buffer Pixels metadata rawPixels sharpExtract stats mathSqrt
     toFixed1 analyzeMetallicProperties calculateEdgeStrength analyzeJewelryColors
     normalizeForComparison calculateHistogramSimilarity calculateStructuralSimilarity
     calculatePerceptualSimilarity detectColorChanges detectShapeChanges
     detectTextureChanges detectSizeChanges).
Local Abbreviation extractFrom :=
  (extractJewelryFromComposite Buffer Pixels metadata rawPixels sharpExtract mathSqrt
     analyzeMetallicProperties calculateEdgeStrength analyzeJewelryColors).

(** X29: [generateValidationReport] rejects with the extraction's error
    whenever the jewelry cannot be extracted from the composite, although
    [validateJewelryIntegrity] answers that case with an invalid result.
    When it does return a report, the validation in it is the result of
    [validateJewelryIntegrity], its similarity is the weighted blend
    0.3 / 0.4 / 0.3 of the three reported similarities clamped into [0, 1],
    and a valid verdict means that all four reported deviations are within
    the tolerance. *)
Theorem generateValidationReport_agrees
    (originalJewelry compositeResult : Buffer) (tolerance : Q) :
  (forall message,
      fst (extractFrom compositeResult) = Throw message ->
      report originalJewelry compositeResult tolerance = Throw message
      /\ exists invalid,
           validate originalJewelry compositeResult tolerance = Ok invalid
           /\ isValid invalid = false)
  /\ (forall result : ValidationReport,
         report originalJewelry compositeResult tolerance = Ok result ->
         let metrics := detailedMetrics result in
         validate originalJewelry compositeResult tolerance = Ok (validation result)
         /\ similarity (validation result)
            = Qmax 0 (Qmin 1 (histogramSimilarity metrics * 0.3
                              + structuralSimilarity metrics * 0.4
                              + perceptualSimilarity metrics * 0.3))
         /\ (isValid (validation result) = true ->
             colorDeviation metrics <= tolerance
             /\ shapeDeviation metrics <= tolerance
             /\ textureDeviation metrics <= tolerance
             /\ sizeDeviation metrics <= tolerance
             /\ 1 - tolerance <= similarity (validation result))).
Proof.
  unfold generateValidationReport, validateJewelryIntegrity. split.
  - intros message ->. cbn [bind tryCatch]. split; [reflexivity |].
    eexists. split; reflexivity.
  - intros result.
    destruct (fst (extractFrom compositeResult)) as [extractedJewelry | message];
      cbn [bind tryCatch]; [| discriminate].
    unfold calculateSimilarity.
    destruct (normalizeForComparison originalJewelry) as [normalizedOriginal |];
      cbn [bind]; [| discriminate].
    destruct (normalizeForComparison extractedJewelry) as [normalizedExtracted |];
      cbn [bind]; [| discriminate].
    destruct (calculateHistogramSimilarity normalizedOriginal normalizedExtracted)
      as [histogram |]; cbn [bind]; [| discriminate].
    destruct (calculateStructuralSimilarity normalizedOriginal normalizedExtracted)
      as [structural |]; cbn [bind]; [| discriminate].
    destruct (calculatePerceptualSimilarity normalizedOriginal normalizedExtracted)
      as [perceptual |]; cbn [bind]; [| discriminate].
    destruct (detectColorChanges originalJewelry extractedJewelry) as [color |] eqn:Ec;
      cbn [bind]; [| discriminate].
    destruct (detectShapeChanges originalJewelry extractedJewelry) as [shape |] eqn:Es;
      cbn [bind]; [| discriminate].
    destruct (detectTextureChanges originalJewelry extractedJewelry) as [texture |] eqn:Et;
      cbn [bind]; [| discriminate].
    destruct (detectSizeChanges originalJewelry extractedJewelry) as [size |] eqn:Ez;
      cbn [bind]; [| discriminate].
    intros Hresult. inversion Hresult; subst result. clear Hresult. cbv zeta.
    cbn [validation detailedMetrics similarity isValid histogramSimilarity
         structuralSimilarity perceptualSimilarity colorDeviation shapeDeviation
         textureDeviation sizeDeviation].
    split; [reflexivity |]. split; [reflexivity |].
    intros Hvalid. apply andb_true_iff in Hvalid as [Hsim Hnone].
    apply Qle_bool_iff in Hsim.
    apply Nat.eqb_eq, length_zero_iff_nil, app_eq_nil in Hnone as [Hdev _].
    apply detectDeviations_nil_iff in Hdev
      as (color' & shape' & texture' & size' & Hc & Hs & Ht & Hz & Hcl & Hsl & Htl & Hzl).
    rewrite Ec in Hc. rewrite Es in Hs. rewrite Et in Ht. rewrite Ez in Hz.
    inversion Hc; inversion Hs; inversion Ht; inversion Hz; subst.
    repeat split; assumption.
Qed.

End ReportProperties.

Lemma generateValidationReport_agrees_witness :
  Validator.generateValidationReport Fixture.Image Fixture.Image
    Fixture.metadata Fixture.rawPixels Fixture.extract Fixture.stats Fixture.sqrt3
    Fixture.toFixed1 Fixture.metallicEverywhere Fixture.nothingFound Fixture.nothingFound
    (Fixture.derive "normalized") Fixture.alike Fixture.alike Fixture.alike
    Fixture.unchanged Fixture.unchanged Fixture.unchanged Fixture.unchanged
    Fixture.jewelryPhoto Fixture.Corrupt (2 # 100)
  = Throw "Input buffer contains unsupported image format"%string.
Proof.
  exact (proj1 (proj1 (generateValidationReport_agrees Fixture.Image Fixture.Image
                         Fixture.metadata Fixture.rawPixels Fixture.extract Fixture.stats
                         Fixture.sqrt3 Fixture.toFixed1 Fixture.metallicEverywhere
                         Fixture.nothingFound Fixture.nothingFound
                         (Fixture.derive "normalized") Fixture.alike Fixture.alike
                         Fixture.alike Fixture.unchanged Fixture.unchanged
                         Fixture.unchanged Fixture.unchanged
                         Fixture.jewelryPhoto Fixture.Corrupt (2 # 100))
                  "Input buffer contains unsupported image format"%string eq_refl)).
Defined.

(** ** The pixel loop of the basic background removal *)

Section BackgroundPixels.

Import BackgroundRemoval.

Lemma byte_lookup (data : list Z) (j : nat) :
  (j < length data)%nat -> data !! j = Some (byte data j).
Proof.
  intros Hj. unfold byte. destruct (lookup_lt_is_Some_2 data j Hj) as [v ->]. reflexivity.
Qed.

Lemma pixelLoop_length (fuel : nat) :
  forall (channels i : nat) (data processedData : list Z),
    length (pixelLoop fuel channels i data processedData) = length processedData.
Proof.
  induction fuel as [| fuel IH]; intros channels i data processedData;
    cbn [pixelLoop]; [reflexivity |].
  destruct (i <? length data)%nat; [| reflexivity].
  rewrite IH. now rewrite !length_insert.
Qed.

(** With fewer than four channels every alpha value the loop writes is
    overwritten by the next pixel or falls past the end. *)
Lemma pixelLoop_copies (fuel : nat) :
  forall (channels i : nat) (data processedData : list Z),
    (1 <= channels <= 3)%nat ->
    length processedData = length data ->
    (length data <= i + fuel)%nat ->
    (forall j, (j < i)%nat -> processedData !! j = data !! j) ->
    pixelLoop fuel channels i data processedData = data.
Proof.
  assert (Hdone : forall (i : nat) (data processedData : list Z),
             length processedData = length data ->
             (length data <= i)%nat ->
             (forall j, (j < i)%nat -> processedData !! j = data !! j) ->
             processedData = data).
  { intros i data processedData Hlen Hi Hsame. apply list_eq. intros j.
    destruct (Nat.lt_ge_cases j (length data)) as [Hj | Hj]; [apply Hsame; lia |].
    rewrite !lookup_ge_None_2 by lia. reflexivity. }
  induction fuel as [| fuel IH]; intros channels i data processedData Hc Hlen Hfuel Hsame;
    cbn [pixelLoop].
  - apply (Hdone i); [exact Hlen | lia | exact Hsame].
  - destruct (i <? length data)%nat eqn:Hi.
    2:{ apply Nat.ltb_ge in Hi. now apply (Hdone i). }
    apply Nat.ltb_lt in Hi. apply IH; [exact Hc | now rewrite !length_insert | lia |].
    intros j Hj.
    destruct (Nat.lt_ge_cases j (length data)) as [Hjl | Hjl].
    2:{ rewrite !lookup_ge_None_2; [reflexivity | lia | rewrite !length_insert; lia]. }
    rewrite list_lookup_insert_ne by lia.
    destruct (decide (j = i + 2)%nat) as [-> | N2].
    { rewrite list_lookup_insert_eq by (rewrite !length_insert; lia).
      symmetry. now apply byte_lookup. }
    rewrite list_lookup_insert_ne by lia.
    destruct (decide (j = i + 1)%nat) as [-> | N1].
    { rewrite list_lookup_insert_eq by (rewrite !length_insert; lia).
      symmetry. now apply byte_lookup. }
    rewrite list_lookup_insert_ne by lia.
    destruct (decide (j = i)) as [-> | N0].
    { rewrite list_lookup_insert_eq by lia. symmetry. now apply byte_lookup. }
    rewrite list_lookup_insert_ne by lia. apply Hsame. lia.
Qed.

(** With four channels the bytes below the loop index are final: colours
    are copied, and the alpha of a background pixel is 0. *)
Lemma pixelLoop_alpha (fuel : nat) :
  forall (k : nat) (data processedData : list Z),
    length processedData = length data ->
    (length data <= 4 * k + 4 * fuel)%nat ->
    forall j pixel,
      ((4 * pixel + 3 < length data)%nat ->
       (j < 4)%nat ->
       (pixel < k)%nat ->
       processedData !! (4 * pixel + j)%nat
       = Some (if (j =? 3)%nat
               then if isBackgroundPixel (byte data (4 * pixel)) (byte data (4 * pixel + 1))
                         (byte data (4 * pixel + 2)) (byte data (4 * pixel + 3))
                    then 0%Z else byte data (4 * pixel + 3)
               else byte data (4 * pixel + j))) ->
      (4 * pixel + 3 < length data)%nat ->
      (j < 4)%nat ->
      pixelLoop fuel 4 (4 * k) data processedData !! (4 * pixel + j)%nat
      = Some (if (j =? 3)%nat
              then if isBackgroundPixel (byte data (4 * pixel)) (byte data (4 * pixel + 1))
                        (byte data (4 * pixel + 2)) (byte data (4 * pixel + 3))
                   then 0%Z else byte data (4 * pixel + 3)
              else byte data (4 * pixel + j)).
Proof.
  induction fuel as [| fuel IH]; intros k data processedData Hlen Hfuel j pixel Hdone Hin Hj;
    cbn [pixelLoop].
  - apply Hdone; [exact Hin | exact Hj | lia].
  - destruct (4 * k <? length data)%nat eqn:Hk.
    2:{ apply Nat.ltb_ge in Hk. apply Hdone; [exact Hin | exact Hj | lia]. }
    apply Nat.ltb_lt in Hk. cbn [Nat.eqb].
    replace (4 * k + 4)%nat with (4 * S k)%nat by lia.
    apply IH; [now rewrite !length_insert | lia | | exact Hin | exact Hj].
    intros _ _ Hpixel.
    destruct (decide (pixel = k)) as [-> | Hne].
    + destruct j as [| [| [| [| j]]]]; try lia; cbn [Nat.eqb].
      * rewrite Nat.add_0_r. rewrite !list_lookup_insert_ne by lia.
        rewrite list_lookup_insert_eq by lia. reflexivity.
      * rewrite !list_lookup_insert_ne by lia.
        rewrite list_lookup_insert_eq by (rewrite !length_insert; lia). reflexivity.
      * rewrite list_lookup_insert_ne by lia.
        rewrite list_lookup_insert_eq by (rewrite !length_insert; lia). reflexivity.
      * rewrite list_lookup_insert_eq by (rewrite !length_insert; lia). reflexivity.
    + rewrite !list_lookup_insert_ne by lia. apply Hdone; [exact Hin | exact Hj | lia].
Qed.

(** X30: the buffer that [removeBackground] builds always has the length of
    the decoded input. For an image with four channels every complete pixel
    keeps its colours, and its alpha becomes 0 when [isBackgroundPixel]
    holds and is kept otherwise. For an image with one to three channels
    the buffer is the input unchanged: no pixel is made transparent. *)
Theorem processPixels_by_channels (channels : nat) (data : list Z) :
  length (processPixels channels data) = length data
  /\ ((1 <= channels <= 3)%nat -> processPixels channels data = data)
  /\ (channels = 4%nat ->
      forall pixel,
        (4 * pixel + 3 < length data)%nat ->
        let r := byte data (4 * pixel) in
        let g := byte data (4 * pixel + 1) in
        let b := byte data (4 * pixel + 2) in
        let a := byte data (4 * pixel + 3) in
        processPixels channels data !! (4 * pixel)%nat = Some r
        /\ processPixels channels data !! (4 * pixel + 1)%nat = Some g
        /\ processPixels channels data !! (4 * pixel + 2)%nat = Some b
        /\ processPixels channels data !! (4 * pixel + 3)%nat
           = Some (if isBackgroundPixel r g b a then 0%Z else a)).
Proof.
  unfold processPixels. split; [| split].
  - rewrite pixelLoop_length. apply length_replicate.
  - intros Hc. apply pixelLoop_copies; [exact Hc | apply length_replicate | lia |].
    intros j Hj. lia.
  - intros -> pixel Hin. cbv zeta.
    assert (Hall : forall j,
               (j < 4)%nat ->
               pixelLoop (length data) 4 (4 * 0) data (replicate (length data) 0%Z)
                 !! (4 * pixel + j)%nat
               = Some (if (j =? 3)%nat
                       then if isBackgroundPixel (byte data (4 * pixel))
                                 (byte data (4 * pixel + 1)) (byte data (4 * pixel + 2))
                                 (byte data (4 * pixel + 3))
                            then 0%Z else byte data (4 * pixel + 3)
                       else byte data (4 * pixel + j))).
    { intros j Hj. apply pixelLoop_alpha; [apply length_replicate | lia | | exact Hin | exact Hj].
      intros _ _ Hpixel. lia. }
    change (4 * 0)%nat with 0%nat in Hall.
    pose proof (Hall 0%nat ltac:(lia)) as H0. pose proof (Hall 1%nat ltac:(lia)) as H1.
    pose proof (Hall 2%nat ltac:(lia)) as H2. pose proof (Hall 3%nat ltac:(lia)) as H3.
    cbn [Nat.eqb] in H0, H1, H2, H3. rewrite Nat.add_0_r in H0.
    repeat split; assumption.
Qed.

End BackgroundPixels.

Lemma processPixels_by_channels_witness :
  BackgroundRemoval.processPixels 3 [250; 250; 250; 10; 20; 30]%Z
  = [250; 250; 250; 10; 20; 30]%Z.
Proof.
  apply (proj1 (proj2 (processPixels_by_channels 3 [250; 250; 250; 10; 20; 30]%Z))). lia.
Defined.
